(** * ppt-generator: the backend of the slide-deck generator

    A shallow embedding of [backend.py]: the slide-count heuristic, the
    outline extractor, the slide coercion, the Ollama client and the
    generation coordinator, followed by the properties the specification
    states about them.

    Python strings are sequences of Unicode code points; library functions
    whose tables are not part of the repository (case mapping, [repr],
    comparisons that involve floats or containers, [json.loads],
    [ast.literal_eval], [str.format]) are fields of a [PyRuntime] record,
    and everything outside the function (the configuration file and the
    cache of [load_config], the model process, the layouts of the
    presentation, the renderer, the moments at which the stop flag is seen
    set) is a field of a [World] record. *)

From Stdlib Require Import String Ascii List ZArith NArith QArith Qround Bool Lia DecimalString.
Import ListNotations.

Set Implicit Arguments.
Set Warnings "-register-all,-abstract-large-number".

(* ===================================================================== *)
(** * Python strings *)
(* ===================================================================== *)

(** A character is a code point, a [str] a list of them. *)
Definition char := N.
Definition str := list char.

(** An ASCII literal as a [str]. *)
Definition cps (s : string) : str := map N_of_ascii (list_ascii_of_string s).

Definition char_eqb (a b : char) : bool := N.eqb a b.
Arguments char_eqb : simpl never.

Fixpoint str_eqb (a b : str) : bool :=
  match a, b with
  | [], [] => true
  | x :: a', y :: b' => char_eqb x y && str_eqb a' b'
  | _, _ => false
  end.

(** [Py_UNICODE_ISSPACE]: the characters [str.strip], [str.split] and the
    regular-expression class [\s] treat as whitespace. *)
Definition is_space (c : char) : bool :=
  (((9 <=? c) && (c <=? 13)) || ((28 <=? c) && (c <=? 32))
   || (c =? 133) || (c =? 160) || (c =? 5760)
   || ((8192 <=? c) && (c <=? 8202))
   || (c =? 8232) || (c =? 8233) || (c =? 8239) || (c =? 8287)
   || (c =? 12288))%N.
Arguments is_space : simpl never.

Fixpoint lstrip (s : str) : str :=
  match s with
  | c :: s' => if is_space c then lstrip s' else s
  | [] => []
  end.

Definition rstrip (s : str) : str := rev (lstrip (rev s)).

(** [s.strip()] *)
Definition strip (s : str) : str := rstrip (lstrip s).

(** [s.split()]: the maximal runs of non-whitespace characters.  [cur] is
    the run being read, in reverse. *)
Fixpoint split_from (cur : str) (s : str) : list str :=
  match s with
  | [] => match cur with [] => [] | _ => [rev cur] end
  | c :: s' =>
      if is_space c
      then match cur with
           | [] => split_from [] s'
           | _ => rev cur :: split_from [] s'
           end
      else split_from (c :: cur) s'
  end.

Definition split (s : str) : list str := split_from [] s.

(** [s.startswith(p)] *)
Fixpoint startswith (p s : str) : bool :=
  match p, s with
  | [], _ => true
  | a :: p', b :: s' => char_eqb a b && startswith p' s'
  | _ :: _, [] => false
  end.

(** [p in s] for strings. *)
Fixpoint contains (p s : str) : bool :=
  startswith p s ||
  match s with
  | [] => false
  | _ :: s' => contains p s'
  end.

(** [s.count(c)] for a one-character needle. *)
Definition count_char (c : char) (s : str) : nat :=
  length (filter (char_eqb c) s).

(** [s.find(c)] for a one-character needle: [None] stands for [-1]. *)
Fixpoint find_char (c : char) (s : str) : option nat :=
  match s with
  | [] => None
  | x :: s' => if char_eqb c x then Some 0%nat
               else option_map S (find_char c s')
  end.

(** [s.replace(old, new)] for a non-empty [old]: leftmost occurrences,
    not overlapping.  The fuel is the length of what is left to read. *)
Fixpoint replace_fuel (fuel : nat) (old new s : str) : str :=
  match fuel with
  | O => s
  | S fuel' =>
      match s with
      | [] => []
      | c :: s' =>
          if startswith old s
          then new ++ replace_fuel fuel' old new (skipn (length old) s)
          else c :: replace_fuel fuel' old new s'
      end
  end.

Definition replace (old new s : str) : str :=
  match old with
  | [] => s
  | _ => replace_fuel (length s) old new s
  end.

(** ASCII case folding, the restriction of [str.lower] to ASCII text. *)
Definition ascii_lower_char (c : char) : char :=
  if (65 <=? c)%N && (c <=? 90)%N then (c + 32)%N else c.

Definition ascii_lower (s : str) : str := map ascii_lower_char s.

(* ===================================================================== *)
(** * Content analysis: [estimate_slide_count_from_keywords] *)
(* ===================================================================== *)

Definition broad_keywords : list str :=
  map cps ["overview"; "introduction"; "complete"; "comprehensive"; "full"; "entire"]%string.
Definition process_keywords : list str :=
  map cps ["process"; "steps"; "workflow"; "procedure"; "implementation"]%string.
Definition training_keywords : list str :=
  map cps ["training"; "course"; "learning"; "education"; "tutorial"]%string.

(** [sum(v for word in words if word in text)] is [v] times the number of
    keywords of the family that the text contains. *)
Definition keywords_in (words : list str) (text : str) : nat :=
  length (filter (fun word => contains word text) words).

(** [int(x)] on a float: truncation towards zero. *)
Definition py_int (x : Q) : Z := Z.quot (Qnum x) (Zpos (Qden x)).

Definition comma : char := 44%N.

Section ContentAnalysis.

(** [str.lower], whose Unicode tables are CPython's. *)
Variable str_lower : str -> str.

(** The score before [+ 5].  Every term is a multiple of one half, and
    binary floating point holds such numbers exactly far beyond the length
    of any text that fits in memory, so the rationals compute what the
    floats do. *)
Local Open Scope Q_scope.

Definition keyword_score (user_input : str) : Q :=
  let text := str_lower user_input in
  let score := 0 in
  let score := score + 2 * inject_Z (Z.of_nat (keywords_in broad_keywords text)) in
  let score := score + 1.5 * inject_Z (Z.of_nat (keywords_in process_keywords text)) in
  let score := score + 2 * inject_Z (Z.of_nat (keywords_in training_keywords text)) in
  let score := score + inject_Z (Z.of_nat (count_char comma text)) * 0.5 in
  let score := score + inject_Z (Z.of_nat (length (split user_input)) / 25)%Z in
  score.

Definition estimate_slide_count_from_keywords (user_input : str) : Z :=
  Z.max 3 (Z.min 18 (py_int (keyword_score user_input + 5))).

Local Close Scope Q_scope.

End ContentAnalysis.

(* ===================================================================== *)
(** * Python values, exceptions, and the effects of the backend *)
(* ===================================================================== *)

(** What [json.loads] and [ast.literal_eval] can return.  Floats and the
    literals the backend never looks into (bytes, sets, complex numbers)
    are carried by their printed form: the code prints them, and compares
    them through the runtime. *)
Inductive pyval : Type :=
| PNone
| PBool (b : bool)
| PInt (z : Z)
| PFloat (shown : str)
| PStr (s : str)
| PList (items : list pyval)
| PTuple (items : list pyval)
| PDict (entries : list (pyval * pyval))
| POther (shown : str).

(** [isinstance(v, list)] *)
Definition is_list (v : pyval) : bool := match v with PList _ => true | _ => false end.

(** [type(v).__name__], for the messages of [TypeError] and
    [AttributeError].  The values carried by their printed form do not
    come out of [json.load]; theirs is left open. *)
Definition type_name (v : pyval) : str :=
  cps match v with
      | PNone => "NoneType"
      | PBool _ => "bool"
      | PInt _ => "int"
      | PFloat _ => "float"
      | PStr _ => "str"
      | PList _ => "list"
      | PTuple _ => "tuple"
      | PDict _ => "dict"
      | POther _ => "object"
      end.

(** [d.get(key, default)] for a string key: the entries of a dict have
    distinct keys, and only a string key equals a string. *)
Fixpoint dict_get (entries : list (pyval * pyval)) (key : str) (default : pyval) : pyval :=
  match entries with
  | [] => default
  | (PStr k, v) :: rest => if str_eqb k key then v else dict_get rest key default
  | _ :: rest => dict_get rest key default
  end.

(** [key in d] for a string key. *)
Fixpoint dict_has (entries : list (pyval * pyval)) (key : str) : bool :=
  match entries with
  | [] => false
  | (PStr k, _) :: rest => str_eqb k key || dict_has rest key
  | _ :: rest => dict_has rest key
  end.

(** [l[:n]] with Python's reading of a negative bound. *)
Definition slice_to (A : Type) (l : list A) (n : Z) : list A :=
  if (n <? 0)%Z
  then firstn (Z.to_nat (Z.max 0 (Z.of_nat (length l) + n))) l
  else firstn (Z.to_nat n) l.

(** The exception classes the backend raises or names in a handler; any
    other subclass of [Exception] is [OtherException] with its class name. *)
Inductive exn_class : Type :=
| GenerationStopped
| PPTGenerationError
| TimeoutExpired
| FileNotFoundError
| OtherException (name : str).

(** An exception with [str(e)]. *)
Record exn : Type := Exn { exn_cls : exn_class; exn_str : str }.

Definition type_error (message : string) : exn :=
  Exn (OtherException (cps "TypeError")) (cps message).

(** Code that can raise and calls nothing outside: the value or the
    exception. *)
Definition and_then (A B : Type) (r : exn + A) (k : A -> exn + B) : exn + B :=
  match r with
  | inl e => inl e
  | inr x => k x
  end.

(** The bound of [l[:bound]]: an integer (a [bool] is one), or [None] for
    no bound; anything else is not an index. *)
Definition slice_bound (bound : pyval) : exn + option Z :=
  match bound with
  | PInt z => inr (Some z)
  | PBool b => inr (Some (if b then 1 else 0)%Z)
  | PNone => inr None
  | _ => inl (type_error
                "slice indices must be integers or None or have an __index__ method")
  end.

(** [l[:bound]] *)
Definition py_slice_to (A : Type) (l : list A) (bound : pyval) : exn + list A :=
  and_then (slice_bound bound)
    (fun n => inr match n with
                  | Some n => slice_to l n
                  | None => l
                  end).

(** A slide as the coercion step builds it:
    [{"title": title, "points": clean_points}]. *)
Record Slide : Type := mkSlide { title : str; points : list str }.

(** What [create_presentation] writes on a slide it adds: the title, when
    the layout of the slide has a title placeholder, and the paragraphs of
    the content frame.  The slides a template already holds are not
    touched and stay in front of the added ones. *)
Record RenderedSlide : Type := mkRendered { r_title : option str; r_paragraphs : list str }.

(** The calls that leave the function.  [EvLoadConfig] is the call of
    [load_config], which reads the disk unless its cache is filled;
    [EvSave] is the work of python-pptx, with the slides the code adds. *)
Inductive event : Type :=
| EvLoadConfig
| EvPopen (model : pyval)
| EvCommunicate (prompt : str) (timeout : pyval)
| EvKill
| EvPathExists (path : str)
| EvSave (added : list RenderedSlide) (template : option str)
         (font_name : str) (font_size : Z).

(** ** The monad: exceptions and the log of external calls *)

Definition M (A : Type) : Type := list event * (exn + A).

Definition ret (A : Type) (x : A) : M A := ([], inr x).

Definition raise (A : Type) (e : exn) : M A := ([], inl e).
Arguments raise {A} e.

Definition bind (A B : Type) (m : M A) (f : A -> M B) : M B :=
  match m with
  | (log, inl e) => (log, inl e)
  | (log, inr x) => let (log', r) := f x in (log ++ log', r)
  end.

(** [try: m  except <any>: handler(e)] *)
Definition try_except (A : Type) (m : M A) (handler : exn -> M A) : M A :=
  match m with
  | (log, inl e) => let (log', r) := handler e in (log ++ log', r)
  | (log, inr x) => (log, inr x)
  end.

(** An external call: it is logged, then returns or raises what the
    outside world decides. *)
Definition call (A : Type) (ev : event) (outcome : exn + A) : M A := ([ev], outcome).

(** A library call that can raise but leaves no trace. *)
Definition lift (A : Type) (outcome : exn + A) : M A := ([], outcome).

Definition outcome (A : Type) (m : M A) : exn + A := snd m.
Definition trace (A : Type) (m : M A) : list event := fst m.

Declare Scope py_scope.
Delimit Scope py_scope with py.
Notation "x <- m ;; k" := (bind m (fun x => k))
  (at level 61, m at next level, right associativity) : py_scope.
Notation "m ;;; k" := (bind m (fun _ => k))
  (at level 61, right associativity) : py_scope.
Notation "x <~ r ;; k" := (and_then r (fun x => k))
  (at level 61, r at next level, right associativity) : py_scope.

(** ** The Python runtime and the outside world *)

(** The two comparisons [min] and [max] make. *)
Inductive compare_op : Type := OpLt | OpGt.

(** Library functions of CPython that the backend calls.
    [int_max_str_digits] is [sys.get_int_max_str_digits()], 4300 unless it
    was configured, and 0 for no limit.  [py_repr] is [repr] (that is,
    [str]) of containers and of the values carried by their printed form;
    it raises what printing an item raises.  [rich_compare] is [a < b] or
    [a > b] for operands that are not both integers. *)
Record PyRuntime : Type := mkRuntime {
  str_lower : str -> str;
  int_max_str_digits : N;
  py_repr : pyval -> exn + str;
  rich_compare : compare_op -> pyval -> pyval -> exn + bool;
  json_loads : str -> exn + pyval;
  literal_eval : str -> exn + pyval;
  str_format : str -> list (str * pyval) -> exn + str
}.

Definition dquote : char := 34%N.
Definition squote : char := 39%N.
Definition bullet : char := 8226%N.      (* U+2022 *)
Definition en_dash : char := 8211%N.     (* U+2013 *)
Definition em_dash : char := 8212%N.     (* U+2014 *)
Definition hyphen : char := 45%N.

(** Decimal digits of a Python int. *)
Definition str_of_Z (z : Z) : str := cps (NilEmpty.string_of_int (Z.to_int z)).

(** An integer has more decimal digits, the sign not counted, than the
    limit allows. *)
Definition exceeds_str_digits (limit : N) (z : Z) : bool :=
  (0 <? limit)%N && (limit <? N.of_nat (length (str_of_Z (Z.abs z))))%N.

Definition str_digits_error (limit : N) : exn :=
  Exn (OtherException (cps "ValueError"))
      (cps "Exceeds the limit (" ++ str_of_Z (Z.of_N limit)
       ++ cps " digits) for integer string conversion; use sys.set_int_max_str_digits() to increase the limit").

(** [str(z)] for an integer: it raises beyond the limit on digits. *)
Definition int_str (rt : PyRuntime) (z : Z) : exn + str :=
  if exceeds_str_digits (int_max_str_digits rt) z
  then inl (str_digits_error (int_max_str_digits rt))
  else inr (str_of_Z z).

(** [str(v)], which is also [format(v, "")] and what an f-string puts
    for [{v}]. *)
Definition py_str (rt : PyRuntime) (v : pyval) : exn + str :=
  match v with
  | PStr s => inr s
  | PNone => inr (cps "None")
  | PBool true => inr (cps "True")
  | PBool false => inr (cps "False")
  | PInt z => int_str rt z
  | PFloat shown => inr shown
  | PList _ | PTuple _ | PDict _ | POther _ => py_repr rt v
  end.

(* ===================================================================== *)
(** * JSON processing: [extract_and_parse_json] *)
(* ===================================================================== *)

Local Open Scope py_scope.

(** ** Strategy 1: the [<json>] block

    [re.search(r"<json>\s*(.*?)\s*</json>", text, re.DOTALL | re.IGNORECASE)].
    Under [IGNORECASE] a letter of the pattern matches its two cases, and
    [s] also matches U+017F (long s). *)
Definition ci_match (p c : char) : bool :=
  (char_eqb p c
   || ((97 <=? p) && (p <=? 122) && (c =? p - 32))
   || ((p =? 115) && (c =? 383)))%N.

Fixpoint ci_startswith (p s : str) : bool :=
  match p, s with
  | [], _ => true
  | a :: p', b :: s' => ci_match a b && ci_startswith p' s'
  | _ :: _, [] => false
  end.

Definition open_tag : str := cps "<json>".
Definition close_tag : str := cps "</json>".

(** The text before the first place where [tag] matches. *)
Fixpoint before_tag (tag s : str) : option str :=
  if ci_startswith tag s then Some []
  else match s with
       | [] => None
       | c :: s' => option_map (cons c) (before_tag tag s')
       end.

(** What follows the first place where [tag] matches. *)
Fixpoint after_tag (tag s : str) : option str :=
  if ci_startswith tag s then Some (skipn (length tag) s)
  else match s with
       | [] => None
       | _ :: s' => after_tag tag s'
       end.

(** [json_match.group(1)] when the search succeeds.  The match starts at
    the first opening tag; the lazy group ends before the whitespace that
    precedes the first closing tag after it, and the greedy [\s*] in front
    has taken the whitespace that follows the opening tag. *)
Definition json_match_group1 (text : str) : option str :=
  match after_tag open_tag text with
  | None => None
  | Some rest => option_map (fun body => rstrip (lstrip body)) (before_tag close_tag rest)
  end.

(** ** Strategy 2: the first bracketed array

    The loop over [text[start:]]: [seen] is what was read, in reverse, so
    that [rev (ch :: seen)] is [text[start:i+1]]; running out of text is
    the loop's [else: return None]. *)
Definition lbracket : char := 91%N.
Definition rbracket : char := 93%N.
Definition rbrace : char := 125%N.

Fixpoint scan_array (depth : Z) (seen : str) (s : str) : option str :=
  match s with
  | [] => None
  | ch :: s' =>
      if char_eqb ch lbracket then scan_array (depth + 1) (ch :: seen) s'
      else if char_eqb ch rbracket then
        let depth := (depth - 1)%Z in
        if (depth =? 0)%Z then Some (rev (ch :: seen))
        else scan_array depth (ch :: seen) s'
      else scan_array depth (ch :: seen) s'
  end.

Definition first_array (text : str) : option str :=
  match find_char lbracket text with
  | None => None
  | Some start => option_map strip (scan_array 0 [] (skipn start text))
  end.

(** ** Cleaning *)

(** [re.sub(r",\s*([\]\}])", r"\1", s)]: a comma, the whitespace after it
    and a closing bracket become the bracket.  [pending] holds a comma and
    the whitespace read after it, in reverse, until the next character
    decides whether they are dropped. *)
Fixpoint drop_trailing_commas (pending : option str) (s : str) : str :=
  match s with
  | [] => match pending with Some p => rev p | None => [] end
  | c :: s' =>
      match pending with
      | None =>
          if char_eqb c comma then drop_trailing_commas (Some [c]) s'
          else c :: drop_trailing_commas None s'
      | Some p =>
          if is_space c then drop_trailing_commas (Some (c :: p)) s'
          else if char_eqb c rbracket || char_eqb c rbrace
               then c :: drop_trailing_commas None s'
          else if char_eqb c comma
               then rev p ++ drop_trailing_commas (Some [c]) s'
          else rev p ++ c :: drop_trailing_commas None s'
      end
  end.

(** The first two [replace] calls of the source are written with three
    double quotes in a row, so Python reads them as one call whose needle
    is the text between the two triple quotes. *)
Definition quote_needle : str := cps ", '" ++ [dquote] ++ cps "').replace(".

Definition clean_json (json_str : str) : str :=
  let json_str :=
    replace [em_dash] [hyphen]
      (replace [en_dash] [hyphen]
         (replace [squote] [squote]
            (replace [squote] [squote]
               (replace quote_needle [dquote] json_str)))) in
  drop_trailing_commas None json_str.

(** ** Parse attempts *)

Section Extraction.

Variable rt : PyRuntime.

(** [for parser in parsers: try: ... except: continue] then [return None]. *)
Fixpoint parse_attempts (parsers : list (str -> exn + pyval)) (json_str : str)
  : M (option (list pyval)) :=
  match parsers with
  | [] => ret None
  | parser :: rest =>
      found <- try_except
                 (result <- lift (parser json_str) ;;
                  match result with
                  | PList items => ret (Some items)
                  | _ => ret None
                  end)
                 (fun _ => ret None) ;;
      match found with
      | Some items => ret (Some items)
      | None => parse_attempts rest json_str
      end
  end.

Definition extract_and_parse_json (text : str) : M (option (list pyval)) :=
  match text with
  | [] => ret None
  | _ =>
      let candidate :=
        match json_match_group1 text with
        | Some group1 => Some (strip group1)
        | None => first_array text
        end in
      match candidate with
      | None => ret None
      | Some json_str =>
          parse_attempts [json_loads rt; literal_eval rt] (clean_json json_str)
      end
  end.

(** * Slide coercion: [validate_and_coerce_slides] *)

Definition untitled : str := cps "Untitled Slide".

(** The inner loop: the entries that are strings and not blank, stripped. *)
Fixpoint clean_points (pts : list pyval) : list str :=
  match pts with
  | [] => []
  | PStr point :: rest =>
      match strip point with
      | [] => clean_points rest
      | stripped => stripped :: clean_points rest
      end
  | _ :: rest => clean_points rest
  end.

(** The body of the outer loop for one item: [None] is [continue].
    [str()] of the title is the one step that can raise. *)
Definition coerce_item (item : pyval) : exn + option Slide :=
  match item with
  | PDict entries =>
      title <~ py_str rt (dict_get entries (cps "title") (PStr untitled)) ;;
      let pts := dict_get entries (cps "points") (PList []) in
      let pts := match pts with PList l => l | _ => [] end in
      inr (Some (mkSlide title (clean_points pts)))
  | _ => inr None
  end.

Fixpoint coerce_items (items : list pyval) : exn + list Slide :=
  match items with
  | [] => inr []
  | item :: rest =>
      coerced <~ coerce_item item ;;
      slides <~ coerce_items rest ;;
      inr match coerced with
          | Some slide => slide :: slides
          | None => slides
          end
  end.

Definition validate_and_coerce_slides (data : list pyval) (max_slides : pyval)
  : exn + list Slide :=
  kept <~ py_slice_to data max_slides ;;
  coerce_items kept.

End Extraction.

(* ===================================================================== *)
(** * Configuration: [load_config] *)
(* ===================================================================== *)

Definition nl : str := [10%N].
Definition backslash : char := 92%N.

Definition default_system_prompt : str :=
    cps "You are an intelligent slide generator AI that adapts presentation length to content complexity." ++ nl ++
    cps "You must produce ONLY a JSON array inside <json>...</json> tags." ++ nl ++
    cps "Each item MUST be an object: {" ++ [dquote] ++ cps "title" ++ [dquote] ++ cps ": string, "
      ++ [dquote] ++ cps "points" ++ [dquote] ++ cps ": [string, ...]}." ++ nl ++
    cps "Analyze the user's request and determine the optimal number of slides needed to cover the topic comprehensively." ++ nl ++ nl ++
    cps "Additional Requirements:" ++ nl ++
    cps "- Support mathematical content, including LaTeX-style equations (use $...$ inline or $$...$$ for block display)." ++ nl ++
    cps "- Include example problems and step-by-step solutions where relevant." ++ nl ++
    cps "- When coding or algorithms are needed, include short code snippets in markdown format (```python ... ```)." ++ nl ++
    cps "- Mix concepts, theory, and problem-solving for a comprehensive explanation.".

Definition default_adaptive_prompt_template : str :=
    cps "{system}" ++ nl ++ nl ++
    cps "User request:" ++ nl ++
    cps "{user_request}" ++ nl ++ nl ++
    cps "Rules:" ++ nl ++
    cps "- Return ONLY a JSON array inside <json>...</json>." ++ nl ++
    cps "- Do not include any text outside the JSON tags." ++ nl ++
    cps "- Slide 1: Title only (no points)." ++ nl ++
    cps "- Slides 2+: {min_points}-{max_points} bullet points (50" ++ [en_dash] ++ cps "60 words each)." ++ nl ++
    cps "- Use " ++ [bullet] ++ cps " at the start of every point." ++ nl ++
    cps "- Use LaTeX for equations, e.g., $E = mc^2$, or $$" ++ [backslash] ++ cps "int_0^1 x^2 dx = 1/3$$." ++ nl ++
    cps "- Provide example problems and step-by-step solutions if topic is mathematical." ++ nl ++
    cps "- When coding is useful, include code blocks inside points using markdown triple backticks." ++ nl ++
    cps "- Decide the number of slides (3" ++ [en_dash] ++ cps "20) based on topic complexity." ++ nl ++ nl.

(** [default_config.items()], in the order of the literal. *)
Definition default_config_items : list (str * pyval) :=
  [ (cps "system_prompt", PStr default_system_prompt);
    (cps "adaptive_prompt_template", PStr default_adaptive_prompt_template);
    (cps "min_points", PInt 4);
    (cps "max_points", PInt 12);
    (cps "max_slides", PInt 20);
    (cps "min_slides", PInt 3);
    (cps "model", PStr (cps "qwen3"));
    (cps "ollama_timeout", PInt 120) ].

Definition as_dict (items : list (str * pyval)) : pyval :=
  PDict (map (fun '(key, value) => (PStr key, value)) items).

Definition default_config : pyval := as_dict default_config_items.

(** [key not in config] is the negation of this.  A list holds the key
    when one of its items is that string, a string when the key occurs in
    it; numbers, booleans and [None] are not containers. *)
Definition py_in (key : str) (container : pyval) : exn + bool :=
  match container with
  | PDict entries => inr (dict_has entries key)
  | PList items | PTuple items =>
      inr (existsb (fun item => match item with
                                | PStr s => str_eqb s key
                                | _ => false
                                end) items)
  | PStr s => inr (contains key s)
  | _ => inl (Exn (OtherException (cps "TypeError"))
                  (cps "argument of type '" ++ type_name container
                   ++ cps "' is not iterable"))
  end.

(** [d[key] = value] on the entries of a dict: the value of a key that is
    there is replaced, a new key goes to the end. *)
Fixpoint dict_store (entries : list (pyval * pyval)) (key : str) (value : pyval)
  : list (pyval * pyval) :=
  match entries with
  | [] => [(PStr key, value)]
  | (PStr k, v) :: rest =>
      if str_eqb k key then (PStr k, value) :: rest
      else (PStr k, v) :: dict_store rest key value
  | entry :: rest => entry :: dict_store rest key value
  end.

(** [config[key] = value] *)
Definition py_setitem (container : pyval) (key : str) (value : pyval) : exn + pyval :=
  match container with
  | PDict entries => inr (PDict (dict_store entries key value))
  | PList _ => inl (type_error "list indices must be integers or slices, not str")
  | _ => inl (Exn (OtherException (cps "TypeError"))
                  ([squote] ++ type_name container
                   ++ cps "' object does not support item assignment"))
  end.

(** [for key, value in default_config.items(): if key not in config: ...] *)
Fixpoint merge_missing (defaults : list (str * pyval)) (config : pyval) : exn + pyval :=
  match defaults with
  | [] => inr config
  | (key, value) :: rest =>
      match py_in key config with
      | inl e => inl e
      | inr true => merge_missing rest config
      | inr false =>
          match py_setitem config key value with
          | inl e => inl e
          | inr config' => merge_missing rest config'
          end
      end
  end.

(** What [load_config] finds: no file, and then how writing the defaults
    ends; or a file, and then how opening and [json.load] end. *)
Inductive config_disk : Type :=
| NoConfigFile (written : exn + unit)
| ConfigFileHolds (loaded : exn + pyval).

(** The body of [load_config]: what it returns when it runs.  Every
    exception ends in the defaults. *)
Definition load_config_value (disk : config_disk) : pyval :=
  match disk with
  | NoConfigFile _ => default_config
  | ConfigFileHolds (inl _) => default_config
  | ConfigFileHolds (inr config) =>
      match merge_missing default_config_items config with
      | inr merged => merged
      | inl _ => default_config
      end
  end.

(** [@lru_cache(maxsize=1)]: the function is only ever called without
    arguments, so the cache holds the value of the first call that ran,
    and every later call returns it without looking at the disk.  A call
    gives the value and the cache it leaves. *)
Definition load_config_call (cache : option pyval) (disk : config_disk)
  : pyval * option pyval :=
  match cache with
  | Some cached => (cached, Some cached)
  | None => (load_config_value disk, Some (load_config_value disk))
  end.

(** Calls one after the other, each with the disk as it is at that time:
    the values they return. *)
Fixpoint load_config_calls (cache : option pyval) (disks : list config_disk)
  : list pyval :=
  match disks with
  | [] => []
  | disk :: later =>
      fst (load_config_call cache disk)
      :: load_config_calls (snd (load_config_call cache disk)) later
  end.

(** [config[key]] for a string key.  The message of the [KeyError] is the
    [repr] of the key, here for keys that are plain words. *)
Definition py_getitem (container : pyval) (key : str) : exn + pyval :=
  match container with
  | PDict entries =>
      if dict_has entries key then inr (dict_get entries key PNone)
      else inl (Exn (OtherException (cps "KeyError")) ([squote] ++ key ++ [squote]))
  | PStr _ => inl (type_error "string indices must be integers, not 'str'")
  | PList _ => inl (type_error "list indices must be integers or slices, not str")
  | PTuple _ => inl (type_error "tuple indices must be integers or slices, not str")
  | _ => inl (Exn (OtherException (cps "TypeError"))
                  ([squote] ++ type_name container
                   ++ cps "' object is not subscriptable"))
  end.

(** An integer as Python compares it: a [bool] is 0 or 1. *)
Definition as_int (v : pyval) : option Z :=
  match v with
  | PInt z => Some z
  | PBool b => Some (if b then 1 else 0)%Z
  | _ => None
  end.

(** [a < b] and [a > b] *)
Definition py_compare (rt : PyRuntime) (op : compare_op) (a b : pyval) : exn + bool :=
  match as_int a, as_int b with
  | Some x, Some y => inr match op with
                          | OpLt => (x <? y)%Z
                          | OpGt => (x >? y)%Z
                          end
  | _, _ => rich_compare rt op a b
  end.

(** [min(a, b)]: [b] if [b < a], else [a]. *)
Definition py_min (rt : PyRuntime) (a b : pyval) : exn + pyval :=
  below <~ py_compare rt OpLt b a ;;
  inr (if below then b else a).

(** [max(a, b)]: [b] if [b > a], else [a]. *)
Definition py_max (rt : PyRuntime) (a b : pyval) : exn + pyval :=
  above <~ py_compare rt OpGt b a ;;
  inr (if above then b else a).

(* ===================================================================== *)
(** * The outside world and the stop flag *)
(* ===================================================================== *)

(** The places where the backend reads [stop_event.is_set()], in program
    order: lines 474, 128, 163, 168, 183, 500, 508 and 527 of [backend.py]. *)
Inductive checkpoint : Type :=
| BeforeStarting
| AskOllamaEntry
| AfterCommunicate
| NonzeroExit
| InExceptHandler
| AfterResponse
| EmptyOutline
| BeforeRender.

Definition checkpoint_index (c : checkpoint) : nat :=
  match c with
  | BeforeStarting => 0
  | AskOllamaEntry => 1
  | AfterCommunicate => 2
  | NonzeroExit => 3
  | InExceptHandler => 4
  | AfterResponse => 5
  | EmptyOutline => 6
  | BeforeRender => 7
  end.

(** A [threading.Event] as the backend sees it: what [is_set()] answers at
    each checkpoint.  The flag is set by another thread. *)
Definition Event : Type := checkpoint -> bool.

(** The flag only ever goes from clear to set. *)
Definition one_way (ev : Event) : Prop :=
  forall a b, (checkpoint_index a <= checkpoint_index b)%nat -> ev a = true -> ev b = true.

(** [stop_event and stop_event.is_set()] *)
Definition stop_requested (stop_event : option Event) (c : checkpoint) : bool :=
  match stop_event with
  | Some ev => ev c
  | None => false
  end.

Record World : Type := mkWorld {
  (** what [lru_cache] holds for [load_config] when the run starts:
      [None] if the function has not run in this process *)
  config_cache : option pyval;
  config_on_disk : config_disk;
  (** [subprocess.Popen(["ollama", "run", model], ...)], and the start of
      the watcher thread ([check_stop]) when there is a stop event *)
  popen : pyval -> exn + unit;
  (** [communicate(input=prompt, timeout=...)] and the return code after it:
      [(stdout, stderr, returncode)].  The watcher thread that terminates
      the process when the flag is set acts on this outcome. *)
  communicate : str -> pyval -> exn + (str * str * Z);
  (** [len(prs.slide_layouts)], and whether a slide made from the layout
      of that index has a title placeholder ([slide_obj.shapes.title]) *)
  slide_layouts : nat;
  layout_has_title : nat -> bool;
  (** python-pptx building and saving the presentation: the path of the
      file. *)
  pptx_save : list RenderedSlide -> option str -> str -> Z -> exn + str;
  (** [os.path.exists] *)
  path_exists : str -> bool
}.

(* ===================================================================== *)
(** * The Ollama client, the renderer and the coordinator *)
(* ===================================================================== *)

Definition stopped_by_user : exn := Exn GenerationStopped (cps "Generation stopped by user").

Definition generation_error (message : str) : exn := Exn PPTGenerationError message.

Record Metadata : Type := mkMetadata {
  slide_count : nat;
  topic_echo : str;
  template_used : bool
}.

(** [point_text] in [create_presentation]: the point without the marker
    the model was asked to put in front of it (the same code in the three
    placement strategies). *)
Definition point_text (point : str) : str :=
  let point_text := strip point in
  let point_text :=
    if startswith [bullet] point_text then strip (tl point_text) else point_text in
  let point_text :=
    if startswith [hyphen] point_text then strip (tl point_text) else point_text in
  point_text.

(** [p.text = f"• {point_text}"] *)
Definition bullet_text (point : str) : str := [bullet; 32%N] ++ point_text point.

(** The layout of slide [idx]: the first one for the first slide, the
    second one for the others when there is one. *)
Definition layout_index (layouts : nat) (idx : nat) : nat :=
  match idx with
  | O => 0
  | S _ => if (1 <? layouts)%nat then 1 else 0
  end.

(** The fallback outline of [generate_presentation], as the literal the
    source assigns to [slides_data]. *)
Definition fallback_outline (topic : str) : list pyval :=
  [ PDict [ (PStr (cps "title"),
             PStr (match strip topic with [] => cps "Presentation" | t => t end));
            (PStr (cps "points"), PList []) ];
    PDict [ (PStr (cps "title"), PStr (cps "Overview"));
            (PStr (cps "points"),
             PList [ PStr (bullet :: cps " Key concepts and fundamentals");
                     PStr (bullet :: cps " Practical applications and examples");
                     PStr (bullet :: cps " Implementation strategies");
                     PStr (bullet :: cps " Best practices and considerations") ]) ] ].

(** What one generation takes from the configuration: the slide limit
    ([max_slides] after line 483), the prompt, and the two values read
    for the client. *)
Record Prepared : Type := mkPrepared {
  max_slides : pyval;
  prompt : str;
  ollama_timeout : pyval;
  model : pyval
}.

Section Coordinator.

Variable rt : PyRuntime.
Variable w : World.

(** What [load_config()] returns in this run. *)
Definition configuration : pyval := fst (load_config_call (config_cache w) (config_on_disk w)).

Definition load_config : M pyval := call EvLoadConfig (inr configuration).

(** Slide [idx] as it is laid out: the title where the layout has a
    placeholder for it, and bullet paragraphs only past the first slide and
    only when there are points. *)
Definition lay_out (idx : nat) (slide : Slide) : RenderedSlide :=
  let written_title :=
    if layout_has_title w (layout_index (slide_layouts w) idx)
    then Some (title slide) else None in
  match idx, points slide with
  | S _, _ :: _ => mkRendered written_title (map bullet_text (points slide))
  | _, _ => mkRendered written_title []
  end.

Fixpoint lay_out_from (idx : nat) (slides : list Slide) : list RenderedSlide :=
  match slides with
  | [] => []
  | slide :: rest => lay_out idx slide :: lay_out_from (S idx) rest
  end.

(** The handlers of [ask_ollama]'s [try].  [process] tells whether
    [self._process] was assigned when the exception arrived.  The message
    of the timeout prints [self.timeout], whatever it is. *)
Definition ask_ollama_handler (timeout : pyval) (stop_event : option Event)
    (process : bool) (e : exn) : M str :=
  match exn_cls e with
  | TimeoutExpired =>
      (if process then call EvKill (inr tt) else ret tt) ;;;
      shown <- lift (py_str rt timeout) ;;
      raise (generation_error
               (cps "Ollama request timed out after " ++ shown ++ cps " seconds"))
  | FileNotFoundError =>
      raise (generation_error (cps "Ollama executable not found. Please install Ollama."))
  | GenerationStopped => raise e
  | _ =>
      if stop_requested stop_event InExceptHandler then raise stopped_by_user
      else raise (generation_error (cps "Ollama request failed: " ++ exn_str e))
  end.

(** [OllamaClient(timeout).ask_ollama(prompt, model, stop_event)].  The
    two guarded stages below are the one [try] of the source; the error
    raised for a non-zero exit is inside the [try] and reaches the last
    handler. *)
Definition ask_ollama (timeout : pyval) (prompt : str) (model : pyval)
    (stop_event : option Event) : M str :=
  if stop_requested stop_event AskOllamaEntry then raise stopped_by_user
  else
    try_except (call (EvPopen model) (popen w model))
               (fun e => ask_ollama_handler timeout stop_event false e ;;; ret tt) ;;;
    try_except
      (out <- call (EvCommunicate prompt timeout) (communicate w prompt timeout) ;;
       let '(stdout, stderr, returncode) := out in
       if stop_requested stop_event AfterCommunicate then raise stopped_by_user
       else if negb (returncode =? 0)%Z then
         if stop_requested stop_event NonzeroExit then raise stopped_by_user
         else raise (generation_error
                       (cps "Ollama failed: " ++
                        match stderr with [] => cps "Unknown error" | _ => stderr end))
       else ret (strip stdout))
      (ask_ollama_handler timeout stop_event true).

(** [create_presentation]: all of python-pptx's work is one call, and
    whatever it raises is wrapped. *)
Definition create_presentation (slide_data : list Slide) (template_path : option str)
    (font_name : str) (font_size : Z) : M str :=
  try_except
    (call (EvSave (lay_out_from 0 slide_data) template_path font_name font_size)
          (pptx_save w (lay_out_from 0 slide_data) template_path font_name font_size))
    (fun e => raise (generation_error (cps "Failed to create presentation: " ++ exn_str e))).

(** [bool(template_path and os.path.exists(template_path))]: the value,
    and the expression with its call to the file system. *)
Definition template_exists (template_path : option str) : bool :=
  match template_path with
  | None => false
  | Some [] => false
  | Some path => path_exists w path
  end.

Definition template_in_use (template_path : option str) : M bool :=
  match template_path with
  | None => ret false
  | Some [] => ret false
  | Some path => call (EvPathExists path) (inr (path_exists w path))
  end.

(** [max(config["min_slides"], min(config["max_slides"], max_slides))]:
    the heuristic, then the configured bounds, whatever [json.load] gave
    for them. *)
Definition slide_limit (config : pyval) (topic : str) : exn + pyval :=
  let max_slides := PInt (estimate_slide_count_from_keywords (str_lower rt) topic) in
  lowest <~ py_getitem config (cps "min_slides") ;;
  highest <~ py_getitem config (cps "max_slides") ;;
  capped <~ py_min rt highest max_slides ;;
  py_max rt lowest capped.

(** [config["adaptive_prompt_template"].format(...)]: only a [str] has
    the method, and it is looked up before the arguments are read. *)
Definition build_prompt (config : pyval) (topic : str) : exn + str :=
  template <~ py_getitem config (cps "adaptive_prompt_template") ;;
  match template with
  | PStr template =>
      system <~ py_getitem config (cps "system_prompt") ;;
      min_points <~ py_getitem config (cps "min_points") ;;
      max_points <~ py_getitem config (cps "max_points") ;;
      str_format rt template
        [ (cps "system", system);
          (cps "user_request", PStr (strip topic));
          (cps "min_points", min_points);
          (cps "max_points", max_points) ]
  | _ => inl (Exn (OtherException (cps "AttributeError"))
                  ([squote] ++ type_name template
                   ++ cps "' object has no attribute 'format'"))
  end.

(** Lines 482 to 497, up to the call of [ask_ollama]: the slide limit,
    the prompt, the f-string of the log line, which prints the limit, and
    the two values read for the client. *)
Definition prepare (config : pyval) (topic : str) : exn + Prepared :=
  max_slides <~ slide_limit config topic ;;
  prompt <~ build_prompt config topic ;;
  _ <~ py_str rt max_slides ;;
  ollama_timeout <~ py_getitem config (cps "ollama_timeout") ;;
  model <~ py_getitem config (cps "model") ;;
  inr (mkPrepared max_slides prompt ollama_timeout model).

(** [if not slides_data: ...]: [None] and the empty list are both false. *)
Definition outline_or_fallback (topic : str) (stop_event : option Event)
    (parsed : option (list pyval)) : M (list pyval) :=
  match parsed with
  | Some (item :: items) => ret (item :: items)
  | Some [] | None =>
      if stop_requested stop_event EmptyOutline then raise stopped_by_user
      else ret (fallback_outline topic)
  end.

(** From the coercion to the [return]. *)
Definition render_outline (topic : str) (template_path : option str)
    (font_name : str) (font_size : Z) (stop_event : option Event)
    (limit : pyval) (slides_data : list pyval) : M (str * Metadata) :=
  slides <- lift (validate_and_coerce_slides rt slides_data limit) ;;
  if stop_requested stop_event BeforeRender then raise stopped_by_user
  else
    file_path <- create_presentation slides template_path font_name font_size ;;
    used <- template_in_use template_path ;;
    ret (file_path, mkMetadata (length slides) topic used).

(** The body of the [try] of [generate_presentation]. *)
Definition generation_steps (topic : str) (template_path : option str)
    (font_name : str) (font_size : Z) (stop_event : option Event)
  : M (str * Metadata) :=
  config <- load_config ;;
  ready <- lift (prepare config topic) ;;
  response <- ask_ollama (ollama_timeout ready) (prompt ready) (model ready)
                stop_event ;;
  if stop_requested stop_event AfterResponse then raise stopped_by_user
  else
    parsed <- extract_and_parse_json rt response ;;
    slides_data <- outline_or_fallback topic stop_event parsed ;;
    render_outline topic template_path font_name font_size stop_event
      (max_slides ready) slides_data.

(** [except GenerationStopped: raise] and [except Exception as e: ...] *)
Definition generation_handler (e : exn) : M (str * Metadata) :=
  match exn_cls e with
  | GenerationStopped => raise e
  | _ => raise (generation_error (cps "Failed to generate presentation: " ++ exn_str e))
  end.

Definition generate_presentation (topic : str) (template_path : option str)
    (font_name : str) (font_size : Z) (stop_event : option Event)
  : M (str * Metadata) :=
  match strip topic with
  | [] => raise (generation_error (cps "Topic cannot be empty"))
  | _ =>
      if stop_requested stop_event BeforeStarting then raise stopped_by_user
      else try_except
             (generation_steps topic template_path font_name font_size stop_event)
             generation_handler
  end.

End Coordinator.

(* ===================================================================== *)
(** * A runtime and a world to run the backend on

    The properties below hold for every runtime and every world.  To run
    the backend on concrete inputs, [Sample] gives readers for the fragment
    of JSON and of Python literals that the examples use (arrays, objects,
    strings without escapes, integers, the three constants), [repr] and
    [format] for plain ASCII text, the comparison of integers, of floats
    written as short decimals and of strings, and ASCII case folding;
    CPython agrees with them on that fragment. *)
(* ===================================================================== *)

Module Sample.

Definition lbrace : char := 123%N.
Definition colon : char := 58%N.

Definition decode_error (what : string) : exn :=
  Exn (OtherException (cps what)) (cps "Expecting value").

(** Whitespace between tokens. *)
Definition is_blank (c : char) : bool :=
  ((c =? 32) || (c =? 9) || (c =? 10) || (c =? 13))%N.

Fixpoint skip_blank (s : str) : str :=
  match s with
  | c :: s' => if is_blank c then skip_blank s' else s
  | [] => []
  end.

(** The characters of a string literal up to the closing quote. *)
Fixpoint read_string (quote : char) (s : str) : option (str * str) :=
  match s with
  | [] => None
  | c :: s' =>
      if char_eqb c quote then Some ([], s')
      else if char_eqb c backslash || (c <? 32)%N then None
      else match read_string quote s' with
           | Some (body, rest) => Some (c :: body, rest)
           | None => None
           end
  end.

Definition is_digit (c : char) : bool := ((48 <=? c) && (c <=? 57))%N.

Fixpoint read_digits (acc : Z) (s : str) : Z * str :=
  match s with
  | c :: s' =>
      if is_digit c then read_digits (10 * acc + Z.of_N (c - 48)) s' else (acc, s)
  | [] => (acc, [])
  end.

(** [sys.get_int_max_str_digits()] as CPython starts with it. *)
Definition max_str_digits : N := 4300.

(** An integer without leading zeros that no fraction or exponent follows,
    of no more digits than [int] reads from a string. *)
Definition read_int (s : str) : option (Z * str) :=
  match s with
  | c :: s' =>
      if is_digit c then
        let '(n, rest) := read_digits 0 s in
        let leading_zero := (c =? 48)%N && match s' with d :: _ => is_digit d | [] => false end in
        let more := match rest with
                    | d :: _ => (d =? 46)%N || (d =? 101)%N || (d =? 69)%N
                    | [] => false
                    end in
        let too_long := (max_str_digits <? N.of_nat (length s - length rest))%N in
        if leading_zero || more || too_long then None else Some (n, rest)
      else None
  | [] => None
  end.

Fixpoint dict_set (entries : list (pyval * pyval)) (k : str) (v : pyval)
  : list (pyval * pyval) :=
  match entries with
  | [] => [(PStr k, v)]
  | (PStr k', v') :: rest =>
      if str_eqb k' k then (PStr k', v) :: rest else (PStr k', v') :: dict_set rest k v
  | e :: rest => e :: dict_set rest k v
  end.

Inductive reading : Type :=
| Value
| Items (seen : list pyval)
| Members (seen : list (pyval * pyval)).

(** [python] selects the Python literal syntax: [None], [True], [False],
    either quote, and a comma allowed before a closing bracket. *)
Fixpoint read (python : bool) (fuel : nat) (what : reading) (s : str)
  : option (pyval * str) :=
  match fuel with
  | O => None
  | S fuel' =>
      let s := skip_blank s in
      match what, s with
      | _, [] => None
      | Value, c :: s' =>
          if char_eqb c lbracket then read python fuel' (Items []) s'
          else if char_eqb c lbrace then read python fuel' (Members []) s'
          else if char_eqb c dquote || (python && char_eqb c squote) then
            option_map (fun '(body, rest) => (PStr body, rest)) (read_string c s')
          else if char_eqb c hyphen then
            option_map (fun '(n, rest) => (PInt (- n), rest)) (read_int s')
          else if is_digit c then
            option_map (fun '(n, rest) => (PInt n, rest)) (read_int s)
          else if python then
            if startswith (cps "None") s then Some (PNone, skipn 4 s)
            else if startswith (cps "True") s then Some (PBool true, skipn 4 s)
            else if startswith (cps "False") s then Some (PBool false, skipn 5 s)
            else None
          else
            if startswith (cps "null") s then Some (PNone, skipn 4 s)
            else if startswith (cps "true") s then Some (PBool true, skipn 4 s)
            else if startswith (cps "false") s then Some (PBool false, skipn 5 s)
            else None
      | Items seen, c :: s' =>
          if char_eqb c rbracket then
            match seen with
            | [] => Some (PList [], s')
            | _ => if python then Some (PList (rev seen), s') else None
            end
          else
            match read python fuel' Value s with
            | None => None
            | Some (v, rest) =>
                match skip_blank rest with
                | d :: rest' =>
                    if char_eqb d comma then read python fuel' (Items (v :: seen)) rest'
                    else if char_eqb d rbracket then Some (PList (rev (v :: seen)), rest')
                    else None
                | [] => None
                end
            end
      | Members seen, c :: s' =>
          if char_eqb c rbrace then
            match seen with
            | [] => Some (PDict [], s')
            | _ => if python then Some (PDict seen, s') else None
            end
          else
            match read python fuel' Value s with
            | Some (PStr k, rest) =>
                match skip_blank rest with
                | d :: rest' =>
                    if char_eqb d colon then
                      match read python fuel' Value rest' with
                      | None => None
                      | Some (v, rest) =>
                          match skip_blank rest with
                          | d :: rest' =>
                              if char_eqb d comma
                              then read python fuel' (Members (dict_set seen k v)) rest'
                              else if char_eqb d rbrace
                              then Some (PDict (dict_set seen k v), rest')
                              else None
                          | [] => None
                          end
                      end
                    else None
                | [] => None
                end
            | _ => None
            end
      end
  end.

Definition loads (python : bool) (s : str) : exn + pyval :=
  match read python (2 * length s + 2) Value s with
  | Some (v, rest) =>
      match skip_blank rest with
      | [] => inr v
      | _ => inl (decode_error (if python then "SyntaxError" else "JSONDecodeError"))
      end
  | None => inl (decode_error (if python then "SyntaxError" else "JSONDecodeError"))
  end.

(** [repr] of values whose strings are plain ASCII without quotes. *)
Fixpoint repr (v : pyval) : str :=
  let fix join (l : list pyval) : str :=
    match l with
    | [] => []
    | x :: rest =>
        repr x ++ match rest with [] => [] | _ => cps ", " ++ join rest end
    end in
  let fix join_entries (l : list (pyval * pyval)) : str :=
    match l with
    | [] => []
    | (k, x) :: rest =>
        repr k ++ cps ": " ++ repr x ++
        match rest with [] => [] | _ => cps ", " ++ join_entries rest end
    end in
  match v with
  | PNone => cps "None"
  | PBool true => cps "True"
  | PBool false => cps "False"
  | PInt z => str_of_Z z
  | PFloat shown => shown
  | POther shown => shown
  | PStr s => [squote] ++ s ++ [squote]
  | PList items => cps "[" ++ join items ++ cps "]"
  | PTuple items =>
      cps "(" ++ join items ++ match items with [_] => cps "," | _ => [] end ++ cps ")"
  | PDict entries => cps "{" ++ join_entries entries ++ cps "}"
  end.

(** Whether every integer in [v] can be printed. *)
Fixpoint prints (limit : N) (v : pyval) : bool :=
  match v with
  | PInt z => negb (exceeds_str_digits limit z)
  | PList items | PTuple items => forallb (prints limit) items
  | PDict entries =>
      forallb (fun entry => prints limit (fst entry) && prints limit (snd entry)) entries
  | _ => true
  end.

Definition checked_repr (v : pyval) : exn + str :=
  if prints max_str_digits v then inr (repr v) else inl (str_digits_error max_str_digits).

Fixpoint lookup (args : list (str * pyval)) (name : str) : option pyval :=
  match args with
  | [] => None
  | (k, v) :: rest => if str_eqb k name then Some v else lookup rest name
  end.

Definition format_value (v : pyval) : exn + str :=
  match v with PStr s => inr s | _ => checked_repr v end.

(** A float written as digits, a point and digits, fifteen digits at
    most, as the rational it is compared as. *)
Definition read_decimal (shown : str) : option Q :=
  let '(negative, digits) :=
    match shown with
    | c :: rest => if char_eqb c hyphen then (true, rest) else (false, shown)
    | [] => (false, [])
    end in
  match read_digits 0 digits with
  | (whole, point :: fraction) =>
      let '(part, rest) := read_digits 0 fraction in
      if (point =? 46)%N && (0 <? length fraction)%nat
         && (length digits <=? 16)%nat
         && is_digit (hd 0%N digits) && match rest with [] => true | _ => false end
      then
        let scale := (10 ^ Z.of_nat (length fraction))%Z in
        let numerator := (whole * scale + part)%Z in
        Some ((if negative then - numerator else numerator)%Z # Z.to_pos scale)
      else None
  | _ => None
  end.

Definition number (v : pyval) : option Q :=
  match v with
  | PInt z => Some (inject_Z z)
  | PBool b => Some (inject_Z (if b then 1 else 0))
  | PFloat shown => read_decimal shown
  | _ => None
  end.

Fixpoint str_ltb (a b : str) : bool :=
  match a, b with
  | _, [] => false
  | [], _ :: _ => true
  | x :: a', y :: b' => (x <? y)%N || ((x =? y)%N && str_ltb a' b')
  end.

Definition not_supported (op : compare_op) (a b : pyval) : exn :=
  Exn (OtherException (cps "TypeError"))
      ([squote] ++ cps (match op with OpLt => "<" | OpGt => ">" end)
       ++ cps "' not supported between instances of '" ++ type_name a
       ++ cps "' and '" ++ type_name b ++ [squote]).

(** [a < b] and [a > b] on numbers and on strings; an order between a
    number and anything else there is none. *)
Definition compare (op : compare_op) (a b : pyval) : exn + bool :=
  match number a, number b with
  | Some x, Some y =>
      inr match op with
          | OpLt => match (x ?= y)%Q with Lt => true | _ => false end
          | OpGt => match (x ?= y)%Q with Gt => true | _ => false end
          end
  | _, _ =>
      match a, b with
      | PStr x, PStr y =>
          inr match op with OpLt => str_ltb x y | OpGt => str_ltb y x end
      | _, _ => inl (not_supported op a b)
      end
  end.

(** [template.format] with keyword arguments, for templates whose fields are plain names
    and whose literal braces are doubled.  [field] is the name being
    read, in reverse. *)
Definition value_error (message : str) : exn + str :=
  inl (Exn (OtherException (cps "ValueError")) message).

Definition single_brace (c : char) : exn + str :=
  value_error (cps "Single '" ++ [c] ++ cps "' encountered in format string").

Fixpoint format_from (field : option str) (args : list (str * pyval)) (t : str)
  : exn + str :=
  let more (c : char) (r : exn + str) : exn + str :=
    match r with inr out => inr (c :: out) | inl e => inl e end in
  match t with
  | [] =>
      match field with
      | None => inr []
      | Some _ => value_error (cps "expected '}' before end of string")
      end
  | c :: t' =>
      match field with
      | None =>
          if char_eqb c lbrace then
            match t' with
            | c2 :: t'' =>
                if char_eqb c2 lbrace then more c (format_from None args t'')
                else format_from (Some []) args t'
            | [] => single_brace c
            end
          else if char_eqb c rbrace then
            match t' with
            | c2 :: t'' =>
                if char_eqb c2 rbrace then more c (format_from None args t'')
                else single_brace c
            | [] => single_brace c
            end
          else more c (format_from None args t')
      | Some name =>
          if char_eqb c rbrace then
            match lookup args (rev name) with
            | Some v =>
                match format_value v with
                | inr shown =>
                    match format_from None args t' with
                    | inr out => inr (shown ++ out)
                    | inl e => inl e
                    end
                | inl e => inl e
                end
            | None => inl (Exn (OtherException (cps "KeyError"))
                               ([squote] ++ rev name ++ [squote]))
            end
          else if char_eqb c lbrace then value_error (cps "unexpected '{' in field name")
          else format_from (Some (c :: name)) args t'
      end
  end.

Definition runtime : PyRuntime := {|
  str_lower := ascii_lower;
  int_max_str_digits := max_str_digits;
  py_repr := checked_repr;
  rich_compare := compare;
  json_loads := loads false;
  literal_eval := loads true;
  str_format := fun template args => format_from None args template
|}.

(** A world in which [load_config] has not run yet and finds [disk],
    the model process starts and [communicate] ends as [reply], the
    layouts are those of the default template of python-pptx as far as the
    code uses them, and the renderer ends as [saved]. *)
Definition deck_path : str := cps "/tmp/tmpk3v9.pptx".

Definition world_on (disk : config_disk) (reply : exn + (str * str * Z))
    (saved : exn + str) : World := {|
  config_cache := None;
  config_on_disk := disk;
  popen := fun _ => inr tt;
  communicate := fun _ _ => reply;
  slide_layouts := 11;
  layout_has_title := fun _ => true;
  pptx_save := fun _ _ _ _ => saved;
  path_exists := fun _ => false
|}.

(** The same with no configuration file. *)
Definition world (reply : exn + (str * str * Z)) (saved : exn + str) : World :=
  world_on (NoConfigFile (inr tt)) reply saved.

(** The model process exits with code 0 after printing [stdout], and the
    renderer writes the deck. *)
Definition answers (stdout : str) : World :=
  world (inr (stdout, [], 0%Z)) (inr deck_path).

(** The same, on a disk with no room left: [prs.save] raises. *)
Definition answers_but_disk_is_full (stdout : str) : World :=
  world (inr (stdout, [], 0%Z))
        (inl (Exn (OtherException (cps "OSError"))
                  (cps "[Errno 28] No space left on device"))).

(** A flag that is never set, and one set from a checkpoint on. *)
Definition never_set : Event := fun _ => false.
Definition set_from (c : checkpoint) : Event :=
  fun c' => (checkpoint_index c <=? checkpoint_index c')%nat.

End Sample.

(* ===================================================================== *)
(** * Vocabulary of the specification *)
(* ===================================================================== *)

(** The features of a topic that the heuristic adds up: the keywords of
    each family that the lower-cased topic contains, its commas, and one
    point for each full 25 words. *)
Definition broad_hits (str_lower : str -> str) (topic : str) : Z :=
  Z.of_nat (keywords_in broad_keywords (str_lower topic)).
Definition process_hits (str_lower : str -> str) (topic : str) : Z :=
  Z.of_nat (keywords_in process_keywords (str_lower topic)).
Definition training_hits (str_lower : str -> str) (topic : str) : Z :=
  Z.of_nat (keywords_in training_keywords (str_lower topic)).
Definition commas (str_lower : str -> str) (topic : str) : Z :=
  Z.of_nat (count_char comma (str_lower topic)).
Definition word_points (topic : str) : Z :=
  (Z.of_nat (length (split topic)) / 25)%Z.

(** The number of places of [s] at which [p] occurs. *)
Fixpoint occurrences (p s : str) : nat :=
  match s with
  | [] => 0
  | _ :: s' => (if startswith p s then 1 else 0) + occurrences p s'
  end.

(** The sum of the occurrences of the keywords of a family. *)
Definition keyword_occurrences (words : list str) (text : str) : nat :=
  fold_right (fun word n => (occurrences word text + n)%nat) 0%nat words.

(** The heuristic as the specification words it: so much for each
    occurrence of a keyword. *)
Definition estimate_per_occurrence (str_lower : str -> str) (user_input : str) : Z :=
  let text := str_lower user_input in
  Z.max 3 (Z.min 18 (Qfloor
    (5 + 2 * inject_Z (Z.of_nat (keyword_occurrences broad_keywords text))
       + 1.5 * inject_Z (Z.of_nat (keyword_occurrences process_keywords text))
       + 2 * inject_Z (Z.of_nat (keyword_occurrences training_keywords text))
       + 0.5 * inject_Z (Z.of_nat (count_char comma text))
       + inject_Z (Z.of_nat (length (split user_input)) / 25)%Z)%Q)).

(** Square brackets are balanced when every closing bracket closes an open
    one and none is left open. *)
Fixpoint balanced_from (depth : nat) (s : str) : bool :=
  match s with
  | [] => Nat.eqb depth 0
  | c :: s' =>
      if char_eqb c lbracket then balanced_from (S depth) s'
      else if char_eqb c rbracket then
        match depth with
        | O => false
        | S d => balanced_from d s'
        end
      else balanced_from depth s'
  end.

Definition brackets_balanced (s : str) : bool := balanced_from 0 s.

(** Opening minus closing brackets. *)
Definition bracket_depth (s : str) : Z :=
  (Z.of_nat (count_char lbracket s) - Z.of_nat (count_char rbracket s))%Z.

(** [s] starts an array that is never closed: after every non-empty prefix
    some bracket is still open. *)
Definition never_closed (s : str) : Prop :=
  forall n, (0 < n <= length s)%nat -> (0 < bracket_depth (firstn n s))%Z.

(** The two slides of the fallback deck. *)
Definition fallback_slides (topic : str) : list Slide :=
  [ mkSlide (strip topic) [];
    mkSlide (cps "Overview")
      [ bullet :: cps " Key concepts and fundamentals";
        bullet :: cps " Practical applications and examples";
        bullet :: cps " Implementation strategies";
        bullet :: cps " Best practices and considerations" ] ].

(** The outcomes of a generation, read off what [generate_presentation]
    returns or raises. *)
Inductive result_kind : Type := Completed | Stopped | Failed.

Definition kind_of (A : Type) (r : exn + A) : result_kind :=
  match r with
  | inr _ => Completed
  | inl e => match exn_cls e with GenerationStopped => Stopped | _ => Failed end
  end.

(** The entries of a list that are strings, in order. *)
Fixpoint str_entries (l : list pyval) : list str :=
  match l with
  | [] => []
  | PStr s :: rest => s :: str_entries rest
  | _ :: rest => str_entries rest
  end.

Definition nonblank (s : str) : bool :=
  match s with [] => false | _ :: _ => true end.

(** An entry of a record the model may send for a slide. *)
Definition field (key : string) (value : pyval) : pyval * pyval := (PStr (cps key), value).

(** What may leave [generate_presentation]: a value, or one of the two
    exceptions of the backend. *)
Definition escapes_cleanly (A : Type) (m : M A) : Prop :=
  match outcome m with
  | inr _ => True
  | inl e => exn_cls e = GenerationStopped \/ exn_cls e = PPTGenerationError
  end.

(** Replies of the model used in the scenarios. *)
Definition prose_reply : str := cps "I am sorry, I cannot help with that.".

Definition quoted (s : string) : str := [dquote] ++ cps s ++ [dquote].

Definition scenario_A_reply : str :=
  cps "<json>[{" ++ quoted "title" ++ cps ":" ++ quoted "Python" ++ cps ","
  ++ quoted "points" ++ cps ":[]},{" ++ quoted "title" ++ cps ":" ++ quoted "Syntax"
  ++ cps "," ++ quoted "points" ++ cps ":[" ++ quoted "Indentation matters" ++ cps ","
  ++ quoted "Dynamic typing" ++ cps "]}]</json>".

Definition scenario_D_reply : str :=
  cps "[{" ++ quoted "title" ++ cps ":" ++ quoted "A" ++ cps ","
  ++ quoted "points" ++ cps ":[]},]".

(** An array that is opened twice and closed once, and a complete array
    followed by a stray closing bracket. *)
Definition unclosed_reply : str := cps "Here is [[1, 2] and more".

Definition stray_bracket_reply : str :=
  cps "[{" ++ quoted "title" ++ cps ":" ++ quoted "A" ++ cps "}]]".

Definition calibri : str := cps "Calibri".

(** The prompt the default configuration gives for a topic. *)
Definition default_prompt (rt : PyRuntime) (topic : str) : str :=
  match build_prompt rt default_config topic with
  | inr prompt => prompt
  | inl _ => []
  end.

(** Configuration files whose slide bounds are not integers. *)
Definition min_slides_as_text : config_disk :=
  ConfigFileHolds (inr (PDict [field "min_slides" (PStr (cps "3"))])).

Definition min_slides_as_float : config_disk :=
  ConfigFileHolds (inr (PDict [field "min_slides" (PFloat (cps "5.5"))])).

(** An integer of 4301 digits. *)
Definition huge : Z := (10 ^ 4300)%Z.

(* ===================================================================== *)
(** * The rest of the backend and its caller *)
(* ===================================================================== *)

(** ** The dicts that [validate_and_coerce_slides] returns *)

Definition is_dict (v : pyval) : bool :=
  match v with PDict _ => true | _ => false end.

(** [{"title": title, "points": clean_points}] *)
Definition slide_dict (slide : Slide) : pyval :=
  PDict [ (PStr (cps "title"), PStr (title slide));
          (PStr (cps "points"), PList (map PStr (points slide))) ].

(** ** Utility functions: [cleanup_temp_file] *)

(** What reaches the file system. *)
Inductive fs_event : Type :=
| FsExists (path : str)
| FsUnlink (path : str).

(** [cleanup_temp_file]: the calls it makes.  What [os.unlink] raises is
    caught and logged, so nothing is raised and nothing is returned. *)
Definition cleanup_temp_file (exists_ : str -> bool) (file_path : option str)
  : list fs_event :=
  match file_path with
  | None => []
  | Some [] => []
  | Some path =>
      if exists_ path then [FsExists path; FsUnlink path] else [FsExists path]
  end.

(** ** The caller in [app.py]: [generation_thread] and the download name *)

(** [result_container]; an absent key is [None]. *)
Record ResultContainer : Type := mkContainer {
  rc_status : str;
  rc_file_path : option str;
  rc_metadata : option Metadata;
  rc_error : option str;
  rc_message : option str
}.

(** The container [start_generation] creates. *)
Definition new_container : ResultContainer :=
  mkContainer (cps "generating") None None None None.

(** [generation_thread], given how [generate_presentation] ended and what
    [stop_event.is_set()] answers afterwards (each path reads it at most
    once): the container as the thread leaves it, and the calls to the
    file system. *)
Definition generation_thread (ended : exn + (str * Metadata)) (stop_is_set : bool)
    (exists_ : str -> bool) : ResultContainer * list fs_event :=
  match ended with
  | inr (file_path, metadata) =>
      if negb stop_is_set then
        (mkContainer (cps "completed") (Some file_path) (Some metadata) None
           (Some (cps "Successfully generated presentation!")), [])
      else
        (mkContainer (cps "stopped") None None None
           (Some (cps "Generation stopped by user")),
         match file_path with
         | [] => []
         | _ => if exists_ file_path
                then FsExists file_path :: cleanup_temp_file exists_ (Some file_path)
                else [FsExists file_path]
         end)
  | inl e =>
      match exn_cls e with
      | GenerationStopped =>
          (mkContainer (cps "stopped") None None None
             (Some (cps "Generation stopped successfully")), [])
      | PPTGenerationError =>
          if negb stop_is_set
          then (mkContainer (cps "error") None None (Some (exn_str e)) None, [])
          else (new_container, [])
      | _ =>
          if negb stop_is_set
          then (mkContainer (cps "error") None None
                  (Some (cps "Unexpected error: " ++ exn_str e)) None, [])
          else (new_container, [])
      end
  end.

(** The characters [[^a-zA-Z0-9_-]] does not match. *)
Definition is_filename_char (c : char) : bool :=
  (((97 <=? c) && (c <=? 122)) || ((65 <=? c) && (c <=? 90))
   || ((48 <=? c) && (c <=? 57)) || (c =? 95) || (c =? 45))%N.
Arguments is_filename_char : simpl never.

Definition underscore : char := 95%N.

(** [re.sub(r'[^a-zA-Z0-9_-]', '_', topic.strip()) or "Presentation"] *)
Definition safe_topic (topic : str) : str :=
  match map (fun c => if is_filename_char c then c else underscore) (strip topic) with
  | [] => cps "Presentation"
  | name => name
  end.

(** What [extract_and_parse_json] hands to the parsers, if anything: the
    content of the block or the first array, cleaned. *)
Definition json_candidate (text : str) : option str :=
  match text with
  | [] => None
  | _ =>
      option_map clean_json
        match json_match_group1 text with
        | Some group1 => Some (strip group1)
        | None => first_array text
        end
  end.

(** What the removal of trailing commas may delete: commas and whitespace. *)
Definition comma_or_space (c : char) : bool := char_eqb c comma || is_space c.

(** A tag written in any mix of cases. *)
Definition written_as (tag s : str) : bool :=
  ci_startswith tag s && Nat.eqb (length s) (length tag).

Definition less_than_sign : char := 60%N.

(* ===================================================================== *)
(** * Running the backend on the scenarios of the specification *)
(* ===================================================================== *)

Example estimate_plain :
  estimate_slide_count_from_keywords ascii_lower (cps "Python basics") = 5%Z.
Proof. vm_compute. reflexivity. Qed.

Example estimate_keywords :
  estimate_slide_count_from_keywords ascii_lower
    (cps "Complete Overview of the training process, steps, workflow") = 16%Z.
Proof. vm_compute. reflexivity. Qed.

Example scenario_A :
  generate_presentation Sample.runtime (Sample.answers scenario_A_reply)
    (cps "Python basics") None calibri 12 None
  = ([ EvLoadConfig;
       EvPopen (PStr (cps "qwen3"));
       EvCommunicate (default_prompt Sample.runtime (cps "Python basics")) (PInt 120);
       EvSave [ mkRendered (Some (cps "Python")) [];
                mkRendered (Some (cps "Syntax"))
                  [ [bullet; 32%N] ++ cps "Indentation matters";
                    [bullet; 32%N] ++ cps "Dynamic typing" ] ]
              None calibri 12 ],
     inr (Sample.deck_path, mkMetadata 2 (cps "Python basics") false)).
Proof. vm_compute. reflexivity. Qed.

Example scenario_B :
  outcome (generate_presentation Sample.runtime
             (Sample.answers prose_reply)
             (cps "Python basics") None calibri 12 None)
  = inr (Sample.deck_path, mkMetadata 2 (cps "Python basics") false).
Proof. vm_compute. reflexivity. Qed.

Example scenario_D :
  outcome (extract_and_parse_json Sample.runtime scenario_D_reply)
  = inr (Some [ PDict [ (PStr (cps "title"), PStr (cps "A"));
                        (PStr (cps "points"), PList []) ] ]).
Proof. vm_compute. reflexivity. Qed.

(** A non-zero exit without a stop request: the error raised inside the
    [try] passes through the last handler of [ask_ollama] and then through
    the handler of [generate_presentation]. *)
Example nonzero_exit_message :
  outcome (generate_presentation Sample.runtime
             (Sample.world (inr ([], cps "boom", 1%Z)) (inr Sample.deck_path))
             (cps "Python basics") None calibri 12 None)
  = inl (generation_error
           (cps "Failed to generate presentation: Ollama request failed: Ollama failed: boom")).
Proof. vm_compute. reflexivity. Qed.

(* ===================================================================== *)
(** * Reasoning about the monad *)
(* ===================================================================== *)

Unset Implicit Arguments.

Section MonadLemmas.

Context {A B : Type}.

Lemma outcome_bind_inr (m : M A) (f : A -> M B) (x : A) :
  outcome m = inr x -> outcome (bind m f) = outcome (f x).
Proof.
  destruct m as [log r]; simpl; intros ->.
  unfold outcome; simpl. destruct (f x); reflexivity.
Qed.

Lemma outcome_bind_inl (m : M A) (f : A -> M B) (e : exn) :
  outcome m = inl e -> outcome (bind m f) = inl e.
Proof. destruct m as [log r]; simpl; intros ->. reflexivity. Qed.

Lemma outcome_try_inr (m : M A) (h : exn -> M A) (x : A) :
  outcome m = inr x -> outcome (try_except m h) = inr x.
Proof. destruct m as [log r]; simpl; intros ->. reflexivity. Qed.

Lemma outcome_try_inl (m : M A) (h : exn -> M A) (e : exn) :
  outcome m = inl e -> outcome (try_except m h) = outcome (h e).
Proof.
  destruct m as [log r]; simpl; intros ->.
  unfold outcome; simpl. destruct (h e); reflexivity.
Qed.

End MonadLemmas.

Lemma try_except_escapes {A : Type} (m : M A) (h : exn -> M A) :
  (forall e, escapes_cleanly (h e)) -> escapes_cleanly (try_except m h).
Proof.
  intros Hh. unfold escapes_cleanly.
  destruct (outcome m) as [e | x] eqn:Hm.
  - rewrite (outcome_try_inl _ _ _ Hm). apply Hh.
  - rewrite (outcome_try_inr _ _ _ Hm). exact I.
Qed.

Lemma generation_handler_escapes (e : exn) : escapes_cleanly (generation_handler e).
Proof.
  unfold escapes_cleanly, generation_handler.
  destruct (exn_cls e) eqn:Hcls; simpl; auto.
Qed.

(* ===================================================================== *)
(** * Properties of the coordinator *)
(* ===================================================================== *)

Lemma lstrip_blank (s : str) : forallb is_space s = true -> lstrip s = [].
Proof.
  induction s as [|c s IH]; simpl; [reflexivity|].
  intros H. apply andb_prop in H as [Hc Hs]. rewrite Hc. auto.
Qed.

Lemma strip_blank (s : str) : forallb is_space s = true -> strip s = [].
Proof. intros H. unfold strip. rewrite (lstrip_blank _ H). reflexivity. Qed.

(** C5. A topic that is empty or made of whitespace only makes
    [generate_presentation] raise [PPTGenerationError("Topic cannot be
    empty")], whatever the other arguments, the runtime and the world are,
    and with an empty trace: no configuration is loaded, no process is
    started, nothing is rendered, and the stop flag is not even read. *)
Theorem blank_topic_rejected_first
    (rt : PyRuntime) (w : World) (topic : str) (template_path : option str)
    (font_name : str) (font_size : Z) (stop_event : option Event) :
  forallb is_space topic = true ->
  generate_presentation rt w topic template_path font_name font_size stop_event
  = ([], inl (Exn PPTGenerationError (cps "Topic cannot be empty"))).
Proof.
  intros Hblank. unfold generate_presentation.
  rewrite (strip_blank _ Hblank). reflexivity.
Qed.

Lemma blank_topic_rejected_first_witness :
  forallb is_space (cps "   ") = true /\
  generate_presentation Sample.runtime (Sample.answers scenario_A_reply)
    (cps "   ") None calibri 12 (Some Sample.never_set)
  = ([], inl (Exn PPTGenerationError (cps "Topic cannot be empty"))).
Proof.
  split; [reflexivity|].
  apply (blank_topic_rejected_first Sample.runtime (Sample.answers scenario_A_reply)
           (cps "   ") None calibri 12 (Some Sample.never_set)).
  reflexivity.
Defined.

(** C10. Whatever the topic, the runtime and the world (whose calls may
    raise exceptions of any class), [generate_presentation] returns a pair
    of a file path and metadata, or raises [GenerationStopped] or
    [PPTGenerationError]; no exception of another class leaves it.  Once
    the topic is accepted and the first stop check is passed, what the
    body of the [try] does decides the rest: a [GenerationStopped] it
    raises leaves unchanged, every other exception it raises, of whatever
    class, leaves as [PPTGenerationError] whose message is "Failed to
    generate presentation: " followed by the message of that exception,
    and what it returns is returned. *)
Theorem only_two_exceptions_escape
    (rt : PyRuntime) (w : World) (topic : str) (template_path : option str)
    (font_name : str) (font_size : Z) (stop_event : option Event) :
  match outcome (generate_presentation rt w topic template_path font_name font_size
                   stop_event) with
  | inr (file_path, metadata) => True
  | inl e => exn_cls e = GenerationStopped \/ exn_cls e = PPTGenerationError
  end
  /\ (strip topic <> [] ->
      stop_requested stop_event BeforeStarting = false ->
      (forall e,
          outcome (generation_steps rt w topic template_path font_name font_size
                     stop_event) = inl e ->
          exn_cls e = GenerationStopped ->
          outcome (generate_presentation rt w topic template_path font_name font_size
                     stop_event) = inl e)
      /\ (forall e,
            outcome (generation_steps rt w topic template_path font_name font_size
                       stop_event) = inl e ->
            exn_cls e <> GenerationStopped ->
            outcome (generate_presentation rt w topic template_path font_name
                       font_size stop_event)
            = inl (Exn PPTGenerationError
                     (cps "Failed to generate presentation: " ++ exn_str e)))
      /\ (forall result,
            outcome (generation_steps rt w topic template_path font_name font_size
                       stop_event) = inr result ->
            outcome (generate_presentation rt w topic template_path font_name
                       font_size stop_event) = inr result)).
Proof.
  split.
  - unfold generate_presentation.
    destruct (strip topic) as [|c t]; [right; reflexivity|].
    destruct (stop_requested stop_event BeforeStarting); [left; reflexivity|].
    pose proof (try_except_escapes
                  (generation_steps rt w topic template_path font_name font_size
                     stop_event)
                  generation_handler generation_handler_escapes) as H.
    unfold escapes_cleanly in H.
    destruct (outcome _) as [e | [file_path metadata]]; auto.
  - intros Htopic Hstart. unfold generate_presentation.
    destruct (strip topic) as [|c t]; [contradiction|].
    rewrite Hstart. split; [|split].
    + intros e Hbody Hcls. rewrite (outcome_try_inl _ _ _ Hbody).
      unfold generation_handler. rewrite Hcls. reflexivity.
    + intros e Hbody Hcls. rewrite (outcome_try_inl _ _ _ Hbody).
      unfold generation_handler.
      destruct (exn_cls e); try reflexivity. contradiction.
    + intros result Hbody. apply (outcome_try_inr _ _ _ Hbody).
Qed.

(** A configuration file that gives ["3"] for [min_slides]: the
    comparison in [max] raises [TypeError] inside the body, and
    [PPTGenerationError] is what leaves. *)
Lemma only_two_exceptions_escape_witness :
  outcome (generate_presentation Sample.runtime
             (Sample.world_on min_slides_as_text (inr (scenario_A_reply, [], 0%Z))
                (inr Sample.deck_path))
             (cps "Python basics") None calibri 12 None)
  = inl (Exn PPTGenerationError
           (cps "Failed to generate presentation: "
            ++ cps "'>' not supported between instances of 'int' and 'str'")).
Proof.
  refine (proj1 (proj2 (proj2 (only_two_exceptions_escape Sample.runtime
            (Sample.world_on min_slides_as_text (inr (scenario_A_reply, [], 0%Z))
               (inr Sample.deck_path))
            (cps "Python basics") None calibri 12 None) _ _))
            (type_error "'>' not supported between instances of 'int' and 'str'") _ _).
  - vm_compute. discriminate.
  - reflexivity.
  - vm_compute. reflexivity.
  - vm_compute. discriminate.
Defined.

(** C4. When the model process was started and [communicate] returns with
    a non-zero return code, and the stop flag is seen set at one of the
    reads that follow (the check after [communicate], which comes before
    the return code is looked at, the check under the non-zero branch, or
    the check in the last handler), [ask_ollama] raises
    [GenerationStopped], not [PPTGenerationError]. *)
Theorem stop_wins_over_nonzero_exit
    (rt : PyRuntime) (w : World) (timeout : pyval) (prompt : str) (model : pyval)
    (stop_event : option Event) (stdout stderr : str) (returncode : Z) :
  popen w model = inr tt ->
  communicate w prompt timeout = inr (stdout, stderr, returncode) ->
  returncode <> 0%Z ->
  stop_requested stop_event AfterCommunicate = true
  \/ stop_requested stop_event NonzeroExit = true
  \/ stop_requested stop_event InExceptHandler = true ->
  outcome (ask_ollama rt w timeout prompt model stop_event)
  = inl (Exn GenerationStopped (cps "Generation stopped by user")).
Proof.
  intros Hpopen Hcomm Hcode Hset.
  apply Z.eqb_neq in Hcode.
  unfold ask_ollama, call.
  destruct (stop_requested stop_event AskOllamaEntry); [reflexivity|].
  rewrite Hpopen, Hcomm. simpl. rewrite Hcode. simpl.
  destruct (stop_requested stop_event AfterCommunicate); [reflexivity|].
  destruct (stop_requested stop_event NonzeroExit); [reflexivity|].
  destruct Hset as [H | [H | H]]; try discriminate.
  unfold outcome. simpl. unfold ask_ollama_handler. simpl. rewrite H. reflexivity.
Qed.

Lemma stop_wins_over_nonzero_exit_witness :
  outcome (ask_ollama Sample.runtime
             (Sample.world (inr ([], cps "signal: terminated", (-15)%Z)) (inr Sample.deck_path))
             (PInt 120) (cps "prompt") (PStr (cps "qwen3"))
             (Some (Sample.set_from AfterCommunicate)))
  = inl (Exn GenerationStopped (cps "Generation stopped by user")).
Proof.
  apply (@stop_wins_over_nonzero_exit Sample.runtime
           (Sample.world (inr ([], cps "signal: terminated", (-15)%Z)) (inr Sample.deck_path))
           (PInt 120) (cps "prompt") (PStr (cps "qwen3"))
           (Some (Sample.set_from AfterCommunicate))
           [] (cps "signal: terminated") (-15)%Z).
  - reflexivity.
  - reflexivity.
  - lia.
  - left. reflexivity.
Defined.

(** The other side of C4: with the flag clear at the three reads, the same
    exit is reported as [PPTGenerationError]. *)
Lemma nonzero_exit_without_stop
    (rt : PyRuntime) (w : World) (timeout : pyval) (prompt : str) (model : pyval)
    (stop_event : option Event) (stdout stderr : str) (returncode : Z) :
  stop_requested stop_event AskOllamaEntry = false ->
  popen w model = inr tt ->
  communicate w prompt timeout = inr (stdout, stderr, returncode) ->
  returncode <> 0%Z ->
  stop_requested stop_event AfterCommunicate = false ->
  stop_requested stop_event NonzeroExit = false ->
  stop_requested stop_event InExceptHandler = false ->
  exists message,
    outcome (ask_ollama rt w timeout prompt model stop_event)
    = inl (Exn PPTGenerationError message).
Proof.
  intros Hentry Hpopen Hcomm Hcode H1 H2 H3.
  apply Z.eqb_neq in Hcode.
  unfold ask_ollama, call. rewrite Hentry, Hpopen, Hcomm. simpl.
  rewrite Hcode, H1, H2. simpl.
  unfold outcome. simpl. unfold ask_ollama_handler. simpl. rewrite H3.
  eexists. reflexivity.
Qed.

Lemma ask_ollama_stopped_on_entry
    (rt : PyRuntime) (w : World) (timeout : pyval) (prompt : str) (model : pyval)
    (stop_event : option Event) :
  stop_requested stop_event AskOllamaEntry = true ->
  ask_ollama rt w timeout prompt model stop_event = ([], inl stopped_by_user).
Proof. intros Hentry. unfold ask_ollama. rewrite Hentry. reflexivity. Qed.

Lemma generation_steps_stopped_on_entry
    (rt : PyRuntime) (w : World) (topic : str) (template_path : option str)
    (font_name : str) (font_size : Z) (stop_event : option Event) (ready : Prepared) :
  stop_requested stop_event AskOllamaEntry = true ->
  prepare rt (configuration w) topic = inr ready ->
  generation_steps rt w topic template_path font_name font_size stop_event
  = ([EvLoadConfig], inl stopped_by_user).
Proof.
  intros Hentry Hready.
  unfold generation_steps, load_config, call, lift, bind.
  rewrite Hready, (ask_ollama_stopped_on_entry _ _ _ _ _ _ Hentry). reflexivity.
Qed.

(** C3, as amended. For a topic that is not blank: if the stop flag is seen
    set at the first check of [generate_presentation], or it is seen set on
    entry to [ask_ollama] and nothing was raised on the way there (the
    configured slide bounds could be compared with the estimate, the prompt
    could be built from the configured template, the slide limit could be
    printed for the log, and the configuration holds a timeout and a
    model), the run raises [GenerationStopped], and the only call that
    may have left the function is the loading of the configuration: no
    model process is started. *)
Theorem stop_before_model_call
    (rt : PyRuntime) (w : World) (topic : str) (template_path : option str)
    (font_name : str) (font_size : Z) (stop_event : option Event) :
  strip topic <> [] ->
  stop_requested stop_event BeforeStarting = true
  \/ (stop_requested stop_event AskOllamaEntry = true
      /\ exists ready, prepare rt (configuration w) topic = inr ready) ->
  let run := generate_presentation rt w topic template_path font_name font_size
               stop_event in
  outcome run = inl (Exn GenerationStopped (cps "Generation stopped by user"))
  /\ kind_of (outcome run) = Stopped
  /\ forall ev, In ev (trace run) -> ev = EvLoadConfig.
Proof.
  intros Htopic Hset run. subst run. unfold generate_presentation.
  destruct (strip topic) as [|c t]; [congruence|].
  destruct (stop_requested stop_event BeforeStarting) eqn:Hfirst.
  - repeat split. intros ev [].
  - destruct Hset as [H | [Hentry [ready Hready]]]; [discriminate|].
    rewrite (generation_steps_stopped_on_entry rt w topic template_path font_name
               font_size stop_event ready Hentry Hready).
    repeat split. intros ev [H | []]. auto.
Qed.

Lemma stop_before_model_call_witness :
  kind_of (outcome (generate_presentation Sample.runtime (Sample.answers scenario_A_reply)
                      (cps "Python basics") None calibri 12
                      (Some (Sample.set_from AskOllamaEntry)))) = Stopped.
Proof.
  apply (@stop_before_model_call Sample.runtime (Sample.answers scenario_A_reply)
           (cps "Python basics") None calibri 12 (Some (Sample.set_from AskOllamaEntry))).
  - vm_compute. discriminate.
  - right. split; [reflexivity|]. vm_compute. eexists. reflexivity.
Defined.

(** The proviso of C3 is needed: with ["3"] for [min_slides] in the
    configuration file the prompt can be built from the template, the flag
    is set on entry to [ask_ollama], and the run still fails, at line 483,
    before [ask_ollama] is entered. *)
Example stop_after_a_bad_configuration :
  let w := Sample.world_on min_slides_as_text (inr (scenario_A_reply, [], 0%Z))
             (inr Sample.deck_path) in
  let run := generate_presentation Sample.runtime w (cps "Python basics") None
               calibri 12 (Some (Sample.set_from AskOllamaEntry)) in
  (exists prompt,
      build_prompt Sample.runtime (configuration w) (cps "Python basics") = inr prompt)
  /\ trace run = [EvLoadConfig]
  /\ outcome run
     = inl (Exn PPTGenerationError
              (cps "Failed to generate presentation: "
               ++ cps "'>' not supported between instances of 'int' and 'str'")).
Proof.
  split; [vm_compute; eexists; reflexivity|].
  split; vm_compute; reflexivity.
Qed.

Lemma set_from_one_way (c : checkpoint) : one_way (Sample.set_from c).
Proof.
  intros a b Hab Ha. unfold Sample.set_from in *.
  apply Nat.leb_le in Ha. apply Nat.leb_le. lia.
Qed.

(** C3 as first stated fails: with a blank topic and the flag set from the
    start, the run is [Failed] with the invalid-input error, not [Stopped]. *)
Lemma stop_before_model_call_blank_topic :
  let stop_event := Sample.set_from BeforeStarting in
  let run := generate_presentation Sample.runtime (Sample.answers scenario_A_reply)
               (cps "  ") None calibri 12 (Some stop_event) in
  one_way stop_event
  /\ stop_event BeforeStarting = true
  /\ stop_event AskOllamaEntry = true
  /\ outcome run = inl (Exn PPTGenerationError (cps "Topic cannot be empty"))
  /\ kind_of (outcome run) = Failed.
Proof.
  intros stop_event run. split; [apply set_from_one_way|].
  repeat split.
Qed.

(* ===================================================================== *)
(** * The fallback outline *)
(* ===================================================================== *)

Lemma outcome_template_in_use (w : World) (template_path : option str) :
  outcome (template_in_use w template_path) = inr (template_exists w template_path).
Proof. destruct template_path as [[|c p]|]; reflexivity. Qed.

Lemma outcome_create_presentation (w : World) (slides : list Slide)
    (template_path : option str) (font_name : str) (font_size : Z) :
  outcome (create_presentation w slides template_path font_name font_size)
  = match pptx_save w (lay_out_from w 0 slides) template_path font_name font_size with
    | inr file_path => inr file_path
    | inl e => inl (generation_error (cps "Failed to create presentation: " ++ exn_str e))
    end.
Proof.
  unfold create_presentation, call, try_except.
  destruct (pptx_save _ _ _ _ _); reflexivity.
Qed.

Lemma coerce_fallback_prefix (rt : PyRuntime) (topic : str) (k : nat) :
  strip topic <> [] ->
  coerce_items rt (firstn k (fallback_outline topic))
  = inr (firstn k (fallback_slides topic)).
Proof.
  intros Htopic. unfold fallback_outline, fallback_slides.
  destruct (strip topic) as [|c t] eqn:Hstrip; [congruence|].
  destruct k as [|[|[|k]]]; reflexivity.
Qed.

Lemma slice_to_all {A : Type} (l : list A) (n : Z) :
  (Z.of_nat (length l) <= n)%Z -> slice_to l n = l.
Proof.
  intros H. unfold slice_to.
  destruct (n <? 0)%Z eqn:Hneg; [apply Z.ltb_lt in Hneg; lia|].
  apply firstn_all2. lia.
Qed.

(** The coercion of the fallback outline: nothing in it can fail but the
    slice. *)
Lemma coerce_fallback (rt : PyRuntime) (topic : str) (bound : pyval) :
  strip topic <> [] ->
  validate_and_coerce_slides rt (fallback_outline topic) bound
  = match slice_bound bound with
    | inl e => inl e
    | inr (Some n) => inr (slice_to (fallback_slides topic) n)
    | inr None => inr (fallback_slides topic)
    end.
Proof.
  intros Htopic. unfold validate_and_coerce_slides, py_slice_to, and_then.
  destruct (slice_bound bound) as [e | [n|]]; [reflexivity | |].
  - unfold slice_to.
    change (length (fallback_outline topic)) with 2%nat.
    change (length (fallback_slides topic)) with 2%nat.
    destruct (n <? 0)%Z; apply coerce_fallback_prefix; assumption.
  - apply (coerce_fallback_prefix rt topic 2 Htopic).
Qed.

Lemma slice_bound_error (bound : pyval) (e : exn) :
  slice_bound bound = inl e ->
  e = type_error "slice indices must be integers or None or have an __index__ method".
Proof. destruct bound; cbn; intros H; congruence. Qed.

(** What [prepare] has returned, line by line. *)
Lemma prepare_returned (rt : PyRuntime) (config : pyval) (topic : str) (ready : Prepared) :
  prepare rt config topic = inr ready ->
  slide_limit rt config topic = inr (max_slides ready)
  /\ build_prompt rt config topic = inr (prompt ready)
  /\ (exists shown, py_str rt (max_slides ready) = inr shown)
  /\ py_getitem config (cps "ollama_timeout") = inr (ollama_timeout ready)
  /\ py_getitem config (cps "model") = inr (model ready).
Proof.
  unfold prepare, and_then.
  destruct (slide_limit rt config topic) as [e | limit]; [discriminate|].
  destruct (build_prompt rt config topic) as [e | text]; [discriminate|].
  destruct (py_str rt limit) as [e | shown] eqn:Hshown; [discriminate|].
  destruct (py_getitem config (cps "ollama_timeout")) as [e | seconds]; [discriminate|].
  destruct (py_getitem config (cps "model")) as [e | name]; [discriminate|].
  intros H. injection H as <-. cbn [max_slides prompt ollama_timeout model].
  repeat split. exists shown. exact Hshown.
Qed.

(** With integers for the two bounds, line 483 computes what it reads
    as. *)
Lemma slide_limit_integers (rt : PyRuntime) (config : pyval) (topic : str) (lo hi : Z) :
  py_getitem config (cps "min_slides") = inr (PInt lo) ->
  py_getitem config (cps "max_slides") = inr (PInt hi) ->
  slide_limit rt config topic
  = inr (PInt (Z.max lo (Z.min hi (estimate_slide_count_from_keywords (str_lower rt)
                                     topic)))).
Proof.
  intros Hlo Hhi. unfold slide_limit, and_then. rewrite Hlo, Hhi.
  unfold py_min, py_compare, and_then. cbn [as_int].
  set (estimate := estimate_slide_count_from_keywords (str_lower rt) topic).
  destruct (estimate <? hi)%Z eqn:Hbelow;
    unfold py_max, py_compare, and_then; cbn [as_int].
  - apply Z.ltb_lt in Hbelow.
    destruct (estimate >? lo)%Z eqn:Habove; do 2 f_equal;
      [apply Z.gtb_lt in Habove | rewrite Z.gtb_ltb in Habove; apply Z.ltb_ge in Habove];
      lia.
  - apply Z.ltb_ge in Hbelow.
    destruct (hi >? lo)%Z eqn:Habove; do 2 f_equal;
      [apply Z.gtb_lt in Habove | rewrite Z.gtb_ltb in Habove; apply Z.ltb_ge in Habove];
      lia.
Qed.

(** C1, as amended. In a run that reaches the extractor (the topic is not
    blank, the flag is clear at the first check, lines 479 to 497 raise
    nothing, the model answers [response], the flag is clear after the
    answer) and in which the extractor returns [None] or the empty list,
    the outline is replaced by the two fallback slides, the title slide
    carrying the stripped topic and no points, the second one titled
    Overview with its four points.  The run raises [GenerationStopped] if
    the flag is seen set when the empty result is looked at.  Otherwise the
    fallback is cut to the slide limit: when the limit is an integer (it is
    whenever the two configured bounds are integers, and then it is the
    estimate brought into these bounds) both slides are kept as soon as
    it is at least 2; when it is not an integer (a bound such as 5.5 in
    the configuration file) the slice raises [TypeError] and the run
    fails.  After the cut the run raises [GenerationStopped] if the flag is
    seen set at the last check; otherwise it returns the file the renderer
    wrote, with the metadata, or fails with the error of the renderer. *)
Theorem empty_extraction_falls_back
    (rt : PyRuntime) (w : World) (topic : str) (template_path : option str)
    (font_name : str) (font_size : Z) (stop_event : option Event)
    (ready : Prepared) (response : str) :
  strip topic <> [] ->
  stop_requested stop_event BeforeStarting = false ->
  prepare rt (configuration w) topic = inr ready ->
  outcome (ask_ollama rt w (ollama_timeout ready) (prompt ready) (model ready)
             stop_event) = inr response ->
  stop_requested stop_event AfterResponse = false ->
  outcome (extract_and_parse_json rt response) = inr None
  \/ outcome (extract_and_parse_json rt response) = inr (Some []) ->
  validate_and_coerce_slides rt (fallback_outline topic) (max_slides ready)
  = match slice_bound (max_slides ready) with
    | inl e => inl e
    | inr (Some n) => inr (slice_to (fallback_slides topic) n)
    | inr None => inr (fallback_slides topic)
    end
  /\ (forall n, slice_bound (max_slides ready) = inr (Some n) -> (2 <= n)%Z ->
                validate_and_coerce_slides rt (fallback_outline topic) (max_slides ready)
                = inr (fallback_slides topic))
  /\ (forall lo hi,
        py_getitem (configuration w) (cps "min_slides") = inr (PInt lo) ->
        py_getitem (configuration w) (cps "max_slides") = inr (PInt hi) ->
        slice_bound (max_slides ready)
        = inr (Some (Z.max lo (Z.min hi (estimate_slide_count_from_keywords
                                           (str_lower rt) topic)))))
  /\ outcome (generate_presentation rt w topic template_path font_name font_size
                stop_event)
     = if stop_requested stop_event EmptyOutline
       then inl (Exn GenerationStopped (cps "Generation stopped by user"))
       else
         match validate_and_coerce_slides rt (fallback_outline topic)
                 (max_slides ready) with
         | inl e =>
             inl (Exn PPTGenerationError
                    (cps "Failed to generate presentation: " ++ exn_str e))
         | inr slides =>
             if stop_requested stop_event BeforeRender
             then inl (Exn GenerationStopped (cps "Generation stopped by user"))
             else
               match pptx_save w (lay_out_from w 0 slides) template_path font_name
                       font_size with
               | inr file_path =>
                   inr (file_path,
                        mkMetadata (length slides) topic
                          (template_exists w template_path))
               | inl e =>
                   inl (Exn PPTGenerationError
                          (cps "Failed to generate presentation: "
                           ++ cps "Failed to create presentation: " ++ exn_str e))
               end
         end.
Proof.
  intros Htopic Hstart Hready Hask Hafter Hempty.
  pose proof (coerce_fallback rt topic (max_slides ready) Htopic) as Hcoerce.
  split; [exact Hcoerce|]. split.
  { intros n Hn Hlimit. rewrite Hcoerce, Hn. f_equal. apply slice_to_all. simpl. lia. }
  split.
  { intros lo hi Hlo Hhi.
    destruct (prepare_returned rt _ topic ready Hready) as (Hlimit & _).
    rewrite (slide_limit_integers rt _ topic lo hi Hlo Hhi) in Hlimit.
    injection Hlimit as <-. reflexivity. }
  unfold generate_presentation.
  destruct (strip topic) as [|c t] eqn:Hstrip; [congruence|].
  rewrite Hstart.
  assert (Hparsed : exists parsed,
             outcome (extract_and_parse_json rt response) = inr parsed
             /\ outline_or_fallback topic stop_event parsed
                = if stop_requested stop_event EmptyOutline
                  then raise stopped_by_user else ret (fallback_outline topic)).
  { destruct Hempty as [H | H]; eexists; (split; [exact H | reflexivity]). }
  destruct Hparsed as (parsed & Hextract & Hfallback).
  set (after_outline := fun slides_data =>
         render_outline rt w topic template_path font_name font_size stop_event
           (max_slides ready) slides_data).
  assert (Hsteps :
            outcome (generation_steps rt w topic template_path font_name font_size
                       stop_event)
            = outcome (bind (outline_or_fallback topic stop_event parsed) after_outline)).
  { unfold generation_steps.
    rewrite (outcome_bind_inr _ _ (configuration w)) by reflexivity.
    rewrite (outcome_bind_inr _ _ ready) by (unfold lift; exact Hready).
    rewrite (outcome_bind_inr _ _ _ Hask).
    rewrite Hafter.
    rewrite (outcome_bind_inr _ _ _ Hextract). reflexivity. }
  rewrite Hfallback in Hsteps.
  destruct (stop_requested stop_event EmptyOutline) eqn:Hck1.
  { rewrite (outcome_try_inl _ _ _ Hsteps). reflexivity. }
  rewrite (outcome_bind_inr _ _ (fallback_outline topic)) in Hsteps by reflexivity.
  unfold after_outline, render_outline in Hsteps.
  destruct (validate_and_coerce_slides rt (fallback_outline topic) (max_slides ready))
    as [e | slides] eqn:Hslides.
  { rewrite (outcome_bind_inl _ _ e) in Hsteps by reflexivity.
    rewrite (outcome_try_inl _ _ _ Hsteps).
    destruct (slice_bound (max_slides ready)) as [e' | [n|]] eqn:Hbound;
      try discriminate.
    injection Hcoerce as ->. rewrite (slice_bound_error _ _ Hbound). reflexivity. }
  rewrite (outcome_bind_inr _ _ slides) in Hsteps by reflexivity.
  destruct (stop_requested stop_event BeforeRender) eqn:Hck2.
  { rewrite (outcome_try_inl _ _ _ Hsteps). reflexivity. }
  pose proof (outcome_create_presentation w slides template_path font_name font_size)
    as Hcreate.
  destruct (pptx_save w (lay_out_from w 0 slides) template_path font_name font_size)
    as [e | file_path].
  - rewrite (outcome_bind_inl _ _ _ Hcreate) in Hsteps.
    rewrite (outcome_try_inl _ _ _ Hsteps). reflexivity.
  - rewrite (outcome_bind_inr _ _ _ Hcreate) in Hsteps.
    rewrite (outcome_bind_inr _ _ _ (outcome_template_in_use w template_path)) in Hsteps.
    rewrite (outcome_try_inr _ _ _ Hsteps). reflexivity.
Qed.

Lemma empty_extraction_falls_back_witness :
  outcome (generate_presentation Sample.runtime (Sample.answers prose_reply)
             (cps "Python basics") None calibri 12 (Some Sample.never_set))
  = inr (Sample.deck_path, mkMetadata 2 (cps "Python basics") false).
Proof.
  refine (proj2 (proj2 (proj2
    (@empty_extraction_falls_back Sample.runtime (Sample.answers prose_reply)
       (cps "Python basics") None calibri 12 (Some Sample.never_set)
       (mkPrepared (PInt 5) (default_prompt Sample.runtime (cps "Python basics"))
          (PInt 120) (PStr (cps "qwen3")))
       prose_reply _ _ _ _ _ _)))).
  - vm_compute. discriminate.
  - reflexivity.
  - vm_compute. reflexivity.
  - vm_compute. reflexivity.
  - reflexivity.
  - left. vm_compute. reflexivity.
Defined.

(** C1 as first stated fails in three ways, in runs where the extractor
    finds nothing in the reply.  When the stop flag is set by the time the
    empty result is looked at, the run is [Stopped] and no deck is
    rendered; when the renderer raises on the fallback deck, the run is
    [Failed]; and when the configuration file gives 5.5 for [min_slides],
    the slide limit is 5.5, the fallback cannot be cut to it, and the run
    is [Failed] without the renderer being called. *)
Lemma empty_extraction_not_always_completed :
  let stopped_run :=
    generate_presentation Sample.runtime (Sample.answers prose_reply)
      (cps "Python basics") None calibri 12 (Some (Sample.set_from EmptyOutline)) in
  let failed_run :=
    generate_presentation Sample.runtime (Sample.answers_but_disk_is_full prose_reply)
      (cps "Python basics") None calibri 12 None in
  let uncut_run :=
    generate_presentation Sample.runtime
      (Sample.world_on min_slides_as_float (inr (prose_reply, [], 0%Z))
         (inr Sample.deck_path))
      (cps "Python basics") None calibri 12 None in
  outcome (extract_and_parse_json Sample.runtime prose_reply) = inr None
  /\ kind_of (outcome stopped_run) = Stopped
  /\ trace stopped_run
     = [ EvLoadConfig; EvPopen (PStr (cps "qwen3"));
         EvCommunicate (default_prompt Sample.runtime (cps "Python basics")) (PInt 120) ]
  /\ In (EvSave (lay_out_from (Sample.answers_but_disk_is_full prose_reply) 0
                   (fallback_slides (cps "Python basics")))
                None calibri 12) (trace failed_run)
  /\ kind_of (outcome failed_run) = Failed
  /\ outcome failed_run
     = inl (Exn PPTGenerationError
              (cps "Failed to generate presentation: Failed to create presentation: [Errno 28] No space left on device"))
  /\ trace uncut_run
     = [ EvLoadConfig; EvPopen (PStr (cps "qwen3"));
         EvCommunicate (default_prompt Sample.runtime (cps "Python basics")) (PInt 120) ]
  /\ outcome uncut_run
     = inl (Exn PPTGenerationError
              (cps "Failed to generate presentation: slice indices must be integers or None or have an __index__ method")).
Proof.
  intros stopped_run failed_run uncut_run.
  split; [vm_compute; reflexivity|].
  split; [vm_compute; reflexivity|].
  split; [vm_compute; reflexivity|].
  split; [vm_compute; do 3 right; left; reflexivity|].
  split; [vm_compute; reflexivity|].
  split; [vm_compute; reflexivity|].
  split; vm_compute; reflexivity.
Qed.

(* ===================================================================== *)
(** * Properties of the extractor *)
(* ===================================================================== *)

Lemma parse_attempts_returns (parsers : list (str -> exn + pyval)) (json_str : str) :
  exists result, parse_attempts parsers json_str = ([], inr result).
Proof.
  induction parsers as [|parser rest IH]; simpl.
  - eexists. reflexivity.
  - unfold lift, bind, try_except, ret.
    destruct (parser json_str) as [e | v].
    + simpl. destruct IH as [r ->]. eexists. reflexivity.
    + destruct v; simpl; try (destruct IH as [r ->]; eexists; reflexivity).
      eexists. reflexivity.
Qed.

Lemma char_eqb_sym (a b : char) : char_eqb a b = char_eqb b a.
Proof. apply N.eqb_sym. Qed.

Lemma char_eqb_eq (a b : char) : char_eqb a b = true <-> a = b.
Proof. apply N.eqb_eq. Qed.

Lemma count_char_cons (c x : char) (s : str) :
  count_char c (x :: s) = ((if char_eqb c x then 1 else 0) + count_char c s)%nat.
Proof. unfold count_char. cbn [filter]. destruct (char_eqb c x); reflexivity. Qed.

Lemma bracket_depth_cons (c : char) (s : str) :
  bracket_depth (c :: s)
  = ((if char_eqb c lbracket then 1 else 0) - (if char_eqb c rbracket then 1 else 0)
     + bracket_depth s)%Z.
Proof.
  unfold bracket_depth. rewrite !count_char_cons.
  rewrite (char_eqb_sym lbracket c), (char_eqb_sym rbracket c).
  destruct (char_eqb c lbracket); destruct (char_eqb c rbracket); lia.
Qed.

(** The loop of strategy 2 falls through exactly as long as some bracket
    stays open. *)
Lemma scan_array_open (s : str) :
  forall (depth : Z) (seen : str),
    (forall n, (0 < n <= length s)%nat -> (0 < depth + bracket_depth (firstn n s))%Z) ->
    scan_array depth seen s = None.
Proof.
  induction s as [|ch s IH]; intros depth seen Hopen; simpl; [reflexivity|].
  assert (Hhead := Hopen 1%nat ltac:(simpl; lia)).
  simpl firstn in Hhead. rewrite bracket_depth_cons in Hhead.
  change (bracket_depth []) with 0%Z in Hhead.
  assert (Htail : forall delta,
             delta = ((if char_eqb ch lbracket then 1 else 0)
                      - (if char_eqb ch rbracket then 1 else 0))%Z ->
             forall n, (0 < n <= length s)%nat ->
                       (0 < (depth + delta) + bracket_depth (firstn n s))%Z).
  { intros delta -> n Hn.
    specialize (Hopen (S n) ltac:(simpl; lia)).
    simpl firstn in Hopen. rewrite bracket_depth_cons in Hopen. lia. }
  destruct (char_eqb ch lbracket) eqn:Hl.
  - apply IH. intros n Hn.
    destruct (char_eqb ch rbracket) eqn:Hr.
    + apply char_eqb_eq in Hl, Hr. subst ch. discriminate.
    + apply (Htail 1%Z eq_refl n Hn).
  - destruct (char_eqb ch rbracket) eqn:Hr.
    + assert (Hne : (depth - 1 =? 0)%Z = false) by (apply Z.eqb_neq; lia).
      rewrite Hne. apply IH. intros n Hn.
      replace (depth - 1)%Z with (depth + (0 - 1))%Z by lia.
      apply (Htail (0 - 1)%Z eq_refl n Hn).
    + apply IH. intros n Hn.
      replace depth with (depth + (0 - 0))%Z at 1 by lia.
      apply (Htail (0 - 0)%Z eq_refl n Hn).
Qed.

Lemma first_array_none (text : str) :
  find_char lbracket text = None
  \/ (exists start, find_char lbracket text = Some start
                    /\ never_closed (skipn start text)) ->
  first_array text = None.
Proof.
  unfold first_array. intros [-> | (start & -> & Hopen)]; [reflexivity|].
  rewrite scan_array_open; [reflexivity|].
  intros n Hn. specialize (Hopen n Hn). lia.
Qed.

(** The texts of the amended claim are among those of the first one: a
    first bracket that is never closed leaves the brackets unbalanced. *)
Lemma balanced_from_depth (s : str) :
  forall d, balanced_from d s = true -> (Z.of_nat d + bracket_depth s = 0)%Z.
Proof.
  induction s as [|c s IH]; intros d; cbn [balanced_from].
  - intros H. apply Nat.eqb_eq in H. subst d. reflexivity.
  - rewrite bracket_depth_cons.
    destruct (char_eqb c lbracket) eqn:Hl.
    + destruct (char_eqb c rbracket) eqn:Hr.
      * apply char_eqb_eq in Hl, Hr. subst c. discriminate.
      * intros H. apply IH in H. lia.
    + destruct (char_eqb c rbracket) eqn:Hr.
      * destruct d as [|d]; [discriminate|]. intros H. apply IH in H. lia.
      * intros H. apply IH in H. lia.
Qed.

Lemma balanced_from_suffix (pre rest : str) :
  forall d, balanced_from d (pre ++ rest) = true ->
            exists d', balanced_from d' rest = true.
Proof.
  induction pre as [|c pre IH]; intros d; cbn [app balanced_from].
  - intros H. exists d. exact H.
  - destruct (char_eqb c lbracket); [apply IH|].
    destruct (char_eqb c rbracket); [|apply IH].
    destruct d as [|d]; [discriminate | apply IH].
Qed.

Lemma find_char_lt (c : char) (s : str) (i : nat) :
  find_char c s = Some i -> (i < length s)%nat.
Proof.
  revert i. induction s as [|x s IH]; intros i; cbn [find_char]; [discriminate|].
  destruct (char_eqb c x).
  - intros H. injection H as <-. simpl. lia.
  - destruct (find_char c s) as [j|]; [|discriminate].
    intros H. injection H as <-. specialize (IH j eq_refl). simpl. lia.
Qed.

Lemma never_closed_unbalanced (text : str) (start : nat) :
  find_char lbracket text = Some start ->
  never_closed (skipn start text) ->
  brackets_balanced text = false.
Proof.
  intros Hfind Hopen.
  destruct (brackets_balanced text) eqn:Hbal; [exfalso | reflexivity].
  unfold brackets_balanced in Hbal.
  rewrite <- (firstn_skipn start text) in Hbal.
  apply balanced_from_suffix in Hbal as [d Hd].
  apply balanced_from_depth in Hd.
  apply find_char_lt in Hfind.
  assert (Hlen : (0 < length (skipn start text))%nat) by (rewrite length_skipn; lia).
  specialize (Hopen (length (skipn start text)) (conj Hlen (le_n _))).
  rewrite firstn_all in Hopen. lia.
Qed.

(** C2, as amended. For every runtime, whatever its parsers return or
    raise, and every text, [extract_and_parse_json] returns (a list or
    [None]) without raising and without any external call; and when the
    text holds no [<json>] block and either no opening bracket or a first
    opening bracket that is never closed, it returns [None]. *)
Theorem extraction_never_raises (rt : PyRuntime) (text : str) :
  (exists result, extract_and_parse_json rt text = ([], inr result))
  /\ (json_match_group1 text = None ->
      find_char lbracket text = None
      \/ (exists start, find_char lbracket text = Some start
                        /\ never_closed (skipn start text)) ->
      extract_and_parse_json rt text = ([], inr None)).
Proof.
  split.
  - unfold extract_and_parse_json.
    destruct text as [|c text]; [eexists; reflexivity|].
    destruct (match json_match_group1 (c :: text) with
              | Some group1 => Some (strip group1)
              | None => first_array (c :: text)
              end) as [json_str|].
    + apply parse_attempts_returns.
    + eexists. reflexivity.
  - intros Hmarker Hbrackets. unfold extract_and_parse_json.
    destruct text as [|c text]; [reflexivity|].
    rewrite Hmarker, (first_array_none _ Hbrackets). reflexivity.
Qed.

Lemma never_closed_check (s : str) :
  forallb (fun n => (0 <? bracket_depth (firstn n s))%Z) (seq 1 (length s)) = true ->
  never_closed s.
Proof.
  intros H n Hn. rewrite forallb_forall in H.
  apply Z.ltb_lt, H, in_seq. lia.
Qed.

Lemma extraction_never_raises_witness :
  extract_and_parse_json Sample.runtime unclosed_reply = ([], inr None).
Proof.
  apply (proj2 (extraction_never_raises Sample.runtime unclosed_reply)).
  - reflexivity.
  - right. exists 8%nat. split; [reflexivity|].
    apply never_closed_check. vm_compute. reflexivity.
Defined.

(** C2 as first stated fails: the brackets of this text are not balanced
    and it has no [<json>] block, yet the extractor returns the array that
    ends at the first closing bracket that matches. *)
Lemma extraction_of_unbalanced_text :
  brackets_balanced stray_bracket_reply = false
  /\ json_match_group1 stray_bracket_reply = None
  /\ extract_and_parse_json Sample.runtime stray_bracket_reply
     = ([], inr (Some [ PDict [ (PStr (cps "title"), PStr (cps "A")) ] ])).
Proof. repeat split. Qed.

(* ===================================================================== *)
(** * Properties of the coercion *)
(* ===================================================================== *)

Lemma lstrip_length (s : str) : (length (lstrip s) <= length s)%nat.
Proof.
  induction s as [|c s IH]; simpl; [lia|].
  destruct (is_space c); simpl; lia.
Qed.

Lemma lstrip_idempotent (s : str) : lstrip (lstrip s) = lstrip s.
Proof.
  induction s as [|c s IH]; simpl; [reflexivity|].
  destruct (is_space c) eqn:Hc; [exact IH|].
  simpl. rewrite Hc. reflexivity.
Qed.

Lemma lstrip_decompose (s : str) :
  exists blanks, s = blanks ++ lstrip s /\ forallb is_space blanks = true.
Proof.
  induction s as [|c s (blanks & Hs & Hb)]; simpl.
  - exists []. split; reflexivity.
  - destruct (is_space c) eqn:Hc.
    + exists (c :: blanks). simpl. rewrite Hc, Hb. split; [congruence | reflexivity].
    + exists []. split; reflexivity.
Qed.

Lemma lstrip_fixed_head (c : char) (r : str) :
  lstrip (c :: r) = c :: r -> is_space c = false.
Proof.
  simpl. destruct (is_space c); [|reflexivity].
  intros H. pose proof (lstrip_length r) as Hlen.
  rewrite H in Hlen. simpl in Hlen. lia.
Qed.

Lemma rstrip_prefix (s : str) : exists tail, s = rstrip s ++ tail.
Proof.
  destruct (lstrip_decompose (rev s)) as (blanks & Hs & _).
  exists (rev blanks). unfold rstrip.
  rewrite <- rev_app_distr, <- Hs, rev_involutive. reflexivity.
Qed.

Lemma rstrip_idempotent (s : str) : rstrip (rstrip s) = rstrip s.
Proof. unfold rstrip. rewrite rev_involutive, lstrip_idempotent. reflexivity. Qed.

Lemma lstrip_rstrip (s : str) : lstrip s = s -> lstrip (rstrip s) = rstrip s.
Proof.
  intros Hs. destruct (rstrip_prefix s) as (tail & Htail).
  destruct (rstrip s) as [|c r] eqn:Hr; [reflexivity|].
  rewrite Htail in Hs. simpl app in Hs.
  apply lstrip_fixed_head in Hs. simpl. rewrite Hs. reflexivity.
Qed.

(** Stripping twice is stripping once: a stripped string has no whitespace
    at either end. *)
Lemma strip_idempotent (s : str) : strip (strip s) = strip s.
Proof.
  unfold strip.
  rewrite (lstrip_rstrip (lstrip s) (lstrip_idempotent s)).
  apply rstrip_idempotent.
Qed.

Lemma clean_points_spec (l : list pyval) :
  clean_points l = filter nonblank (map strip (str_entries l)).
Proof.
  induction l as [|v l IH]; simpl; [reflexivity|].
  destruct v; simpl; try exact IH.
  destruct (strip s); simpl; rewrite IH; reflexivity.
Qed.

Lemma clean_points_stripped (l : list pyval) :
  Forall (fun p => p <> [] /\ strip p = p) (clean_points l).
Proof.
  rewrite clean_points_spec. apply Forall_forall. intros p Hp.
  apply filter_In in Hp as [Hin Hnb].
  apply in_map_iff in Hin as (q & <- & _).
  split; [destruct (strip q); [discriminate | congruence] | apply strip_idempotent].
Qed.

Lemma dict_get_absent (entries : list (pyval * pyval)) (key : str) (default : pyval) :
  dict_has entries key = false -> dict_get entries key default = default.
Proof.
  induction entries as [|[k v] rest IH]; simpl; [reflexivity|].
  destruct k; auto.
  destruct (str_eqb s key); simpl; [discriminate | exact IH].
Qed.

Lemma coerce_item_dict (rt : PyRuntime) (entries : list (pyval * pyval)) :
  coerce_item rt (PDict entries)
  = match py_str rt (dict_get entries (cps "title") (PStr (cps "Untitled Slide"))) with
    | inl e => inl e
    | inr text =>
        inr (Some (mkSlide text
                     (clean_points
                        match dict_get entries (cps "points") (PList []) with
                        | PList l => l
                        | _ => []
                        end)))
    end.
Proof. reflexivity. Qed.

(** C8, as amended. The coercion accepts a record exactly when [str()]
    of its title field returns, and the title of the slide is what it
    returns: the placeholder [Untitled Slide] when the field is absent, the
    field itself when it is a string (an empty string stays empty), and
    the printed value when it has another type (the digits of an integer,
    for one).  When [str()] raises, as it does for an integer with more
    digits than the limit of the interpreter allows, the record is not
    skipped: the exception leaves the coercion. *)
Theorem coerced_title (rt : PyRuntime) (entries : list (pyval * pyval)) :
  let given := dict_get entries (cps "title") (PStr (cps "Untitled Slide")) in
  (forall slide, coerce_item rt (PDict entries) = inr (Some slide) ->
                 py_str rt given = inr (title slide))
  /\ (forall text, py_str rt given = inr text ->
                   exists slide, coerce_item rt (PDict entries) = inr (Some slide)
                                 /\ title slide = text)
  /\ (forall e, py_str rt given = inl e -> coerce_item rt (PDict entries) = inl e)
  /\ (dict_has entries (cps "title") = false ->
      exists slide, coerce_item rt (PDict entries) = inr (Some slide)
                    /\ title slide = cps "Untitled Slide")
  /\ (forall s, given = PStr s ->
                exists slide, coerce_item rt (PDict entries) = inr (Some slide)
                              /\ title slide = s)
  /\ (forall z, given = PInt z ->
                if exceeds_str_digits (int_max_str_digits rt) z
                then coerce_item rt (PDict entries)
                     = inl (str_digits_error (int_max_str_digits rt))
                else exists slide, coerce_item rt (PDict entries) = inr (Some slide)
                                   /\ title slide = str_of_Z z).
Proof.
  cbv zeta. rewrite coerce_item_dict.
  split; [|split; [|split; [|split; [|split]]]].
  - intros slide. destruct (py_str rt _) as [e | text]; [discriminate|].
    intros H. injection H as <-. reflexivity.
  - intros text ->. eexists. split; reflexivity.
  - intros e ->. reflexivity.
  - intros Habsent. rewrite (dict_get_absent _ _ _ Habsent).
    eexists. split; reflexivity.
  - intros s ->. eexists. split; reflexivity.
  - intros z ->. cbn [py_str]. unfold int_str.
    destruct (exceeds_str_digits (int_max_str_digits rt) z); [reflexivity|].
    eexists. split; reflexivity.
Qed.

Lemma coerced_title_witness :
  exists slide,
    coerce_item Sample.runtime (PDict [field "points" (PList [])]) = inr (Some slide)
    /\ title slide = cps "Untitled Slide".
Proof.
  apply (proj1 (proj2 (proj2 (proj2
           (coerced_title Sample.runtime [(PStr (cps "points"), PList [])]))))).
  reflexivity.
Defined.

(** C8 as first stated fails: an empty title stays empty, and a title of
    the wrong type is printed, not replaced by the placeholder; and a
    title that cannot be printed makes the whole coercion raise. *)
Lemma coerced_title_empty_or_printed :
  validate_and_coerce_slides Sample.runtime
    [ PDict [field "title" (PStr []); field "points" (PList [])];
      PDict [field "title" (PInt 7); field "points" (PList [])] ] (PInt 3)
  = inr [ mkSlide [] []; mkSlide (cps "7") [] ]
  /\ validate_and_coerce_slides Sample.runtime
       [ PDict [field "title" (PStr (cps "A")); field "points" (PList [])];
         PDict [field "title" (PInt huge); field "points" (PList [])] ] (PInt 3)
     = inl (Exn (OtherException (cps "ValueError"))
              (cps "Exceeds the limit (4300 digits) for integer string conversion; use sys.set_int_max_str_digits() to increase the limit")).
Proof. split; vm_compute; reflexivity. Qed.

(** C9, as amended. The points field never makes the coercion fail: a
    record is accepted whenever [str()] of its title returns, whatever its
    points are, and an exception that leaves the coercion of a record is
    the one [str()] of the title raised.  In an accepted record, a points
    field that is not a list gives no points; otherwise the points are the
    string entries of the field, stripped of surrounding whitespace, the
    blank ones left out, in their order.  Every point is non-empty and has
    no whitespace at either end.  Bullet and dash markers are left in
    place: they are removed later, by [point_text], when the deck is laid
    out. *)
Theorem coerced_points (rt : PyRuntime) (entries : list (pyval * pyval)) :
  let given := dict_get entries (cps "points") (PList []) in
  let given_title := dict_get entries (cps "title") (PStr (cps "Untitled Slide")) in
  (forall e, coerce_item rt (PDict entries) = inl e -> py_str rt given_title = inl e)
  /\ (forall text, py_str rt given_title = inr text ->
                   exists slide, coerce_item rt (PDict entries) = inr (Some slide))
  /\ (forall slide,
        coerce_item rt (PDict entries) = inr (Some slide) ->
        (is_list given = false -> points slide = [])
        /\ (forall l, given = PList l ->
                      points slide = filter nonblank (map strip (str_entries l)))
        /\ Forall (fun p => p <> [] /\ strip p = p) (points slide)).
Proof.
  cbv zeta. rewrite coerce_item_dict.
  destruct (py_str rt _) as [e | text].
  - split; [|split].
    + intros e' H. injection H as <-. reflexivity.
    + intros text H. discriminate.
    + intros slide H. discriminate.
  - split; [|split].
    + intros e' H. discriminate.
    + intros text' _. eexists. reflexivity.
    + intros slide H. injection H as <-. cbn [points].
      split; [|split].
      * destruct (dict_get entries (cps "points") (PList [])); try reflexivity.
        discriminate.
      * intros l ->. apply clean_points_spec.
      * apply clean_points_stripped.
Qed.

Lemma coerced_points_witness :
  points (mkSlide (cps "Syntax") [cps "Indentation matters"; cps "Dynamic typing"])
  = filter nonblank
      (map strip
         (str_entries [PStr (cps "  Indentation matters "); PInt 3;
                       PStr (cps "   "); PStr (cps "Dynamic typing")])).
Proof.
  refine (proj1 (proj2 (proj2 (proj2 (coerced_points Sample.runtime
            [(PStr (cps "title"), PStr (cps "Syntax"));
             (PStr (cps "points"),
              PList [PStr (cps "  Indentation matters "); PInt 3;
                     PStr (cps "   "); PStr (cps "Dynamic typing")])]))
            (mkSlide (cps "Syntax") [cps "Indentation matters"; cps "Dynamic typing"])
            _)) _ _).
  - vm_compute. reflexivity.
  - reflexivity.
Defined.

(** C9 as first stated fails: the markers are still there after the
    coercion, and a point that is only a marker is kept although nothing
    is left of it once the marker is stripped. *)
Lemma coerced_points_keep_markers :
  validate_and_coerce_slides Sample.runtime
    [ PDict [field "title" (PStr (cps "Steps"));
             field "points" (PList [PStr (cps "- First step"); PStr [bullet]])] ]
    (PInt 3)
  = inr [ mkSlide (cps "Steps") [cps "- First step"; [bullet]] ]
  /\ point_text (cps "- First step") = cps "First step"
  /\ point_text [bullet] = [].
Proof. repeat split. Qed.

(* ===================================================================== *)
(** * Properties of the slide-count heuristic *)
(* ===================================================================== *)

Lemma py_int_floor (x : Q) : (0 <= Qnum x)%Z -> py_int x = Qfloor x.
Proof.
  destruct x as [n d]. unfold py_int, Qfloor. simpl. intros Hn.
  apply Z.quot_div_nonneg; lia.
Qed.

Lemma halves_floor (n : Z) : Qfloor (n # 2) = (n / 2)%Z.
Proof. reflexivity. Qed.

Section ScoreLemmas.

Variable str_lower : str -> str.
Variable user_input : str.

Lemma word_points_nonneg : (0 <= word_points user_input)%Z.
Proof. apply Z.div_pos; [apply Nat2Z.is_nonneg | lia]. Qed.

Ltac score_arithmetic :=
unfold keyword_score;
fold (broad_hits str_lower user_input); fold (process_hits str_lower user_input);
fold (training_hits str_lower user_input); fold (commas str_lower user_input);
fold (word_points user_input);
unfold Qeq, Qplus, Qmult, inject_Z; cbn [Qnum Qden Pos.mul Pos.add];
pose proof (Nat2Z.is_nonneg (keywords_in broad_keywords (str_lower user_input)));
pose proof (Nat2Z.is_nonneg (keywords_in process_keywords (str_lower user_input)));
pose proof (Nat2Z.is_nonneg (keywords_in training_keywords (str_lower user_input)));
pose proof (Nat2Z.is_nonneg (count_char comma (str_lower user_input)));
pose proof word_points_nonneg;
unfold broad_hits, process_hits, training_hits, commas in *;
lia.

Lemma score_in_halves :
(keyword_score str_lower user_input + 5
 == (10 + 4 * broad_hits str_lower user_input + 3 * process_hits str_lower user_input
     + 4 * training_hits str_lower user_input + commas str_lower user_input
     + 2 * word_points user_input) # 2)%Q.
Proof. score_arithmetic. Qed.

Lemma score_numerator_nonneg :
(0 <= Qnum (keyword_score str_lower user_input + 5))%Z.
Proof. score_arithmetic. Qed.

(** The floats of the source written as one rational. *)
Lemma score_as_written :
(5 + 2 * inject_Z (broad_hits str_lower user_input)
   + 1.5 * inject_Z (process_hits str_lower user_input)
   + 2 * inject_Z (training_hits str_lower user_input)
   + 0.5 * inject_Z (commas str_lower user_input)
   + inject_Z (word_points user_input)
 == keyword_score str_lower user_input + 5)%Q.
Proof. score_arithmetic. Qed.

Lemma estimate_floor :
estimate_slide_count_from_keywords str_lower user_input
= Z.max 3 (Z.min 18 (Qfloor (keyword_score str_lower user_input + 5))).
Proof.
unfold estimate_slide_count_from_keywords.
rewrite (py_int_floor _ score_numerator_nonneg). reflexivity.
Qed.

Lemma estimate_closed_form :
estimate_slide_count_from_keywords str_lower user_input
= Z.max 3 (Z.min 18
    (5 + 2 * broad_hits str_lower user_input + 2 * training_hits str_lower user_input
     + word_points user_input
     + (3 * process_hits str_lower user_input + commas str_lower user_input) / 2))%Z.
Proof.
rewrite estimate_floor.
rewrite (Qfloor_comp _ _ score_in_halves), halves_floor.
do 2 f_equal.
rewrite <- (Z.div_add_l (5 + 2 * broad_hits str_lower user_input
                         + 2 * training_hits str_lower user_input
                         + word_points user_input) 2
              (3 * process_hits str_lower user_input + commas str_lower user_input))
  by lia.
f_equal. ring.
Qed.

End ScoreLemmas.

(** C6, as amended. The estimate is 5, plus 2 for each broad-scope keyword
    that the lower-cased topic contains, plus 1.5 for each process keyword
    it contains, plus 2 for each training keyword it contains (a keyword
    counts once, however often it occurs), plus 0.5 for each comma, plus
    one for each full 25 words, rounded down and clamped to [3, 18]; in
    integers, the halves add up to the quotient of [3p + c] by 2. *)
Theorem slide_count_formula (str_lower : str -> str) (user_input : str) :
  let b := broad_hits str_lower user_input in
  let p := process_hits str_lower user_input in
  let t := training_hits str_lower user_input in
  let c := commas str_lower user_input in
  let wd := word_points user_input in
  estimate_slide_count_from_keywords str_lower user_input
  = Z.max 3 (Z.min 18 (Qfloor (5 + 2 * inject_Z b + 1.5 * inject_Z p + 2 * inject_Z t
                               + 0.5 * inject_Z c + inject_Z wd)%Q))
  /\ estimate_slide_count_from_keywords str_lower user_input
     = Z.max 3 (Z.min 18 (5 + 2 * b + 2 * t + wd + (3 * p + c) / 2))%Z.
Proof.
  cbv zeta. split.
  - rewrite estimate_floor.
    rewrite (Qfloor_comp _ _ (score_as_written str_lower user_input)). reflexivity.
  - apply estimate_closed_form.
Qed.

(** C6 as first stated fails: a keyword that occurs twice adds 2 once, not
    twice. *)
Lemma slide_count_repeated_keyword :
  estimate_slide_count_from_keywords ascii_lower
    (cps "Python overview: a short overview") = 7%Z
  /\ estimate_per_occurrence ascii_lower
       (cps "Python overview: a short overview") = 9%Z.
Proof. split; vm_compute; reflexivity. Qed.

(** C7, as amended. The estimate always lies in [3, 18], and of two
    topics that contain as many keywords of each family (a keyword counts
    once, however often it occurs) and as many commas, the one with no
    more words has no greater estimate. *)
Theorem slide_count_monotone_in_words (str_lower : str -> str) (topic1 topic2 : str) :
  (3 <= estimate_slide_count_from_keywords str_lower topic1 <= 18)%Z
  /\ (keywords_in broad_keywords (str_lower topic1)
      = keywords_in broad_keywords (str_lower topic2) ->
      keywords_in process_keywords (str_lower topic1)
      = keywords_in process_keywords (str_lower topic2) ->
      keywords_in training_keywords (str_lower topic1)
      = keywords_in training_keywords (str_lower topic2) ->
      count_char comma (str_lower topic1) = count_char comma (str_lower topic2) ->
      (length (split topic1) <= length (split topic2))%nat ->
      (estimate_slide_count_from_keywords str_lower topic1
       <= estimate_slide_count_from_keywords str_lower topic2)%Z).
Proof.
  split.
  - rewrite estimate_closed_form. lia.
  - intros Hb Hp Ht Hc Hwords.
    rewrite !estimate_closed_form.
    unfold broad_hits, process_hits, training_hits, commas.
    rewrite Hb, Hp, Ht, Hc.
    assert (Hwd : (word_points topic1 <= word_points topic2)%Z)
      by (apply Z.div_le_mono; lia).
    lia.
Qed.

Lemma slide_count_monotone_in_words_witness :
  (estimate_slide_count_from_keywords ascii_lower (cps "Python basics")
   <= estimate_slide_count_from_keywords ascii_lower
        (cps "a b c d e f g h i j k l m n o p q r s t u v w x y z"))%Z.
Proof.
  apply (proj2 (slide_count_monotone_in_words ascii_lower (cps "Python basics")
                  (cps "a b c d e f g h i j k l m n o p q r s t u v w x y z"))).
  - reflexivity.
  - reflexivity.
  - reflexivity.
  - reflexivity.
  - vm_compute. lia.
Defined.

(** C7 as first stated fails when the keywords are counted by their
    occurrences: these two topics have two occurrences of broad-scope
    keywords each, none of the other families and no comma, the second has
    one word more, and its estimate is lower. *)
Lemma slide_count_not_monotone_by_occurrences :
  let shorter := cps "overview complete" in
  let longer := cps "overview overview x" in
  keyword_occurrences broad_keywords (ascii_lower shorter)
  = keyword_occurrences broad_keywords (ascii_lower longer)
  /\ keyword_occurrences process_keywords (ascii_lower shorter)
     = keyword_occurrences process_keywords (ascii_lower longer)
  /\ keyword_occurrences training_keywords (ascii_lower shorter)
     = keyword_occurrences training_keywords (ascii_lower longer)
  /\ count_char comma (ascii_lower shorter) = count_char comma (ascii_lower longer)
  /\ (length (split shorter) < length (split longer))%nat
  /\ estimate_slide_count_from_keywords ascii_lower shorter = 9%Z
  /\ estimate_slide_count_from_keywords ascii_lower longer = 7%Z.
Proof. repeat split; vm_compute; reflexivity. Qed.

Example estimate_long_topic :
  estimate_slide_count_from_keywords ascii_lower
    (cps "a b c d e f g h i j k l m n o p q r s t u v w x y z") = 6%Z.
Proof. vm_compute. reflexivity. Qed.

(* ===================================================================== *)
(** * More about the monad *)
(* ===================================================================== *)

Section MonadShape.

Context {A B : Type}.

Lemma outcome_bind (m : M A) (f : A -> M B) :
  outcome (bind m f)
  = match outcome m with inr x => outcome (f x) | inl e => inl e end.
Proof.
  destruct m as [log [e | x]]; [reflexivity|].
  unfold outcome; simpl. destruct (f x); reflexivity.
Qed.

Lemma trace_bind (m : M A) (f : A -> M B) :
  trace (bind m f)
  = trace m ++ match outcome m with inr x => trace (f x) | inl _ => [] end.
Proof.
  destruct m as [log [e | x]]; unfold trace, outcome; simpl.
  - rewrite app_nil_r. reflexivity.
  - destruct (f x); reflexivity.
Qed.

Lemma outcome_try (m : M A) (h : exn -> M A) :
  outcome (try_except m h)
  = match outcome m with inr x => inr x | inl e => outcome (h e) end.
Proof.
  destruct m as [log [e | x]]; [|reflexivity].
  unfold outcome; simpl. destruct (h e); reflexivity.
Qed.

Lemma trace_try (m : M A) (h : exn -> M A) :
  trace (try_except m h)
  = trace m ++ match outcome m with inr _ => [] | inl e => trace (h e) end.
Proof.
  destruct m as [log [e | x]]; unfold trace, outcome; simpl.
  - destruct (h e); reflexivity.
  - rewrite app_nil_r. reflexivity.
Qed.

End MonadShape.

(* ===================================================================== *)
(** * The slide limit *)
(* ===================================================================== *)

Lemma estimate_in_range (str_lower : str -> str) (topic : str) :
  (3 <= estimate_slide_count_from_keywords str_lower topic <= 18)%Z.
Proof. unfold estimate_slide_count_from_keywords. lia. Qed.

(** X1. When the configuration gives integers for the two bounds, the
    slide limit is an integer that is never below the configured minimum;
    it is the estimate brought into the configured bounds when these are
    in order, the minimum itself when the configured maximum lies below
    it, and the estimate unchanged when the bounds leave room for 3 to
    18. *)
Theorem slide_limit_bounds (rt : PyRuntime) (config : pyval) (topic : str) (lo hi : Z) :
  py_getitem config (cps "min_slides") = inr (PInt lo) ->
  py_getitem config (cps "max_slides") = inr (PInt hi) ->
  exists n,
    slide_limit rt config topic = inr (PInt n)
    /\ (lo <= n)%Z
    /\ ((lo <= hi)%Z -> (n <= hi)%Z)
    /\ ((hi < lo)%Z -> n = lo)
    /\ ((lo <= 3)%Z -> (18 <= hi)%Z ->
        n = estimate_slide_count_from_keywords (str_lower rt) topic).
Proof.
  intros Hlo Hhi. eexists.
  split; [apply (slide_limit_integers rt config topic lo hi Hlo Hhi)|].
  pose proof (estimate_in_range (str_lower rt) topic).
  repeat split; intros; lia.
Qed.

Lemma slide_limit_bounds_witness :
  exists n,
    slide_limit Sample.runtime default_config (cps "Python basics") = inr (PInt n)
    /\ (3 <= n)%Z
    /\ ((3 <= 20)%Z -> (n <= 20)%Z)
    /\ ((20 < 3)%Z -> n = 3%Z)
    /\ ((3 <= 3)%Z -> (18 <= 20)%Z ->
        n = estimate_slide_count_from_keywords (str_lower Sample.runtime)
              (cps "Python basics")).
Proof.
  apply (slide_limit_bounds Sample.runtime default_config (cps "Python basics") 3 20);
    reflexivity.
Defined.

(* ===================================================================== *)
(** * Loading the configuration *)
(* ===================================================================== *)

Lemma str_eqb_eq (a b : str) : str_eqb a b = true <-> a = b.
Proof.
  revert b. induction a as [|x a IH]; intros [|y b]; simpl; split;
    try discriminate; try reflexivity.
  - intros H. apply andb_prop in H as [Hxy Hab].
    apply char_eqb_eq in Hxy. apply IH in Hab. congruence.
  - intros H. injection H as -> ->. apply andb_true_intro. split.
    + apply char_eqb_eq. reflexivity.
    + apply IH. reflexivity.
Qed.

Lemma str_eqb_refl (a : str) : str_eqb a a = true.
Proof. apply str_eqb_eq. reflexivity. Qed.

Lemma str_eqb_trans_false (a b c : str) :
  str_eqb a b = true -> str_eqb a c = false -> str_eqb b c = false.
Proof.
  intros Hab Hac. apply str_eqb_eq in Hab. subst b. exact Hac.
Qed.

Lemma dict_has_store (entries : list (pyval * pyval)) (key key' : str) (value : pyval) :
  dict_has (dict_store entries key value) key'
  = str_eqb key key' || dict_has entries key'.
Proof.
  induction entries as [|[k v] rest IH]; simpl.
  - rewrite orb_false_r. reflexivity.
  - destruct k; simpl; try exact IH.
    destruct (str_eqb s key) eqn:Hs; simpl.
    + apply str_eqb_eq in Hs. subst s.
      destruct (str_eqb key key'); reflexivity.
    + rewrite IH. destruct (str_eqb s key'), (str_eqb key key'); reflexivity.
Qed.

Lemma dict_get_store (entries : list (pyval * pyval)) (key key' : str)
    (value default : pyval) :
  dict_has entries key = false ->
  dict_get (dict_store entries key value) key' default
  = if dict_has entries key' then dict_get entries key' default
    else if str_eqb key key' then value else default.
Proof.
  induction entries as [|[k v] rest IH]; simpl; intros Hnew.
  - reflexivity.
  - destruct k; simpl; auto.
    apply orb_false_elim in Hnew as [Hs Hrest]. rewrite Hs. simpl.
    destruct (str_eqb s key'); [reflexivity | auto].
Qed.

(** The merge on a dict: a dict comes out, and looking a key up in it
    finds the file's value when the file has the key and the default
    otherwise. *)
Lemma merge_missing_dict (defaults : list (str * pyval)) :
  forall entries,
  exists merged,
    merge_missing defaults (PDict entries) = inr (PDict merged)
    /\ (forall key default,
          dict_get merged key default
          = if dict_has entries key then dict_get entries key default
            else dict_get (map (fun '(k, v) => (PStr k, v)) defaults) key default)
    /\ (forall key,
          dict_has merged key
          = dict_has entries key
            || dict_has (map (fun '(k, v) => (PStr k, v)) defaults) key).
Proof.
  induction defaults as [|[k v] rest IH]; intros entries; cbn [merge_missing].
  - exists entries. split; [reflexivity|]. split; intros key; simpl.
    + intros default. destruct (dict_has entries key) eqn:H; [reflexivity|].
      apply dict_get_absent. exact H.
    + rewrite orb_false_r. reflexivity.
  - cbn [py_in py_setitem map dict_get dict_has].
    destruct (dict_has entries k) eqn:Hk.
    + destruct (IH entries) as (merged & Hrun & Hget & Hhas).
      exists merged. split; [exact Hrun|]. split; intros key.
      * intros default. rewrite Hget.
        destruct (dict_has entries key) eqn:Hkey; [reflexivity|].
        destruct (str_eqb k key) eqn:Heq; [|reflexivity].
        apply str_eqb_eq in Heq. congruence.
      * rewrite Hhas. destruct (dict_has entries key) eqn:Hkey; [reflexivity|].
        destruct (str_eqb k key) eqn:Heq; [|reflexivity].
        apply str_eqb_eq in Heq. congruence.
    + destruct (IH (dict_store entries k v)) as (merged & Hrun & Hget & Hhas).
      exists merged. split; [exact Hrun|]. split; intros key.
      * intros default. rewrite Hget, dict_has_store, (dict_get_store _ _ _ _ _ Hk).
        destruct (dict_has entries key) eqn:Hkey.
        -- rewrite orb_true_r. reflexivity.
        -- rewrite orb_false_r. destruct (str_eqb k key); reflexivity.
      * rewrite Hhas, dict_has_store.
        destruct (str_eqb k key), (dict_has entries key); reflexivity.
Qed.

Lemma load_config_calls_cached (cached : pyval) (disks : list config_disk) :
  load_config_calls (Some cached) disks = repeat cached (length disks).
Proof.
  induction disks as [|disk later IH]; [reflexivity|].
  cbn [load_config_calls load_config_call fst snd length repeat]. rewrite IH.
  reflexivity.
Qed.

(** X2. When [load_config] runs for the first time in the process and the
    configuration file holds a JSON object, it returns a dict in which
    every key of the file keeps the file's value (keys the backend does not
    know included) and every other key has the default's value, if it is a
    default key, and is absent otherwise.  That dict stays in the cache:
    every later call returns it, whatever the file holds by then. *)
Theorem load_config_merges_defaults (entries : list (pyval * pyval)) :
  exists merged,
    load_config_call None (ConfigFileHolds (inr (PDict entries)))
    = (PDict merged, Some (PDict merged))
    /\ (forall key default,
          dict_get merged key default
          = if dict_has entries key then dict_get entries key default
            else dict_get (map (fun '(k, v) => (PStr k, v)) default_config_items)
                   key default)
    /\ (forall key,
          dict_has merged key
          = dict_has entries key
            || dict_has (map (fun '(k, v) => (PStr k, v)) default_config_items) key)
    /\ (forall later,
          load_config_calls None (ConfigFileHolds (inr (PDict entries)) :: later)
          = repeat (PDict merged) (S (length later))).
Proof.
  destruct (merge_missing_dict default_config_items entries)
    as (merged & Hrun & Hget & Hhas).
  exists merged.
  assert (Hfirst : load_config_call None (ConfigFileHolds (inr (PDict entries)))
                   = (PDict merged, Some (PDict merged))).
  { unfold load_config_call, load_config_value. rewrite Hrun. reflexivity. }
  split; [exact Hfirst|]. split; [exact Hget|]. split; [exact Hhas|].
  intros later. cbn [load_config_calls]. rewrite Hfirst. cbn [fst snd repeat].
  rewrite load_config_calls_cached. reflexivity.
Qed.

Lemma py_in_store (entries : list (pyval * pyval)) (key key' : str) (value : pyval) :
  py_in key' (PDict entries) = inr true ->
  py_in key' (PDict (dict_store entries key value)) = inr true.
Proof.
  cbn [py_in]. intros H. injection H as H.
  rewrite dict_has_store, H, orb_true_r. reflexivity.
Qed.

Lemma merge_missing_keeps (defaults : list (str * pyval)) (key : str) :
  forall config merged,
    py_in key config = inr true ->
    merge_missing defaults config = inr merged ->
    py_in key merged = inr true.
Proof.
  induction defaults as [|[k v] rest IH]; intros config merged Hin; cbn [merge_missing].
  - intros H. injection H as <-. exact Hin.
  - destruct (py_in k config) as [e | [|]]; [discriminate | apply IH; exact Hin |].
    destruct config; cbn [py_setitem]; try discriminate.
    apply IH. apply py_in_store. exact Hin.
Qed.

Lemma merge_missing_covers (defaults : list (str * pyval)) :
  forall config merged key,
    merge_missing defaults config = inr merged ->
    In key (map fst defaults) ->
    py_in key merged = inr true.
Proof.
  induction defaults as [|[k v] rest IH]; intros config merged key; cbn [merge_missing map fst In].
  - intros _ [].
  - destruct (py_in k config) as [e | [|]] eqn:Hk; [discriminate | |].
    + intros Hrun [<- | Hkey].
      * apply (merge_missing_keeps rest k config merged Hk Hrun).
      * apply (IH config merged key Hrun Hkey).
    + destruct config as [| | | | |items|items|entries|]; cbn [py_setitem];
        try discriminate.
      intros Hrun [<- | Hkey].
      * apply (merge_missing_keeps rest k (PDict (dict_store entries k v)) merged);
          [|exact Hrun].
        cbn [py_in]. rewrite dict_has_store, str_eqb_refl. reflexivity.
      * apply (IH _ merged key Hrun Hkey).
Qed.

(** X3. In a process where [load_config] is called once or more, every
    call returns what the first one read, whatever is on disk at the later
    calls.  Whatever the first call finds (no file, a file that cannot be
    read or parsed, or a file with any JSON value in it), each of the eight
    default keys is [in] that value; and when it finds no file, cannot read
    the file, or finds a number, a boolean or [null] in it, that value is
    the dict of the defaults. *)
Theorem load_config_always_has_defaults (first : config_disk) (later : list config_disk) :
  load_config_calls None (first :: later)
  = repeat (load_config_value first) (S (length later))
  /\ (forall key, In key (map fst default_config_items) ->
                  py_in key (load_config_value first) = inr true)
  /\ (match first with
      | NoConfigFile _ | ConfigFileHolds (inl _)
      | ConfigFileHolds (inr PNone) | ConfigFileHolds (inr (PBool _))
      | ConfigFileHolds (inr (PInt _)) | ConfigFileHolds (inr (PFloat _)) =>
          load_config_value first = default_config
      | _ => True
      end).
Proof.
  assert (Hdefaults : forall key, In key (map fst default_config_items) ->
                        py_in key default_config = inr true).
  { intros key Hkey. cbn in Hkey.
    repeat (destruct Hkey as [<- | Hkey]; [reflexivity|]). destruct Hkey. }
  split; [|split].
  - cbn [load_config_calls load_config_call fst snd repeat].
    rewrite load_config_calls_cached. reflexivity.
  - intros key Hkey. unfold load_config_value.
    destruct first as [written | [e | config]]; try (apply Hdefaults; exact Hkey).
    destruct (merge_missing default_config_items config) as [e | merged] eqn:Hrun.
    + apply Hdefaults. exact Hkey.
    + apply (merge_missing_covers default_config_items config merged key Hrun Hkey).
  - destruct first as [written | [e | config]]; try reflexivity.
    destruct config; try exact I; reflexivity.
Qed.

Lemma load_config_always_has_defaults_witness :
  py_in (cps "model")
    (load_config_value
       (ConfigFileHolds
          (inr (PList (map (fun '(key, _) => PStr key) default_config_items)))))
  = inr true.
Proof.
  apply (proj1 (proj2 (load_config_always_has_defaults
                  (ConfigFileHolds
                     (inr (PList (map (fun '(key, _) => PStr key)
                                      default_config_items)))) []))).
  cbn. do 6 right. left. reflexivity.
Defined.

(* ===================================================================== *)
(** * More about the Ollama client *)
(* ===================================================================== *)

Lemma bind_escapes {A B : Type} (m : M A) (f : A -> M B) :
  escapes_cleanly m -> (forall x, escapes_cleanly (f x)) -> escapes_cleanly (bind m f).
Proof.
  unfold escapes_cleanly. intros Hm Hf. rewrite outcome_bind.
  destruct (outcome m) as [e | x]; [exact Hm | apply Hf].
Qed.

(** Every handler of [ask_ollama] raises: one of the two exceptions of
    the backend, or what printing the timeout for the message raised. *)
Lemma ask_ollama_handler_outcome
    (rt : PyRuntime) (timeout : pyval) (stop_event : option Event) (process : bool)
    (e : exn) :
  exists e',
    outcome (ask_ollama_handler rt timeout stop_event process e) = inl e'
    /\ (exn_cls e' = GenerationStopped \/ exn_cls e' = PPTGenerationError
        \/ py_str rt timeout = inl e').
Proof.
  unfold ask_ollama_handler.
  destruct (exn_cls e) eqn:Hcls.
  - exists e. split; [reflexivity|]. left. exact Hcls.
  - destruct (stop_requested stop_event InExceptHandler); eexists;
      (split; [reflexivity|]); [left | right; left]; reflexivity.
  - rewrite outcome_bind.
    assert (Hkill : outcome (if process then call EvKill (inr tt) else ret tt) = inr tt)
      by (destruct process; reflexivity).
    rewrite Hkill, outcome_bind. unfold lift, outcome at 2. cbn [snd].
    destruct (py_str rt timeout) as [e' | shown].
    + exists e'. split; [reflexivity|]. right. right. reflexivity.
    + eexists. split; [reflexivity|]. right. left. reflexivity.
  - eexists. split; [reflexivity|]. right. left. reflexivity.
  - destruct (stop_requested stop_event InExceptHandler); eexists;
      (split; [reflexivity|]); [left | right; left]; reflexivity.
Qed.

Lemma ask_ollama_handler_raises
    (rt : PyRuntime) (timeout : pyval) (stop_event : option Event) (process : bool)
    (e : exn) :
  exists e', outcome (ask_ollama_handler rt timeout stop_event process e) = inl e'.
Proof.
  destruct (ask_ollama_handler_outcome rt timeout stop_event process e) as (e' & H & _).
  exists e'. exact H.
Qed.

Lemma outcome_call {A : Type} (ev : event) (o : exn + A) : outcome (call ev o) = o.
Proof. reflexivity. Qed.

Lemma ask_ollama_escapes
    (rt : PyRuntime) (w : World) (timeout : pyval) (prompt : str) (model : pyval)
    (stop_event : option Event) :
  match outcome (ask_ollama rt w timeout prompt model stop_event) with
  | inr reply => True
  | inl e => exn_cls e = GenerationStopped \/ exn_cls e = PPTGenerationError
             \/ py_str rt timeout = inl e
  end.
Proof.
  unfold ask_ollama.
  destruct (stop_requested stop_event AskOllamaEntry); [left; reflexivity|].
  rewrite outcome_bind, outcome_try, outcome_call.
  destruct (popen w model) as [e | []].
  { rewrite outcome_bind.
    destruct (ask_ollama_handler_outcome rt timeout stop_event false e)
      as (e' & -> & He'). exact He'. }
  rewrite outcome_try, outcome_bind, outcome_call.
  destruct (communicate w prompt timeout) as [e | [[stdout stderr] returncode]].
  { destruct (ask_ollama_handler_outcome rt timeout stop_event true e)
      as (e' & -> & He'). exact He'. }
  destruct (stop_requested stop_event AfterCommunicate).
  { cbn [outcome raise snd].
    destruct (ask_ollama_handler_outcome rt timeout stop_event true stopped_by_user)
      as (e' & -> & He'). exact He'. }
  destruct (negb (returncode =? 0)%Z); [|exact I].
  destruct (stop_requested stop_event NonzeroExit); cbn [outcome raise snd].
  - destruct (ask_ollama_handler_outcome rt timeout stop_event true stopped_by_user)
      as (e' & -> & He'). exact He'.
  - match goal with
    | |- context [ask_ollama_handler rt timeout stop_event true ?e] =>
        destruct (ask_ollama_handler_outcome rt timeout stop_event true e)
          as (e' & -> & He')
    end. exact He'.
Qed.

(** X5. Whatever the world does, [ask_ollama] returns the reply or raises
    [GenerationStopped] or [PPTGenerationError]: every other exception of
    [Popen] and [communicate] is turned into one of the two.  The one
    exception that can leave it besides is what printing the timeout for
    the message of a timeout raises; when the timeout can be printed,
    nothing else leaves. *)
Theorem ask_ollama_raises_two
    (rt : PyRuntime) (w : World) (timeout : pyval) (prompt : str) (model : pyval)
    (stop_event : option Event) :
  match outcome (ask_ollama rt w timeout prompt model stop_event) with
  | inr reply => True
  | inl e => exn_cls e = GenerationStopped \/ exn_cls e = PPTGenerationError
             \/ py_str rt timeout = inl e
  end
  /\ ((exists shown, py_str rt timeout = inr shown) ->
      match outcome (ask_ollama rt w timeout prompt model stop_event) with
      | inr reply => True
      | inl e => exn_cls e = GenerationStopped \/ exn_cls e = PPTGenerationError
      end).
Proof.
  pose proof (ask_ollama_escapes rt w timeout prompt model stop_event) as H.
  split; [exact H|].
  intros [shown Hshown].
  destruct (outcome (ask_ollama rt w timeout prompt model stop_event)) as [e | reply];
    [|exact I].
  destruct H as [H | [H | H]]; [left; exact H | right; exact H | congruence].
Qed.

Lemma ask_ollama_raises_two_witness :
  match outcome (ask_ollama Sample.runtime
                   (Sample.world (inl (Exn TimeoutExpired (cps "timed out")))
                      (inr Sample.deck_path))
                   (PInt 120) (cps "prompt") (PStr (cps "qwen3")) None) with
  | inr reply => True
  | inl e => exn_cls e = GenerationStopped \/ exn_cls e = PPTGenerationError
  end.
Proof.
  apply (proj2 (ask_ollama_raises_two Sample.runtime
                  (Sample.world (inl (Exn TimeoutExpired (cps "timed out")))
                     (inr Sample.deck_path))
                  (PInt 120) (cps "prompt") (PStr (cps "qwen3")) None)).
  exists (cps "120"). vm_compute. reflexivity.
Defined.

(** X6. [ask_ollama] returns a reply exactly when the stop flag is clear
    on entry, the process starts, [communicate] returns with return code 0
    and the flag is still clear after it; the reply is then the stripped
    standard output, so it has no whitespace at either end. *)
Theorem ask_ollama_returns_iff
    (rt : PyRuntime) (w : World) (timeout : pyval) (prompt : str) (model : pyval)
    (stop_event : option Event) (reply : str) :
  (outcome (ask_ollama rt w timeout prompt model stop_event) = inr reply
   <-> stop_requested stop_event AskOllamaEntry = false
       /\ popen w model = inr tt
       /\ exists stdout stderr,
            communicate w prompt timeout = inr (stdout, stderr, 0%Z)
            /\ stop_requested stop_event AfterCommunicate = false
            /\ reply = strip stdout)
  /\ (outcome (ask_ollama rt w timeout prompt model stop_event) = inr reply ->
      strip reply = reply).
Proof.
  assert (Hiff :
    outcome (ask_ollama rt w timeout prompt model stop_event) = inr reply
    <-> stop_requested stop_event AskOllamaEntry = false
        /\ popen w model = inr tt
        /\ exists stdout stderr,
             communicate w prompt timeout = inr (stdout, stderr, 0%Z)
             /\ stop_requested stop_event AfterCommunicate = false
             /\ reply = strip stdout).
  { split.
    - intros H. unfold ask_ollama in H.
      destruct (stop_requested stop_event AskOllamaEntry); [discriminate|].
      rewrite outcome_bind, outcome_try, outcome_call in H.
      destruct (popen w model) as [e | []].
      { rewrite outcome_bind in H.
        destruct (ask_ollama_handler_raises rt timeout stop_event false e) as [e' He'].
        rewrite He' in H. discriminate. }
      rewrite outcome_try, outcome_bind, outcome_call in H.
      destruct (communicate w prompt timeout) as [e | [[stdout stderr] returncode]].
      { destruct (ask_ollama_handler_raises rt timeout stop_event true e) as [e' He'].
        rewrite He' in H. discriminate. }
      destruct (stop_requested stop_event AfterCommunicate) eqn:Hafter.
      { cbn in H. unfold ask_ollama_handler in H. cbn in H. discriminate. }
      destruct (returncode =? 0)%Z eqn:Hcode; cbn [negb] in H.
      + apply Z.eqb_eq in Hcode. subst returncode. cbn in H. injection H as <-.
        repeat split. exists stdout, stderr. repeat split.
      + destruct (stop_requested stop_event NonzeroExit); cbn in H.
        * unfold ask_ollama_handler in H. cbn in H. discriminate.
        * unfold ask_ollama_handler in H. cbn in H.
          destruct (stop_requested stop_event InExceptHandler); discriminate.
    - intros (Hentry & Hpopen & stdout & stderr & Hcomm & Hafter & ->).
      cbv [ask_ollama ask_ollama_handler bind try_except call outcome raise ret snd].
      rewrite Hentry, Hpopen, Hcomm, Hafter. reflexivity. }
  split; [exact Hiff|].
  intros H. apply Hiff in H as (_ & _ & stdout & _ & _ & _ & ->).
  apply strip_idempotent.
Qed.

Lemma ask_ollama_returns_iff_witness :
  outcome (ask_ollama Sample.runtime (Sample.answers (cps "  hello ")) (PInt 120)
             (cps "prompt") (PStr (cps "qwen3")) None)
  = inr (cps "hello").
Proof.
  apply (proj1 (ask_ollama_returns_iff Sample.runtime (Sample.answers (cps "  hello "))
                  (PInt 120) (cps "prompt") (PStr (cps "qwen3")) None (cps "hello"))).
  split; [reflexivity|]. split; [reflexivity|].
  exists (cps "  hello "), []. repeat split.
Defined.

(** X7. A timeout and a missing executable are failures whatever the stop
    flag says afterwards (only the check on entry comes before them): after
    [TimeoutExpired] the process is killed and [PPTGenerationError] names
    the timeout as [str()] prints it (if printing it raises, that exception
    leaves instead, the process killed all the same); after
    [FileNotFoundError] from [Popen] nothing else is called and
    [PPTGenerationError] asks to install Ollama. *)
Theorem timeout_and_missing_executable_fail
    (rt : PyRuntime) (w : World) (timeout : pyval) (prompt : str) (model : pyval)
    (stop_event : option Event) (e : exn) :
  stop_requested stop_event AskOllamaEntry = false ->
  (popen w model = inr tt ->
   communicate w prompt timeout = inl e ->
   exn_cls e = TimeoutExpired ->
   ask_ollama rt w timeout prompt model stop_event
   = ([EvPopen model; EvCommunicate prompt timeout; EvKill],
      match py_str rt timeout with
      | inr shown =>
          inl (Exn PPTGenerationError
                 (cps "Ollama request timed out after " ++ shown ++ cps " seconds"))
      | inl raised => inl raised
      end))
  /\ (popen w model = inl e ->
      exn_cls e = FileNotFoundError ->
      ask_ollama rt w timeout prompt model stop_event
      = ([EvPopen model],
         inl (Exn PPTGenerationError
                (cps "Ollama executable not found. Please install Ollama.")))).
Proof.
  intros Hentry. split.
  - intros Hpopen Hcomm Hcls.
    cbv [ask_ollama ask_ollama_handler bind try_except call raise ret lift].
    rewrite Hentry, Hpopen, Hcomm, Hcls.
    destruct (py_str rt timeout); reflexivity.
  - intros Hpopen Hcls.
    cbv [ask_ollama ask_ollama_handler bind try_except call raise ret].
    rewrite Hentry, Hpopen, Hcls. reflexivity.
Qed.

Lemma timeout_and_missing_executable_fail_witness :
  ask_ollama Sample.runtime
    (Sample.world (inl (Exn TimeoutExpired (cps "timed out"))) (inr Sample.deck_path))
    (PInt 120) (cps "prompt") (PStr (cps "qwen3"))
    (Some (Sample.set_from AfterCommunicate))
  = ([EvPopen (PStr (cps "qwen3")); EvCommunicate (cps "prompt") (PInt 120); EvKill],
     inl (Exn PPTGenerationError (cps "Ollama request timed out after 120 seconds"))).
Proof.
  apply (proj1 (timeout_and_missing_executable_fail Sample.runtime
                  (Sample.world (inl (Exn TimeoutExpired (cps "timed out")))
                     (inr Sample.deck_path))
                  (PInt 120) (cps "prompt") (PStr (cps "qwen3"))
                  (Some (Sample.set_from AfterCommunicate))
                  (Exn TimeoutExpired (cps "timed out")) eq_refl));
    reflexivity.
Defined.

(* ===================================================================== *)
(** * More about the extractor *)
(* ===================================================================== *)

Lemma bracket_depth_nil : bracket_depth [] = 0%Z.
Proof. reflexivity. Qed.

Lemma lbracket_not_rbracket (ch : char) :
  char_eqb ch lbracket = true -> char_eqb ch rbracket = false.
Proof. intros H. apply char_eqb_eq in H. subst ch. reflexivity. Qed.

Lemma bracket_depth_open (s : str) :
  bracket_depth (lbracket :: s) = (1 + bracket_depth s)%Z.
Proof.
  rewrite bracket_depth_cons.
  change (char_eqb lbracket lbracket) with true.
  change (char_eqb lbracket rbracket) with false. cbv iota. lia.
Qed.

Lemma bracket_depth_close (s : str) :
  bracket_depth (rbracket :: s) = (bracket_depth s - 1)%Z.
Proof.
  rewrite bracket_depth_cons.
  change (char_eqb rbracket lbracket) with false.
  change (char_eqb rbracket rbracket) with true. cbv iota. lia.
Qed.

(** The loop of strategy 2, started inside an array: it stops at the first
    closing bracket that brings the depth to zero. *)
Lemma scan_array_closes (s : str) :
  forall (depth : Z) (seen r : str),
    (1 <= depth)%Z ->
    scan_array depth seen s = Some r ->
    exists n body,
      (n < length s)%nat
      /\ r = rev seen ++ firstn (S n) s
      /\ firstn (S n) s = body ++ [rbracket]
      /\ (depth + bracket_depth (firstn (S n) s) = 0)%Z
      /\ forall m, (m <= n)%nat -> (0 < depth + bracket_depth (firstn m s))%Z.
Proof.
  induction s as [|ch s IH]; intros depth seen r Hdepth; cbn [scan_array];
    [discriminate|].
  assert (Hstep : forall depth',
             (1 <= depth')%Z ->
             (depth' = depth + ((if char_eqb ch lbracket then 1 else 0)
                                - (if char_eqb ch rbracket then 1 else 0)))%Z ->
             scan_array depth' (ch :: seen) s = Some r ->
             exists n body,
               (n < length (ch :: s))%nat
               /\ r = rev seen ++ firstn (S n) (ch :: s)
               /\ firstn (S n) (ch :: s) = body ++ [rbracket]
               /\ (depth + bracket_depth (firstn (S n) (ch :: s)) = 0)%Z
               /\ forall m, (m <= n)%nat ->
                            (0 < depth + bracket_depth (firstn m (ch :: s)))%Z).
  { intros depth' Hpos Heq Hscan.
    destruct (IH depth' (ch :: seen) r Hpos Hscan) as (n & body & Hn & Hr & Hbody & Hzero & Hopen).
    exists (S n), (ch :: body). repeat split.
    - simpl. lia.
    - rewrite Hr. cbn [rev firstn]. rewrite <- app_assoc. reflexivity.
    - cbn [firstn] in *. rewrite Hbody. reflexivity.
    - cbn [firstn] in *. rewrite bracket_depth_cons. lia.
    - intros [|m] Hm; cbn [firstn].
      + rewrite bracket_depth_nil. lia.
      + rewrite bracket_depth_cons. specialize (Hopen m ltac:(lia)). lia. }
  destruct (char_eqb ch lbracket) eqn:Hl.
  - rewrite (lbracket_not_rbracket _ Hl) in Hstep.
    apply Hstep; lia.
  - destruct (char_eqb ch rbracket) eqn:Hr.
    + destruct (depth - 1 =? 0)%Z eqn:Hzero.
      * apply Z.eqb_eq in Hzero. intros H. injection H as <-.
        apply char_eqb_eq in Hr. subst ch.
        exists 0%nat, []. repeat split.
        -- simpl. lia.
        -- cbn [firstn]. rewrite bracket_depth_close, bracket_depth_nil. lia.
        -- intros m Hm. assert (m = 0)%nat as -> by lia.
           cbn [firstn]. rewrite bracket_depth_nil. lia.
      * apply Z.eqb_neq in Hzero. apply Hstep; lia.
    + apply Hstep; lia.
Qed.

Lemma scan_array_stays_open (s : str) :
  forall (depth : Z) (seen : str),
    (1 <= depth)%Z ->
    scan_array depth seen s = None ->
    forall n, (n <= length s)%nat -> (0 < depth + bracket_depth (firstn n s))%Z.
Proof.
  induction s as [|ch s IH]; intros depth seen Hdepth; cbn [scan_array].
  - intros _ n Hn. assert (n = 0)%nat as -> by (simpl in Hn; lia).
    cbn [firstn]. rewrite bracket_depth_nil. lia.
  - assert (Hstep : forall depth',
               (1 <= depth')%Z ->
               (depth' = depth + ((if char_eqb ch lbracket then 1 else 0)
                                  - (if char_eqb ch rbracket then 1 else 0)))%Z ->
               scan_array depth' (ch :: seen) s = None ->
               forall n, (n <= length (ch :: s))%nat ->
                         (0 < depth + bracket_depth (firstn n (ch :: s)))%Z).
    { intros depth' Hpos Heq Hscan [|n] Hn; cbn [firstn].
      - rewrite bracket_depth_nil. lia.
      - rewrite bracket_depth_cons.
        specialize (IH depth' (ch :: seen) Hpos Hscan n ltac:(simpl in Hn; lia)). lia. }
    destruct (char_eqb ch lbracket) eqn:Hl.
    + rewrite (lbracket_not_rbracket _ Hl) in Hstep. apply Hstep; lia.
    + destruct (char_eqb ch rbracket) eqn:Hr.
      * destruct (depth - 1 =? 0)%Z eqn:Hzero; [discriminate|].
        apply Z.eqb_neq in Hzero. apply Hstep; lia.
      * apply Hstep; lia.
Qed.

Lemma find_char_skipn (c : char) (s : str) (i : nat) :
  find_char c s = Some i -> exists tail, skipn i s = c :: tail.
Proof.
  revert i. induction s as [|x s IH]; intros i; cbn [find_char]; [discriminate|].
  destruct (char_eqb c x) eqn:Hcx.
  - intros H. injection H as <-. apply char_eqb_eq in Hcx. subst x.
    exists s. reflexivity.
  - destruct (find_char c s) as [j|]; [|discriminate].
    intros H. injection H as <-. apply (IH j eq_refl).
Qed.

Lemma strip_bracketed (body : str) :
  strip (lbracket :: body ++ [rbracket]) = lbracket :: body ++ [rbracket].
Proof.
  unfold strip, rstrip.
  change (lstrip (lbracket :: body ++ [rbracket]))
    with ((lbracket :: body) ++ [rbracket]).
  rewrite rev_app_distr. change (rev [rbracket]) with [rbracket]. cbn [app].
  change (lstrip (rbracket :: rev (lbracket :: body)))
    with (rbracket :: rev (lbracket :: body)).
  cbn [rev]. rewrite rev_app_distr, rev_involutive. reflexivity.
Qed.

(** X8. When strategy 2 finds an array, it is the text from the first
    opening bracket up to the first closing bracket that leaves no bracket
    open: it starts with [[], ends with []], its brackets add up to zero,
    and every shorter piece from the same start still has a bracket open.
    Whatever follows it in the text plays no part. *)
Theorem first_array_shortest_closed (text r : str) :
  first_array text = Some r ->
  exists start n body,
    find_char lbracket text = Some start
    /\ r = firstn n (skipn start text)
    /\ r = lbracket :: body ++ [rbracket]
    /\ bracket_depth r = 0%Z
    /\ forall m, (0 < m < n)%nat ->
                 (0 < bracket_depth (firstn m (skipn start text)))%Z.
Proof.
  unfold first_array.
  destruct (find_char lbracket text) as [start|] eqn:Hfind; [|discriminate].
  destruct (find_char_skipn _ _ _ Hfind) as [tail Htail]. rewrite Htail.
  change (scan_array 0 [] (lbracket :: tail)) with (scan_array 1 [lbracket] tail).
  destruct (scan_array 1 [lbracket] tail) as [found|] eqn:Hscan; [|discriminate].
  destruct (scan_array_closes tail 1 [lbracket] found ltac:(lia) Hscan)
    as (n & body & Hn & Hfound & Hbody & Hzero & Hopen).
  cbn [option_map]. intros H. injection H as <-.
  assert (Hshape : found = lbracket :: body ++ [rbracket])
    by (rewrite Hfound, Hbody; reflexivity).
  exists start, (S (S n)), body. split; [reflexivity|].
  rewrite Htail, Hshape, strip_bracketed. repeat split.
  - cbn [firstn]. rewrite <- Hbody. reflexivity.
  - rewrite <- Hbody. rewrite bracket_depth_open. lia.
  - intros [|m] Hm; [lia|]. cbn [firstn]. rewrite bracket_depth_open.
    specialize (Hopen m ltac:(lia)). lia.
Qed.

Lemma first_array_shortest_closed_witness :
  exists start n body,
    find_char lbracket stray_bracket_reply = Some start
    /\ cps "[{" ++ quoted "title" ++ cps ":" ++ quoted "A" ++ cps "}]"
       = firstn n (skipn start stray_bracket_reply)
    /\ cps "[{" ++ quoted "title" ++ cps ":" ++ quoted "A" ++ cps "}]"
       = lbracket :: body ++ [rbracket]
    /\ bracket_depth (cps "[{" ++ quoted "title" ++ cps ":" ++ quoted "A" ++ cps "}]")
       = 0%Z
    /\ forall m, (0 < m < n)%nat ->
                 (0 < bracket_depth (firstn m (skipn start stray_bracket_reply)))%Z.
Proof.
  apply (first_array_shortest_closed stray_bracket_reply
           (cps "[{" ++ quoted "title" ++ cps ":" ++ quoted "A" ++ cps "}]")).
  reflexivity.
Defined.

(** X9. Strategy 2 finds no array exactly when the text has no opening
    bracket or its first opening bracket is never closed. *)
Theorem first_array_none_iff (text : str) :
  first_array text = None
  <-> find_char lbracket text = None
      \/ exists start, find_char lbracket text = Some start
                       /\ never_closed (skipn start text).
Proof.
  split; [|apply first_array_none].
  unfold first_array.
  destruct (find_char lbracket text) as [start|] eqn:Hfind; [|left; reflexivity].
  intros Hnone. right. exists start. split; [reflexivity|].
  destruct (find_char_skipn _ _ _ Hfind) as [tail Htail]. rewrite Htail in *.
  change (scan_array 0 [] (lbracket :: tail)) with (scan_array 1 [lbracket] tail)
    in Hnone.
  destruct (scan_array 1 [lbracket] tail) as [found|] eqn:Hscan; [discriminate|].
  intros [|n] Hn; [lia|]. cbn [firstn]. rewrite bracket_depth_open.
  pose proof (scan_array_stays_open tail 1 [lbracket] ltac:(lia) Hscan n
                ltac:(simpl in Hn; lia)).
  lia.
Qed.

Lemma first_array_none_iff_witness : first_array prose_reply = None.
Proof.
  apply (proj2 (first_array_none_iff prose_reply)).
  left. reflexivity.
Defined.

Lemma extract_by_candidate (rt : PyRuntime) (text : str) :
  extract_and_parse_json rt text
  = match json_candidate text with
    | None => ret None
    | Some json_str => parse_attempts [json_loads rt; literal_eval rt] json_str
    end.
Proof.
  unfold extract_and_parse_json, json_candidate.
  destruct text as [|c text]; [reflexivity|].
  destruct (json_match_group1 (c :: text)); [reflexivity|].
  destruct (first_array (c :: text)); reflexivity.
Qed.

Lemma two_attempts (first second : str -> exn + pyval) (json_str : str) :
  parse_attempts [first; second] json_str
  = ([], inr match first json_str with
             | inr (PList items) => Some items
             | _ => match second json_str with
                    | inr (PList items) => Some items
                    | _ => None
                    end
             end).
Proof.
  cbn [parse_attempts]. unfold lift, bind, try_except, ret.
  destruct (first json_str) as [e | []]; cbn;
    destruct (second json_str) as [e' | []]; reflexivity.
Qed.

(** X10. The two parsers are tried in order on the cleaned candidate: a
    list from [json.loads] is the result, whatever [ast.literal_eval] would
    say; a list is returned only if one of the two parsers returned that
    very list; and when [json.loads] raises or returns something else than
    a list, a list from [ast.literal_eval] is the result. *)
Theorem parsers_tried_in_order (rt : PyRuntime) (text json_str : str)
    (items : list pyval) :
  json_candidate text = Some json_str ->
  (json_loads rt json_str = inr (PList items) ->
   outcome (extract_and_parse_json rt text) = inr (Some items))
  /\ (is_list match json_loads rt json_str with inr v => v | inl _ => PNone end
      = false ->
      literal_eval rt json_str = inr (PList items) ->
      outcome (extract_and_parse_json rt text) = inr (Some items))
  /\ (outcome (extract_and_parse_json rt text) = inr (Some items) ->
      json_loads rt json_str = inr (PList items)
      \/ literal_eval rt json_str = inr (PList items)).
Proof.
  intros Hcandidate. rewrite extract_by_candidate, Hcandidate, two_attempts.
  cbn [outcome snd]. repeat split.
  - intros ->. reflexivity.
  - intros Hnot ->. destruct (json_loads rt json_str) as [e | []];
      try reflexivity; discriminate.
  - intros H. injection H as H.
    destruct (json_loads rt json_str) as [e | []];
      try (injection H as <-; left; reflexivity);
      destruct (literal_eval rt json_str) as [e' | []];
      try discriminate; injection H as <-; right; reflexivity.
Qed.

Lemma parsers_tried_in_order_witness :
  outcome (extract_and_parse_json Sample.runtime (cps "[{'title': 'A',}]"))
  = inr (Some [PDict [(PStr (cps "title"), PStr (cps "A"))]]).
Proof.
  apply (proj1 (proj2 (parsers_tried_in_order Sample.runtime
                         (cps "[{'title': 'A',}]") (cps "[{'title': 'A'}]")
                         [PDict [(PStr (cps "title"), PStr (cps "A"))]] eq_refl)));
    reflexivity.
Defined.

(** ** Cleaning *)

Lemma startswith_head (a : char) (old s : str) (c : char) :
  char_eqb a c = false -> startswith (a :: old) (c :: s) = false.
Proof. intros H. cbn [startswith]. rewrite H. reflexivity. Qed.

Lemma replace_fuel_absent (a : char) (old new : str) :
  forall fuel s,
    forallb (fun c => negb (char_eqb a c)) s = true ->
    replace_fuel fuel (a :: old) new s = s.
Proof.
  induction fuel as [|fuel IH]; intros s Hs; cbn [replace_fuel]; [reflexivity|].
  destruct s as [|c s]; [reflexivity|].
  cbn [forallb] in Hs. apply andb_prop in Hs as [Hc Hs].
  apply negb_true_iff in Hc. rewrite (startswith_head a old s c Hc).
  rewrite (IH s Hs). reflexivity.
Qed.

Lemma replace_one_char (a b : char) (s : str) :
  replace [a] [b] s = map (fun c => if char_eqb a c then b else c) s.
Proof.
  unfold replace.
  assert (H : forall fuel t, (length t <= fuel)%nat ->
                replace_fuel fuel [a] [b] t
                = map (fun c => if char_eqb a c then b else c) t).
  { induction fuel as [|fuel IH]; intros [|c t] Hlen; cbn [replace_fuel map];
      try reflexivity; [simpl in Hlen; lia|].
    cbn [startswith length skipn]. rewrite andb_true_r.
    simpl in Hlen. destruct (char_eqb a c); cbn [app]; rewrite IH by lia; reflexivity. }
  apply H. lia.
Qed.

Lemma drop_trailing_commas_without_commas (s : str) :
  forallb (fun c => negb (char_eqb c comma)) s = true ->
  drop_trailing_commas None s = s.
Proof.
  induction s as [|c s IH]; cbn [drop_trailing_commas forallb]; [reflexivity|].
  intros H. apply andb_prop in H as [Hc Hs]. apply negb_true_iff in Hc.
  rewrite Hc, (IH Hs). reflexivity.
Qed.

(** X11. Cleaning acts only on commas and on the two dashes: a candidate
    without a comma, an en dash or an em dash comes out as it went in.  In
    particular the typographic quotes that a model may print are left as
    they are. *)
Theorem clean_json_leaves_the_rest (json_str : str) :
  forallb (fun c => negb (char_eqb c comma || char_eqb c en_dash || char_eqb c em_dash))
          json_str = true ->
  clean_json json_str = json_str.
Proof.
  intros H. rewrite forallb_forall in H.
  assert (Hno : forall a, a = comma \/ a = en_dash \/ a = em_dash ->
                  forallb (fun c => negb (char_eqb a c)) json_str = true).
  { intros a Ha. apply forallb_forall. intros c Hc.
    specialize (H c Hc). apply negb_true_iff in H.
    apply orb_false_elim in H as [H Hem]. apply orb_false_elim in H as [Hcomma Hen].
    rewrite char_eqb_sym.
    destruct Ha as [-> | [-> | ->]]; apply negb_true_iff; assumption. }
  assert (Hsame : forall a b : char,
             forallb (fun c => negb (char_eqb a c)) json_str = true ->
             map (fun c => if char_eqb a c then b else c) json_str = json_str).
  { intros a b Ha. rewrite forallb_forall in Ha.
    rewrite <- (map_id json_str) at 2. apply map_ext_in. intros c Hc.
    specialize (Ha c Hc). apply negb_true_iff in Ha. rewrite Ha. reflexivity. }
  unfold clean_json.
  assert (Hneedle : replace quote_needle [dquote] json_str = json_str).
  { unfold replace, quote_needle. cbn [cps app map list_ascii_of_string].
    apply (replace_fuel_absent comma). apply Hno. left. reflexivity. }
  rewrite Hneedle.
  assert (Hquote : replace [squote] [squote] json_str = json_str).
  { rewrite replace_one_char. rewrite <- (map_id json_str) at 2.
    apply map_ext. intros c. destruct (char_eqb squote c) eqn:Hc; [|reflexivity].
    apply char_eqb_eq in Hc. congruence. }
  rewrite !Hquote.
  rewrite (replace_one_char en_dash hyphen json_str), (Hsame en_dash hyphen)
    by (apply Hno; auto).
  rewrite (replace_one_char em_dash hyphen json_str), (Hsame em_dash hyphen)
    by (apply Hno; auto).
  apply drop_trailing_commas_without_commas.
  apply forallb_forall. intros c Hc. specialize (H c Hc).
  apply negb_true_iff in H. apply orb_false_elim in H as [H _].
  apply orb_false_elim in H as [H _]. rewrite H. reflexivity.
Qed.

Lemma clean_json_leaves_the_rest_witness :
  clean_json ([8220%N] ++ cps "title" ++ [8221%N]) = [8220%N] ++ cps "title" ++ [8221%N].
Proof.
  apply (clean_json_leaves_the_rest ([8220%N] ++ cps "title" ++ [8221%N])).
  reflexivity.
Defined.

Lemma drop_trailing_commas_chars (s : str) :
  forall pending c,
    In c (drop_trailing_commas pending s) ->
    In c s \/ exists p, pending = Some p /\ In c p.
Proof.
  induction s as [|x s IH]; intros pending c; cbn [drop_trailing_commas].
  - destruct pending as [p|]; [|intros []].
    intros H. right. exists p. split; [reflexivity|]. apply in_rev. exact H.
  - assert (Hnone : In c (drop_trailing_commas None s) -> In c (x :: s) \/
                      exists p, pending = Some p /\ In c p).
    { intros H. destruct (IH None c H) as [Hs | (p & Hp & _)];
        [left; right; exact Hs | discriminate]. }
    assert (Hone : In c (drop_trailing_commas (Some [x]) s) -> In c (x :: s) \/
                     exists p, pending = Some p /\ In c p).
    { intros H. destruct (IH (Some [x]) c H) as [Hs | (p & Hp & Hin)].
      - left. right. exact Hs.
      - injection Hp as <-. destruct Hin as [<- | []]. left. left. reflexivity. }
    destruct pending as [p|].
    + destruct (is_space x).
      * intros H. destruct (IH (Some (x :: p)) c H) as [Hs | (q & Hq & Hin)].
        -- left. right. exact Hs.
        -- injection Hq as <-. destruct Hin as [<- | Hin].
           ++ left. left. reflexivity.
           ++ right. exists p. auto.
      * destruct (char_eqb x rbracket || char_eqb x rbrace).
        -- intros [<- | H]; [left; left; reflexivity | apply Hnone; exact H].
        -- destruct (char_eqb x comma).
           ++ intros H. apply in_app_or in H as [H | H].
              ** right. exists p. split; [reflexivity|]. apply in_rev. exact H.
              ** apply Hone. exact H.
           ++ intros H. apply in_app_or in H as [H | [<- | H]].
              ** right. exists p. split; [reflexivity|]. apply in_rev. exact H.
              ** left. left. reflexivity.
              ** apply Hnone. exact H.
    + destruct (char_eqb x comma).
      * apply Hone.
      * intros [<- | H]; [left; left; reflexivity | apply Hnone; exact H].
Qed.

(** X12. No en dash and no em dash is left in a cleaned candidate. *)
Theorem clean_json_has_no_dashes (json_str : str) :
  ~ In en_dash (clean_json json_str) /\ ~ In em_dash (clean_json json_str).
Proof.
  assert (H : forall c, In c (clean_json json_str) -> c <> en_dash /\ c <> em_dash).
  { intros c Hc. unfold clean_json in Hc.
    apply drop_trailing_commas_chars in Hc as [Hc | (p & Hp & _)]; [|discriminate].
    rewrite (replace_one_char em_dash hyphen) in Hc.
    apply in_map_iff in Hc as (x & Hx & Hin).
    rewrite (replace_one_char en_dash hyphen) in Hin.
    apply in_map_iff in Hin as (y & Hy & _).
    assert (Hxen : x <> en_dash).
    { subst x. destruct (char_eqb en_dash y) eqn:E; [discriminate|].
      intros ->. rewrite (proj2 (char_eqb_eq _ _) eq_refl) in E. discriminate. }
    subst c. destruct (char_eqb em_dash x) eqn:E; [split; discriminate|].
    split; [exact Hxen|].
    intros ->. rewrite (proj2 (char_eqb_eq _ _) eq_refl) in E. discriminate. }
  split; intros Hin; apply H in Hin as [? ?]; congruence.
Qed.

Lemma filter_rev_pending (p : str) :
  forallb comma_or_space p = true ->
  filter (fun c => negb (comma_or_space c)) (rev p) = [].
Proof.
  intros Hp. rewrite forallb_forall in Hp.
  induction (rev p) as [|c l IH] eqn:Hrev in Hp |- *; [reflexivity|].
  assert (Hc : forall x, In x (c :: l) -> comma_or_space x = true).
  { intros x Hx. apply Hp. apply in_rev. rewrite Hrev. exact Hx. }
  clear Hrev Hp. revert Hc. generalize (c :: l). clear.
  intros l. induction l as [|x l IH]; intros Hl; cbn [filter]; [reflexivity|].
  rewrite (Hl x (or_introl eq_refl)). cbn [negb]. apply IH.
  intros y Hy. apply Hl. right. exact Hy.
Qed.

Lemma drop_trailing_commas_keeps (s : str) :
  forall pending : option str,
    match pending with Some p => forallb comma_or_space p = true | None => True end ->
    filter (fun c => negb (comma_or_space c)) (drop_trailing_commas pending s)
    = filter (fun c => negb (comma_or_space c)) s
    /\ (length (drop_trailing_commas pending s)
        <= length s + match pending with Some p => length p | None => 0 end)%nat.
Proof.
  induction s as [|x s IH]; intros pending Hp; cbn [drop_trailing_commas].
  - destruct pending as [p|]; cbn [filter length]; [|split; [reflexivity | lia]].
    rewrite (filter_rev_pending p Hp), length_rev. split; [reflexivity | lia].
  - cbn [filter length]. unfold comma_or_space at 2.
    destruct pending as [p|].
    + destruct (is_space x) eqn:Hspace.
      * rewrite orb_true_r. cbn [negb].
        destruct (IH (Some (x :: p))) as [Hf Hl].
        { cbn [forallb]. unfold comma_or_space at 1. rewrite Hspace, orb_true_r. exact Hp. }
        split; [exact Hf | cbn [length] in Hl; lia].
      * rewrite orb_false_r.
        destruct (char_eqb x rbracket || char_eqb x rbrace) eqn:Hclose.
        -- assert (Hx : char_eqb x comma = false).
           { apply orb_prop in Hclose as [H | H]; apply char_eqb_eq in H; subst x;
               reflexivity. }
           rewrite Hx. cbn [negb filter length]. unfold comma_or_space at 1.
           rewrite Hx, Hspace. cbn [orb negb].
           destruct (IH None I) as [Hf Hl]. rewrite Hf. split; [reflexivity | lia].
        -- destruct (char_eqb x comma) eqn:Hx; cbn [negb].
           ++ rewrite filter_app, (filter_rev_pending p Hp), length_app, length_rev.
              destruct (IH (Some [x])) as [Hf Hl].
              { cbn [forallb]. unfold comma_or_space. rewrite Hx. reflexivity. }
              cbn [app]. split; [exact Hf | cbn [length] in Hl; lia].
           ++ rewrite filter_app, (filter_rev_pending p Hp), length_app, length_rev.
              cbn [app filter length]. unfold comma_or_space at 1.
              rewrite Hx, Hspace. cbn [orb negb].
              destruct (IH None I) as [Hf Hl]. rewrite Hf. split; [reflexivity | lia].
    + destruct (char_eqb x comma) eqn:Hx; cbn [orb negb].
      * destruct (IH (Some [x])) as [Hf Hl].
        { cbn [forallb]. unfold comma_or_space. rewrite Hx. reflexivity. }
        split; [exact Hf | cbn [length] in Hl; lia].
      * destruct (is_space x) eqn:Hspace; cbn [negb filter length].
        -- unfold comma_or_space at 1. rewrite Hx, Hspace. cbn [orb negb].
           destruct (IH None I) as [Hf Hl]. split; [exact Hf | lia].
        -- unfold comma_or_space at 1. rewrite Hx, Hspace. cbn [orb negb].
           destruct (IH None I) as [Hf Hl]. rewrite Hf. split; [reflexivity | lia].
Qed.

(** X13. Removing trailing commas deletes nothing but commas and
    whitespace: all other characters of the text are still there, in their
    order, and the text does not grow. *)
Theorem trailing_commas_only (s : str) :
  filter (fun c => negb (comma_or_space c)) (drop_trailing_commas None s)
  = filter (fun c => negb (comma_or_space c)) s
  /\ (length (drop_trailing_commas None s) <= length s)%nat.
Proof.
  destruct (drop_trailing_commas_keeps s None I) as [Hf Hl].
  split; [exact Hf | lia].
Qed.

(** ** The marker block *)

Lemma tag_needs_less_than (tag s : str) (c : char) :
  char_eqb c less_than_sign = false ->
  ci_startswith (less_than_sign :: tag) (c :: s) = false.
Proof.
  intros Hc. cbn [ci_startswith]. unfold ci_match.
  rewrite char_eqb_sym, Hc. reflexivity.
Qed.

Lemma ci_startswith_app (tag s rest : str) :
  ci_startswith tag s = true -> ci_startswith tag (s ++ rest) = true.
Proof.
  revert s. induction tag as [|a tag IH]; intros [|b s]; cbn [ci_startswith app];
    try reflexivity; try discriminate.
  intros H. apply andb_prop in H as [Hab Hs]. rewrite Hab, (IH s Hs). reflexivity.
Qed.

Lemma written_as_prefix (tag s rest : str) :
  written_as tag s = true ->
  ci_startswith tag (s ++ rest) = true /\ skipn (length tag) (s ++ rest) = rest.
Proof.
  unfold written_as. intros H. apply andb_prop in H as [Hs Hlen].
  apply Nat.eqb_eq in Hlen. split; [apply ci_startswith_app; exact Hs|].
  rewrite <- Hlen. rewrite skipn_app, skipn_all, Nat.sub_diag. reflexivity.
Qed.

Lemma after_open_tag (pre otag rest : str) :
  forallb (fun c => negb (char_eqb c less_than_sign)) pre = true ->
  written_as open_tag otag = true ->
  after_tag open_tag (pre ++ otag ++ rest) = Some rest.
Proof.
  intros Hpre Htag. induction pre as [|c pre IH].
  - destruct (written_as_prefix open_tag otag rest Htag) as [Hstart Hskip].
    cbn [app]. destruct (otag ++ rest) as [|x t] eqn:Ht;
      cbn [after_tag]; rewrite Hstart; rewrite Hskip; reflexivity.
  - cbn [forallb] in Hpre. apply andb_prop in Hpre as [Hc Hpre].
    apply negb_true_iff in Hc. cbn [app after_tag].
    change open_tag with (less_than_sign :: cps "json>").
    rewrite (tag_needs_less_than _ _ c Hc). apply IH. exact Hpre.
Qed.

Lemma before_close_tag (body ctag rest : str) :
  forallb (fun c => negb (char_eqb c less_than_sign)) body = true ->
  written_as close_tag ctag = true ->
  before_tag close_tag (body ++ ctag ++ rest) = Some body.
Proof.
  intros Hbody Htag. induction body as [|c body IH].
  - destruct (written_as_prefix close_tag ctag rest Htag) as [Hstart _].
    cbn [app]. destruct (ctag ++ rest) as [|x t] eqn:Ht;
      cbn [before_tag]; rewrite Hstart; reflexivity.
  - cbn [forallb] in Hbody. apply andb_prop in Hbody as [Hc Hbody].
    apply negb_true_iff in Hc. cbn [app before_tag].
    change close_tag with (less_than_sign :: cps "/json>").
    rewrite (tag_needs_less_than _ _ c Hc).
    change (less_than_sign :: cps "/json>") with close_tag.
    rewrite (IH Hbody). reflexivity.
Qed.

(** X14. A block between the tags, written in any mix of upper and lower
    case, is found whatever surrounds it: when neither the text before the
    opening tag nor the body holds a [<], the candidate is the stripped
    body, and the extractor returns for the whole reply what it returns for
    the bare block.  Brackets outside the block play no part. *)
Theorem block_found_whatever_surrounds
    (rt : PyRuntime) (pre otag body ctag post : str) :
  forallb (fun c => negb (char_eqb c less_than_sign)) pre = true ->
  forallb (fun c => negb (char_eqb c less_than_sign)) body = true ->
  written_as open_tag otag = true ->
  written_as close_tag ctag = true ->
  json_candidate (pre ++ otag ++ body ++ ctag ++ post) = Some (clean_json (strip body))
  /\ extract_and_parse_json rt (pre ++ otag ++ body ++ ctag ++ post)
     = extract_and_parse_json rt (open_tag ++ body ++ close_tag).
Proof.
  intros Hpre Hbody Hopen Hclose.
  assert (Hgroup : forall before o c after,
             forallb (fun x => negb (char_eqb x less_than_sign)) before = true ->
             written_as open_tag o = true ->
             written_as close_tag c = true ->
             json_candidate (before ++ o ++ body ++ c ++ after)
             = Some (clean_json (strip body))).
  { intros before o c after Hb Ho Hc. unfold json_candidate, json_match_group1.
    rewrite (after_open_tag before o (body ++ c ++ after) Hb Ho).
    rewrite (before_close_tag body c after Hbody Hc). cbn [option_map].
    change (rstrip (lstrip body)) with (strip body). rewrite strip_idempotent.
    destruct (before ++ o ++ body ++ c ++ after) as [|x t] eqn:Htext; [|reflexivity].
    exfalso. apply (f_equal (@length char)) in Htext.
    rewrite !length_app in Htext. unfold written_as in Ho.
    apply andb_prop in Ho as [_ Ho]. apply Nat.eqb_eq in Ho.
    rewrite Ho in Htext. simpl in Htext. lia. }
  split; [apply Hgroup; assumption|].
  rewrite !extract_by_candidate.
  rewrite (Hgroup pre otag ctag post Hpre Hopen Hclose).
  change (open_tag ++ body ++ close_tag) with ([] ++ open_tag ++ body ++ close_tag).
  rewrite <- (app_nil_r close_tag).
  rewrite (Hgroup [] open_tag close_tag [] eq_refl eq_refl eq_refl). reflexivity.
Qed.

Lemma block_found_whatever_surrounds_witness :
  json_candidate (cps "Sure! [draft] " ++ cps "<JSON>" ++ cps " [1, 2,] "
                  ++ cps "</Json>" ++ cps " Hope it helps [really].")
  = Some (cps "[1, 2]").
Proof.
  apply (proj1 (block_found_whatever_surrounds Sample.runtime
                  (cps "Sure! [draft] ") (cps "<JSON>") (cps " [1, 2,] ")
                  (cps "</Json>") (cps " Hope it helps [really].")
                  eq_refl eq_refl eq_refl eq_refl)).
Defined.

(* ===================================================================== *)
(** * More about the coercion *)
(* ===================================================================== *)

Lemma coerce_items_cons (rt : PyRuntime) (item : pyval) (items : list pyval) :
  coerce_items rt (item :: items)
  = match coerce_item rt item with
    | inl e => inl e
    | inr coerced =>
        match coerce_items rt items with
        | inl e => inl e
        | inr slides => inr match coerced with
                            | Some slide => slide :: slides
                            | None => slides
                            end
        end
    end.
Proof. reflexivity. Qed.

Lemma coerce_item_other (rt : PyRuntime) (item : pyval) :
  is_dict item = false -> coerce_item rt item = inr None.
Proof. destruct item; try reflexivity. discriminate. Qed.

Lemma coerce_items_length (rt : PyRuntime) (items : list pyval) :
  forall slides, coerce_items rt items = inr slides ->
                 length slides = length (filter is_dict items).
Proof.
  induction items as [|item items IH]; intros slides.
  - intros H. injection H as <-. reflexivity.
  - rewrite coerce_items_cons. cbn [filter].
    destruct (is_dict item) eqn:Hdict.
    + destruct item; try discriminate. rewrite coerce_item_dict.
      destruct (py_str rt _) as [e | text]; [discriminate|].
      destruct (coerce_items rt items) as [e | rest]; [discriminate|].
      intros H. injection H as <-. cbn [length]. rewrite (IH rest eq_refl). reflexivity.
    + rewrite (coerce_item_other rt item Hdict).
      destruct (coerce_items rt items) as [e | rest]; [discriminate|].
      intros H. injection H as <-. apply IH. reflexivity.
Qed.

(** The coercion of a list fails exactly on a record whose title cannot
    be printed. *)
Lemma coerce_items_raised (rt : PyRuntime) (items : list pyval) :
  forall e, coerce_items rt items = inl e ->
            exists entries,
              In (PDict entries) items
              /\ py_str rt (dict_get entries (cps "title") (PStr (cps "Untitled Slide")))
                 = inl e.
Proof.
  induction items as [|item items IH]; intros e; [discriminate|].
  rewrite coerce_items_cons.
  destruct (is_dict item) eqn:Hdict.
  - destruct item; try discriminate. rewrite coerce_item_dict.
    destruct (py_str rt _) as [e' | text] eqn:Htitle.
    + intros H. injection H as <-. exists entries. split; [left; reflexivity | exact Htitle].
    + destruct (coerce_items rt items) as [e' | rest]; [|discriminate].
      intros H. injection H as <-.
      destruct (IH e' eq_refl) as (entries' & Hin & Hraised).
      exists entries'. split; [right; exact Hin | exact Hraised].
  - rewrite (coerce_item_other rt item Hdict).
    destruct (coerce_items rt items) as [e' | rest]; [|discriminate].
    intros H. injection H as <-.
    destruct (IH e' eq_refl) as (entries' & Hin & Hraised).
    exists entries'. split; [right; exact Hin | exact Hraised].
Qed.

Lemma slice_to_length (A : Type) (l : list A) (n : Z) :
  (length (slice_to l n) <= length l)%nat
  /\ ((0 <= n)%Z -> (length (slice_to l n) <= Z.to_nat n)%nat).
Proof.
  unfold slice_to.
  destruct (n <? 0)%Z eqn:Hneg; rewrite length_firstn; split; try lia.
Qed.

Lemma validate_returned (rt : PyRuntime) (data : list pyval) (bound : pyval)
    (slides : list Slide) :
  validate_and_coerce_slides rt data bound = inr slides ->
  exists kept,
    py_slice_to data bound = inr kept
    /\ coerce_items rt kept = inr slides
    /\ (length kept <= length data)%nat
    /\ (forall n, slice_bound bound = inr (Some n) -> (0 <= n)%Z ->
                  (length kept <= Z.to_nat n)%nat).
Proof.
  unfold validate_and_coerce_slides, py_slice_to, and_then.
  destruct (slice_bound bound) as [e | [n|]]; [discriminate | |]; intros H.
  - exists (slice_to data n). split; [reflexivity|]. split; [exact H|].
    pose proof (slice_to_length _ data n) as [Hall Hbound].
    split; [exact Hall|]. intros n' Hn'. injection Hn' as <-. exact Hbound.
  - exists data. split; [reflexivity|]. split; [exact H|].
    split; [lia | discriminate].
Qed.

Lemma validate_length_le (rt : PyRuntime) (data : list pyval) (bound : pyval)
    (slides : list Slide) (n : Z) :
  validate_and_coerce_slides rt data bound = inr slides ->
  slice_bound bound = inr (Some n) -> (0 <= n)%Z ->
  (length slides <= Z.to_nat n)%nat.
Proof.
  intros Hslides Hbound Hn.
  destruct (validate_returned rt data bound slides Hslides)
    as (kept & _ & Hcoerced & _ & Hkept).
  rewrite (coerce_items_length rt kept slides Hcoerced).
  pose proof (filter_length_le is_dict kept). specialize (Hkept n Hbound Hn). lia.
Qed.

(** X15. When the coercion returns, it returns one slide for each dict
    among the items it looks at, never more than there are items, and for
    an integer bound that is not negative at most that many.  When it
    raises, either the bound is not an index, or one of the records it
    looks at has a title that [str()] cannot print, and the exception is
    that of [str()]. *)
Theorem coercion_counts_dicts (rt : PyRuntime) (data : list pyval) (bound : pyval) :
  (forall slides,
      validate_and_coerce_slides rt data bound = inr slides ->
      exists kept,
        py_slice_to data bound = inr kept
        /\ length slides = length (filter is_dict kept)
        /\ (length slides <= length data)%nat
        /\ (forall n, slice_bound bound = inr (Some n) -> (0 <= n)%Z ->
                      (length slides <= Z.to_nat n)%nat))
  /\ (forall e,
        validate_and_coerce_slides rt data bound = inl e ->
        slice_bound bound = inl e
        \/ exists kept entries,
             py_slice_to data bound = inr kept
             /\ In (PDict entries) kept
             /\ py_str rt (dict_get entries (cps "title") (PStr (cps "Untitled Slide")))
                = inl e).
Proof.
  split.
  - intros slides Hslides.
    destruct (validate_returned rt data bound slides Hslides)
      as (kept & Hkept & Hcoerced & Hall & Hbound).
    exists kept. split; [exact Hkept|].
    pose proof (coerce_items_length rt kept slides Hcoerced) as Hlen.
    pose proof (filter_length_le is_dict kept).
    split; [exact Hlen|]. split; [lia|].
    intros n Hn Hpos. specialize (Hbound n Hn Hpos). lia.
  - intros e. unfold validate_and_coerce_slides, py_slice_to, and_then.
    destruct (slice_bound bound) as [e' | n];
      [intros H; left; injection H as <-; reflexivity|].
    intros H. right.
    destruct (coerce_items_raised rt _ e H) as (entries & Hin & Hraised).
    eexists. exists entries. split; [reflexivity|]. split; [exact Hin | exact Hraised].
Qed.

Lemma coercion_counts_dicts_witness :
  exists kept,
    py_slice_to [PDict []; PInt 3; PDict []; PDict []] (PInt 3) = inr kept
    /\ length [mkSlide (cps "Untitled Slide") []; mkSlide (cps "Untitled Slide") []]
       = length (filter is_dict kept)
    /\ (length [mkSlide (cps "Untitled Slide") []; mkSlide (cps "Untitled Slide") []]
        <= length [PDict []; PInt 3; PDict []; PDict []])%nat
    /\ (forall n, slice_bound (PInt 3) = inr (Some n) -> (0 <= n)%Z ->
                  (length [mkSlide (cps "Untitled Slide") [];
                           mkSlide (cps "Untitled Slide") []] <= Z.to_nat n)%nat).
Proof.
  apply (proj1 (coercion_counts_dicts Sample.runtime
                  [PDict []; PInt 3; PDict []; PDict []] (PInt 3))).
  reflexivity.
Defined.

Lemma clean_points_of_clean (pts : list str) :
  Forall (fun p => p <> [] /\ strip p = p) pts ->
  clean_points (map PStr pts) = pts.
Proof.
  induction 1 as [|p pts [Hne Hstrip] _ IH]; cbn [map clean_points]; [reflexivity|].
  rewrite Hstrip. destruct p; [congruence|]. rewrite IH. reflexivity.
Qed.

Lemma coerce_own_output (rt : PyRuntime) (slides : list Slide) :
  Forall (fun slide => Forall (fun p => p <> [] /\ strip p = p) (points slide)) slides ->
  coerce_items rt (map slide_dict slides) = inr slides.
Proof.
  induction 1 as [|slide slides Hpts _ IH]; cbn [map]; [reflexivity|].
  rewrite coerce_items_cons, IH. unfold slide_dict at 1. rewrite coerce_item_dict.
  change (dict_get _ (cps "title") (PStr (cps "Untitled Slide")))
    with (PStr (title slide)).
  change (dict_get _ (cps "points") (PList [])) with (PList (map PStr (points slide))).
  cbn [py_str]. rewrite (clean_points_of_clean _ Hpts).
  destruct slide; reflexivity.
Qed.

Lemma coerce_items_clean (rt : PyRuntime) (items : list pyval) :
  forall slides,
    coerce_items rt items = inr slides ->
    Forall (fun slide => Forall (fun p => p <> [] /\ strip p = p) (points slide)) slides.
Proof.
  induction items as [|item items IH]; intros slides.
  - intros H. injection H as <-. constructor.
  - rewrite coerce_items_cons.
    destruct (is_dict item) eqn:Hdict.
    + destruct item; try discriminate. rewrite coerce_item_dict.
      destruct (py_str rt _) as [e | text]; [discriminate|].
      destruct (coerce_items rt items) as [e | rest]; [discriminate|].
      intros H. injection H as <-.
      constructor; [apply clean_points_stripped | apply IH; reflexivity].
    + rewrite (coerce_item_other rt item Hdict).
      destruct (coerce_items rt items) as [e | rest]; [discriminate|].
      intros H. injection H as <-. apply IH. reflexivity.
Qed.

(** X16. The coercion changes nothing in its own output: the dicts it
    returns, given back to it with a bound that does not cut them, come out
    as the same slides. *)
Theorem coercion_idempotent (rt : PyRuntime) (data : list pyval) (bound : pyval)
    (slides : list Slide) (again : Z) :
  validate_and_coerce_slides rt data bound = inr slides ->
  (Z.of_nat (length slides) <= again)%Z ->
  validate_and_coerce_slides rt (map slide_dict slides) (PInt again) = inr slides.
Proof.
  intros Hslides Hlen.
  destruct (validate_returned rt data bound slides Hslides) as (kept & _ & Hcoerced & _).
  unfold validate_and_coerce_slides, py_slice_to, and_then. cbn [slice_bound].
  rewrite slice_to_all by (rewrite length_map; exact Hlen).
  apply coerce_own_output. apply (coerce_items_clean rt kept slides Hcoerced).
Qed.

Lemma coercion_idempotent_witness :
  validate_and_coerce_slides Sample.runtime
    (map slide_dict [mkSlide (cps "7") [cps "a"]]) (PInt 1)
  = inr [mkSlide (cps "7") [cps "a"]].
Proof.
  apply (coercion_idempotent Sample.runtime
           [PDict [field "title" (PInt 7);
                   field "points" (PList [PStr (cps " a "); PNone])]] (PInt 3)
           [mkSlide (cps "7") [cps "a"]] 1).
  - vm_compute. reflexivity.
  - simpl. lia.
Defined.

(* ===================================================================== *)
(** * The slides that are added to the presentation *)
(* ===================================================================== *)

Lemma point_text_stripped (point : str) : strip (point_text point) = point_text point.
Proof.
  unfold point_text.
  destruct (startswith [bullet] (strip point)) eqn:Hb.
  - destruct (startswith [hyphen] (strip (tl (strip point))));
      apply strip_idempotent.
  - destruct (startswith [hyphen] (strip point)); apply strip_idempotent.
Qed.

Lemma lay_out_paragraphs (w : World) (slide : Slide) (idx : nat) :
  Forall (fun paragraph =>
            exists text, paragraph = [bullet; 32%N] ++ text /\ strip text = text)
         (r_paragraphs (lay_out w idx slide)).
Proof.
  unfold lay_out. destruct idx; [destruct (points slide); constructor|].
  destruct (points slide) as [|p pts] eqn:Hpts; [constructor|].
  cbn [r_paragraphs]. apply Forall_forall. intros paragraph Hin.
  apply in_map_iff in Hin as (point & <- & _).
  exists (point_text point). split; [reflexivity | apply point_text_stripped].
Qed.

Lemma stripped_ends (t : str) : strip t = t -> lstrip t = t /\ rstrip t = t.
Proof.
  intros H.
  assert (Hl : lstrip t = t).
  { rewrite <- H at 1. unfold strip.
    rewrite (lstrip_rstrip (lstrip t) (lstrip_idempotent t)). exact H. }
  split; [exact Hl|]. unfold strip in H. rewrite Hl in H. exact H.
Qed.

Lemma rstrip_app_stripped (pre t : str) :
  t <> [] -> rstrip t = t -> rstrip (pre ++ t) = pre ++ t.
Proof.
  intros Hne Hr. unfold rstrip in *. rewrite rev_app_distr.
  assert (Hfixed : lstrip (rev t) = rev t).
  { apply (f_equal (@rev char)) in Hr. rewrite rev_involutive in Hr. exact Hr. }
  remember (rev t) as reversed eqn:Hrev.
  destruct reversed as [|y r].
  - exfalso. apply Hne. apply (f_equal (@rev char)) in Hrev.
    rewrite rev_involutive in Hrev. symmetry. exact Hrev.
  - pose proof (lstrip_fixed_head y r Hfixed) as Hy.
    cbn [app lstrip]. rewrite Hy.
    change (y :: r ++ rev pre) with ((y :: r) ++ rev pre).
    rewrite Hrev, rev_app_distr, !rev_involutive. reflexivity.
Qed.

(** A marker and a space in front of a stripped text are stripped away
    with what [strip] and [tl] do in [point_text]. *)
Lemma strip_after_marker (c : char) (t : str) :
  is_space c = false -> strip t = t ->
  strip (c :: @cons char 32%N t)
  = c :: match t with [] => [] | _ => @cons char 32%N t end.
Proof.
  intros Hc Ht. destruct (stripped_ends t Ht) as [_ Hr].
  unfold strip. cbn [lstrip]. rewrite Hc.
  destruct t as [|x t'].
  - unfold rstrip. cbn [rev app lstrip].
    change (is_space 32%N) with true. cbv iota. rewrite Hc. reflexivity.
  - apply (rstrip_app_stripped [c; 32%N] (x :: t')); [discriminate | exact Hr].
Qed.

Lemma startswith_marker (c : char) (s : str) : startswith [c] (c :: s) = true.
Proof. cbn [startswith]. unfold char_eqb. rewrite N.eqb_refl. reflexivity. Qed.

Lemma strip_after_space (t : str) : strip (@cons char 32%N t) = strip t.
Proof. unfold strip. cbn [lstrip]. change (is_space 32%N) with true. reflexivity. Qed.

(** X17. What is written on the slides that are added.  The first slide
    gets no paragraphs, even when the outline gives it points.  Every
    paragraph is the bullet glyph, one space, and a text with no whitespace
    at either end.  The paragraph does not depend on how the model marked
    the point: a text on its own, behind a bullet, behind a dash, or behind
    a bullet and a dash is laid out as the same paragraph, with one
    bullet.  A title is written where the layout has a title placeholder:
    when the layouts in use have one, the titles of the added slides are
    those of the outline, in order. *)
Theorem deck_layout (w : World) (slides : list Slide) :
  (forall first, hd_error (lay_out_from w 0 slides) = Some first ->
                 r_paragraphs first = [])
  /\ Forall (fun rendered =>
               Forall (fun paragraph =>
                         exists text, paragraph = [bullet; 32%N] ++ text
                                      /\ strip text = text)
                      (r_paragraphs rendered))
            (lay_out_from w 0 slides)
  /\ (forall text,
        strip text = text ->
        startswith [bullet] text = false -> startswith [hyphen] text = false ->
        bullet_text text = [bullet; 32%N] ++ text
        /\ bullet_text ([bullet; 32%N] ++ text) = [bullet; 32%N] ++ text
        /\ bullet_text ([hyphen; 32%N] ++ text) = [bullet; 32%N] ++ text
        /\ bullet_text ([bullet; 32%N; hyphen; 32%N] ++ text) = [bullet; 32%N] ++ text)
  /\ (layout_has_title w 0 = true -> layout_has_title w 1 = true ->
      map r_title (lay_out_from w 0 slides) = map (fun slide => Some (title slide)) slides).
Proof.
  split.
  { destruct slides as [|slide slides]; cbn [lay_out_from hd_error]; [discriminate|].
    intros first H. injection H as <-. unfold lay_out.
    destruct (points slide); reflexivity. }
  split.
  { generalize 0%nat.
    induction slides as [|slide slides IH]; intros idx; cbn [lay_out_from];
      constructor; [apply lay_out_paragraphs | apply IH]. }
  split.
  { intros text Htext Hbullet Hhyphen.
    assert (Hplain : point_text text = text).
    { unfold point_text. rewrite Htext, Hbullet, Hhyphen. reflexivity. }
    assert (Hdash : point_text ([hyphen; 32%N] ++ text) = text).
    { unfold point_text. cbn [app].
      rewrite (strip_after_marker hyphen text eq_refl Htext).
      rewrite (startswith_head bullet [] _ hyphen eq_refl), startswith_marker.
      destruct text as [|x t']; [reflexivity|].
      cbn [tl]. rewrite strip_after_space. exact Htext. }
    unfold bullet_text. rewrite Hplain.
    split; [reflexivity|]. split; [|split].
    - f_equal. unfold point_text. cbn [app].
      rewrite (strip_after_marker bullet text eq_refl Htext), startswith_marker.
      destruct text as [|x t']; [reflexivity|].
      cbn [tl]. rewrite strip_after_space, Htext, Hhyphen. reflexivity.
    - f_equal. exact Hdash.
    - f_equal. unfold point_text.
      change ([bullet; 32%N; hyphen; 32%N] ++ text)
        with (bullet :: @cons char 32%N ([hyphen; 32%N] ++ text)).
      assert (Hinner : strip ([hyphen; 32%N] ++ text) = [hyphen; 32%N] ++ text
                       \/ text = []).
      { destruct text as [|x t']; [right; reflexivity|]. left.
        cbn [app]. apply (strip_after_marker hyphen (x :: t') eq_refl Htext). }
      destruct Hinner as [Hinner | ->]; [|vm_compute; reflexivity].
      rewrite (strip_after_marker bullet _ eq_refl Hinner), startswith_marker.
      destruct text as [|x t']; [vm_compute; reflexivity|].
      cbn [app tl]. rewrite strip_after_space.
      cbn [app] in Hinner. rewrite Hinner, startswith_marker.
      cbn [tl]. rewrite strip_after_space. exact Htext. }
  intros Hfirst Hothers.
  assert (Hlater : forall rest idx,
             map r_title (lay_out_from w (S idx) rest)
             = map (fun slide => Some (title slide)) rest).
  { induction rest as [|slide rest IH]; intros idx; cbn [lay_out_from map];
      [reflexivity|].
    rewrite IH. f_equal. unfold lay_out, layout_index.
    assert (Hlayout : layout_has_title w (if (1 <? slide_layouts w)%nat then 1 else 0)%nat
                      = true)
      by (destruct (1 <? slide_layouts w)%nat; assumption).
    rewrite Hlayout. destruct (points slide); reflexivity. }
  destruct slides as [|slide slides]; [reflexivity|].
  cbn [lay_out_from map]. rewrite Hlater. f_equal.
  unfold lay_out, layout_index. rewrite Hfirst. destruct (points slide); reflexivity.
Qed.

Lemma deck_layout_witness :
  bullet_text ([bullet; 32%N; hyphen; 32%N] ++ cps "First step")
  = [bullet; 32%N] ++ cps "First step".
Proof.
  apply (proj1 (proj2 (proj2 (deck_layout (Sample.answers scenario_A_reply) [])))
           (cps "First step")); reflexivity.
Defined.

(* ===================================================================== *)
(** * The shape of a generation run *)
(* ===================================================================== *)

Lemma run_eta {A : Type} (m : M A) : m = (trace m, outcome m).
Proof. destruct m; reflexivity. Qed.

Lemma ask_ollama_handler_trace
    (rt : PyRuntime) (timeout : pyval) (stop_event : option Event) (process : bool)
    (e : exn) :
  trace (ask_ollama_handler rt timeout stop_event process e) = []
  \/ (process = true
      /\ trace (ask_ollama_handler rt timeout stop_event process e) = [EvKill]).
Proof.
  unfold ask_ollama_handler.
  destruct (exn_cls e); destruct process;
    try destruct (stop_requested stop_event InExceptHandler);
    try (left; reflexivity);
    unfold lift; destruct (py_str rt timeout); cbn; auto.
Qed.

(** The calls of [ask_ollama]: [Popen], then [communicate], then [kill],
    as far as it gets; a reply means the first two and no more. *)
Lemma ask_ollama_trace
    (rt : PyRuntime) (w : World) (timeout : pyval) (prompt : str) (model : pyval)
    (stop_event : option Event) :
  (exists k, trace (ask_ollama rt w timeout prompt model stop_event)
             = firstn k [EvPopen model; EvCommunicate prompt timeout; EvKill])
  /\ (forall reply,
        outcome (ask_ollama rt w timeout prompt model stop_event) = inr reply ->
        trace (ask_ollama rt w timeout prompt model stop_event)
        = [EvPopen model; EvCommunicate prompt timeout]).
Proof.
  unfold ask_ollama.
  destruct (stop_requested stop_event AskOllamaEntry).
  { split; [exists 0%nat; reflexivity | discriminate]. }
  rewrite trace_bind, outcome_bind, trace_try, outcome_try.
  change (trace (call (EvPopen model) (popen w model))) with [EvPopen model].
  rewrite outcome_call.
  destruct (popen w model) as [e | []].
  - rewrite trace_bind, outcome_bind.
    destruct (ask_ollama_handler_raises rt timeout stop_event false e) as [e' He'].
    rewrite He'.
    destruct (ask_ollama_handler_trace rt timeout stop_event false e) as [Ht | [Hp _]];
      [|discriminate].
    rewrite Ht. split; [exists 1%nat; reflexivity | discriminate].
  - rewrite trace_try, outcome_try, trace_bind, outcome_bind.
    change (trace (call (EvCommunicate prompt timeout) (communicate w prompt timeout)))
      with [EvCommunicate prompt timeout].
    rewrite outcome_call.
    destruct (communicate w prompt timeout) as [e | [[stdout stderr] returncode]].
    + destruct (ask_ollama_handler_raises rt timeout stop_event true e) as [e' He'].
      rewrite He'.
      destruct (ask_ollama_handler_trace rt timeout stop_event true e) as [Ht | [_ Ht]];
        rewrite Ht; (split; [|discriminate]).
      * exists 2%nat. reflexivity.
      * exists 3%nat. reflexivity.
    + destruct (stop_requested stop_event AfterCommunicate).
      { cbn. split; [exists 2%nat; reflexivity | discriminate]. }
      destruct (returncode =? 0)%Z; cbn [negb].
      { cbn. split; [exists 2%nat; reflexivity | reflexivity]. }
      destruct (stop_requested stop_event NonzeroExit).
      { cbn. split; [exists 2%nat; reflexivity | discriminate]. }
      cbn. destruct (stop_requested stop_event InExceptHandler); cbn;
        (split; [exists 2%nat; reflexivity | discriminate]).
Qed.

Lemma extract_returns (rt : PyRuntime) (text : str) :
  exists parsed, extract_and_parse_json rt text = ([], inr parsed).
Proof.
  rewrite extract_by_candidate.
  destruct (json_candidate text) as [json_str|].
  - rewrite two_attempts. eexists. reflexivity.
  - eexists. reflexivity.
Qed.

Lemma outline_or_fallback_run (topic : str) (stop_event : option Event)
    (parsed : option (list pyval)) :
  outline_or_fallback topic stop_event parsed = ([], inl stopped_by_user)
  \/ exists slides_data, outline_or_fallback topic stop_event parsed = ([], inr slides_data).
Proof.
  unfold outline_or_fallback.
  destruct parsed as [[|item items]|];
    try destruct (stop_requested stop_event EmptyOutline);
    first [left; reflexivity | right; eexists; reflexivity].
Qed.

Lemma template_in_use_run (w : World) (template_path : option str) :
  template_in_use w template_path
  = (match template_path with
     | Some (c :: path) => [EvPathExists (c :: path)]
     | _ => []
     end, inr (template_exists w template_path)).
Proof. destruct template_path as [[|c path]|]; reflexivity. Qed.

(** From the coercion on: the coercion raises, or the run is stopped
    before anything is rendered, or there is one call to the renderer,
    which fails or gives the file. *)
Lemma render_outline_run
    (rt : PyRuntime) (w : World) (topic : str) (template_path : option str)
    (font_name : str) (font_size : Z) (stop_event : option Event)
    (limit : pyval) (slides_data : list pyval) :
  render_outline rt w topic template_path font_name font_size stop_event limit slides_data
  = match validate_and_coerce_slides rt slides_data limit with
    | inl e => ([], inl e)
    | inr slides =>
        if stop_requested stop_event BeforeRender then ([], inl stopped_by_user)
        else
          match pptx_save w (lay_out_from w 0 slides) template_path font_name
                  font_size with
          | inl e =>
              ([EvSave (lay_out_from w 0 slides) template_path font_name font_size],
               inl (generation_error
                      (cps "Failed to create presentation: " ++ exn_str e)))
          | inr file_path =>
              (EvSave (lay_out_from w 0 slides) template_path font_name font_size
                 :: match template_path with
                    | Some (c :: path) => [EvPathExists (c :: path)]
                    | _ => []
                    end,
               inr (file_path,
                    mkMetadata (length slides) topic (template_exists w template_path)))
          end
    end.
Proof.
  unfold render_outline, lift.
  destruct (validate_and_coerce_slides rt slides_data limit) as [e | slides];
    [reflexivity|].
  cbn [bind app].
  destruct (stop_requested stop_event BeforeRender); [reflexivity|].
  unfold create_presentation, call, try_except, bind.
  destruct (pptx_save w (lay_out_from w 0 slides) template_path font_name font_size)
    as [e | file_path]; [reflexivity|].
  rewrite template_in_use_run. unfold ret. cbn [app]. rewrite app_nil_r. reflexivity.
Qed.

(** The body of the [try]: it ends on the way to the model call, with
    the configuration loaded and nothing else; or it ends before the
    outline is rendered, having made some of the calls to start the
    process, talk to it and kill it, in this order; or it has made the
    first two of these and goes on to render an outline. *)
Lemma generation_steps_cases
    (rt : PyRuntime) (w : World) (topic : str) (template_path : option str)
    (font_name : str) (font_size : Z) (stop_event : option Event) :
  (exists e,
      prepare rt (configuration w) topic = inl e
      /\ generation_steps rt w topic template_path font_name font_size stop_event
         = ([EvLoadConfig], inl e))
  \/ (exists ready e k,
        prepare rt (configuration w) topic = inr ready
        /\ generation_steps rt w topic template_path font_name font_size stop_event
           = (EvLoadConfig
                :: firstn k [EvPopen (model ready);
                             EvCommunicate (prompt ready) (ollama_timeout ready);
                             EvKill],
              inl e))
  \/ (exists ready slides_data,
        prepare rt (configuration w) topic = inr ready
        /\ generation_steps rt w topic template_path font_name font_size stop_event
           = ([EvLoadConfig; EvPopen (model ready);
               EvCommunicate (prompt ready) (ollama_timeout ready)]
              ++ trace (render_outline rt w topic template_path font_name font_size
                          stop_event (max_slides ready) slides_data),
              outcome (render_outline rt w topic template_path font_name font_size
                         stop_event (max_slides ready) slides_data))).
Proof.
  rewrite (run_eta (generation_steps rt w topic template_path font_name font_size
                      stop_event)).
  unfold generation_steps.
  rewrite trace_bind, outcome_bind. unfold load_config.
  change (trace (call EvLoadConfig (inr (configuration w)))) with [EvLoadConfig].
  rewrite !outcome_call.
  rewrite trace_bind, outcome_bind.
  change (trace (lift (prepare rt (configuration w) topic))) with (@nil event).
  change (outcome (lift (prepare rt (configuration w) topic)))
    with (prepare rt (configuration w) topic).
  destruct (prepare rt (configuration w) topic) as [e | ready] eqn:Hready.
  { left. exists e. split; reflexivity. }
  right.
  rewrite trace_bind, outcome_bind.
  destruct (ask_ollama_trace rt w (ollama_timeout ready) (prompt ready) (model ready)
              stop_event) as [[k Hk] Hreply].
  destruct (outcome (ask_ollama rt w (ollama_timeout ready) (prompt ready) (model ready)
                       stop_event)) as [e | reply] eqn:Hask.
  { left. exists ready, e, k. split; [reflexivity|]. rewrite Hk, app_nil_r. reflexivity. }
  rewrite (Hreply reply eq_refl).
  destruct (stop_requested stop_event AfterResponse).
  { left. exists ready, stopped_by_user, 2%nat. split; reflexivity. }
  rewrite trace_bind, outcome_bind.
  destruct (extract_returns rt reply) as [parsed ->].
  cbn [trace outcome fst snd].
  rewrite trace_bind, outcome_bind.
  destruct (outline_or_fallback_run topic stop_event parsed) as [-> | [slides_data ->]].
  { left. exists ready, stopped_by_user, 2%nat. split; reflexivity. }
  right. exists ready, slides_data. split; reflexivity.
Qed.

(** [generate_presentation] in one piece: the two early exits, then the
    calls of the body and what the handlers make of its outcome. *)
Lemma generate_presentation_run
    (rt : PyRuntime) (w : World) (topic : str) (template_path : option str)
    (font_name : str) (font_size : Z) (stop_event : option Event) :
  generate_presentation rt w topic template_path font_name font_size stop_event
  = match strip topic with
    | [] => ([], inl (generation_error (cps "Topic cannot be empty")))
    | _ :: _ =>
        if stop_requested stop_event BeforeStarting then ([], inl stopped_by_user)
        else
          (trace (generation_steps rt w topic template_path font_name font_size
                    stop_event),
           match outcome (generation_steps rt w topic template_path font_name
                            font_size stop_event) with
           | inr v => inr v
           | inl e =>
               match exn_cls e with
               | GenerationStopped => inl e
               | _ => inl (generation_error
                             (cps "Failed to generate presentation: " ++ exn_str e))
               end
           end)
    end.
Proof.
  unfold generate_presentation. destruct (strip topic) as [|c t]; [reflexivity|].
  destruct (stop_requested stop_event BeforeStarting); [reflexivity|].
  rewrite (run_eta (try_except _ _)), trace_try, outcome_try.
  destruct (outcome (generation_steps rt w topic template_path font_name font_size
                       stop_event)) as [e | v].
  - unfold generation_handler.
    destruct (exn_cls e); cbn [trace outcome raise fst snd]; rewrite app_nil_r;
      reflexivity.
  - rewrite app_nil_r. reflexivity.
Qed.

Lemma no_save_before_rendering
    (k : nat) (model : pyval) (prompt : str) (timeout : pyval)
    (deck : list RenderedSlide) (template : option str) (font : str) (size : Z) :
  ~ In (EvSave deck template font size)
       (EvLoadConfig :: firstn k [EvPopen model; EvCommunicate prompt timeout; EvKill]).
Proof.
  destruct k as [|[|[|k]]]; cbn [firstn]; rewrite ?firstn_nil;
    cbn [In]; intuition discriminate.
Qed.

(** X18. A generation that ends with [GenerationStopped] has not called
    the renderer: whatever the model answered and wherever the flag was
    seen, no deck was built and no file was saved. *)
Theorem stopped_run_renders_nothing
    (rt : PyRuntime) (w : World) (topic : str) (template_path : option str)
    (font_name : str) (font_size : Z) (stop_event : option Event) :
  kind_of (outcome (generate_presentation rt w topic template_path font_name
                      font_size stop_event)) = Stopped ->
  forall deck template font size,
    ~ In (EvSave deck template font size)
         (trace (generate_presentation rt w topic template_path font_name font_size
                   stop_event)).
Proof.
  rewrite generate_presentation_run.
  destruct (strip topic) as [|c t]; [intros _ ? ? ? ? []|].
  destruct (stop_requested stop_event BeforeStarting); [intros _ ? ? ? ? []|].
  cbn [trace outcome fst snd].
  destruct (generation_steps_cases rt w topic template_path font_name font_size
              stop_event)
    as [(e & _ & Hrun) | [(ready & e & k & _ & Hrun) | (ready & slides_data & _ & Hrun)]];
    rewrite Hrun; cbn [trace outcome fst snd].
  - intros _ deck template font size Hin. cbn in Hin. intuition discriminate.
  - intros _ deck template font size. apply no_save_before_rendering.
  - rewrite render_outline_run.
    destruct (validate_and_coerce_slides rt slides_data (max_slides ready))
      as [e | slides].
    { intros _ deck template font size Hin. cbn in Hin. intuition discriminate. }
    destruct (stop_requested stop_event BeforeRender).
    + intros _ deck template font size Hin. cbn in Hin. intuition discriminate.
    + destruct (pptx_save w _ template_path font_name font_size) as [e | file_path];
        cbn; discriminate.
Qed.

Lemma stopped_run_renders_nothing_witness :
  kind_of (outcome (generate_presentation Sample.runtime
                      (Sample.answers scenario_A_reply)
                      (cps "Python basics") None calibri 12
                      (Some (Sample.set_from BeforeRender)))) = Stopped
  /\ forall deck template font size,
       ~ In (EvSave deck template font size)
            (trace (generate_presentation Sample.runtime
                      (Sample.answers scenario_A_reply)
                      (cps "Python basics") None calibri 12
                      (Some (Sample.set_from BeforeRender)))).
Proof.
  split; [vm_compute; reflexivity|].
  apply (stopped_run_renders_nothing Sample.runtime (Sample.answers scenario_A_reply)
           (cps "Python basics") None calibri 12 (Some (Sample.set_from BeforeRender))).
  vm_compute. reflexivity.
Defined.

(** X19. A generation that returns has loaded the configuration, started
    the model once and talked to it once, rendered once and, when a
    template path was given, asked once whether it exists, in this order
    and nothing else.  Nothing was raised on the way to the model call,
    and the coercion of the outline returned.  The slides it added are the
    layout of the coerced outline, the path it returns is the one the
    renderer gave, and the metadata carry the number of these slides, the
    topic as it was passed (not stripped) and whether the template exists.
    When the slide limit is an integer that is not negative there are no
    more slides than the limit. *)
Theorem completed_run_shape
    (rt : PyRuntime) (w : World) (topic : str) (template_path : option str)
    (font_name : str) (font_size : Z) (stop_event : option Event)
    (file_path : str) (metadata : Metadata) :
  outcome (generate_presentation rt w topic template_path font_name font_size
             stop_event) = inr (file_path, metadata) ->
  exists ready slides_data slides,
    prepare rt (configuration w) topic = inr ready
    /\ validate_and_coerce_slides rt slides_data (max_slides ready) = inr slides
    /\ trace (generate_presentation rt w topic template_path font_name font_size
                stop_event)
       = [EvLoadConfig; EvPopen (model ready);
          EvCommunicate (prompt ready) (ollama_timeout ready);
          EvSave (lay_out_from w 0 slides) template_path font_name font_size]
         ++ trace (template_in_use w template_path)
    /\ pptx_save w (lay_out_from w 0 slides) template_path font_name font_size
       = inr file_path
    /\ metadata = mkMetadata (length slides) topic (template_exists w template_path)
    /\ (forall n, slice_bound (max_slides ready) = inr (Some n) -> (0 <= n)%Z ->
                  (slide_count metadata <= Z.to_nat n)%nat).
Proof.
  rewrite generate_presentation_run.
  destruct (strip topic) as [|c t]; [discriminate|].
  destruct (stop_requested stop_event BeforeStarting); [discriminate|].
  cbn [trace outcome fst snd].
  destruct (generation_steps_cases rt w topic template_path font_name font_size
              stop_event)
    as [(e & _ & Hrun) | [(ready & e & k & _ & Hrun)
                         | (ready & slides_data & Hready & Hrun)]];
    rewrite Hrun; cbn [trace outcome fst snd].
  - destruct (exn_cls e); discriminate.
  - destruct (exn_cls e); discriminate.
  - rewrite render_outline_run, template_in_use_run.
    destruct (validate_and_coerce_slides rt slides_data (max_slides ready))
      as [e | slides] eqn:Hslides; cbn [trace outcome fst snd].
    { destruct (exn_cls e); discriminate. }
    destruct (stop_requested stop_event BeforeRender); [discriminate|].
    destruct (pptx_save w _ template_path font_name font_size) as [e | path] eqn:Hsave;
      cbn [trace outcome fst snd]; [discriminate|].
    intros Hreturned. injection Hreturned as <- <-.
    exists ready, slides_data, slides.
    split; [exact Hready|]. split; [exact Hslides|].
    split; [reflexivity|]. split; [exact Hsave|]. split; [reflexivity|].
    intros n Hbound Hn. cbn [slide_count].
    apply (validate_length_le rt slides_data (max_slides ready) slides n Hslides Hbound Hn).
Qed.

Lemma completed_run_shape_witness :
  exists ready slides_data slides,
    prepare Sample.runtime (configuration (Sample.answers scenario_A_reply))
      (cps "Python basics") = inr ready
    /\ validate_and_coerce_slides Sample.runtime slides_data (max_slides ready)
       = inr slides
    /\ trace (generate_presentation Sample.runtime (Sample.answers scenario_A_reply)
                (cps "Python basics") None calibri 12 None)
       = [EvLoadConfig; EvPopen (model ready);
          EvCommunicate (prompt ready) (ollama_timeout ready);
          EvSave (lay_out_from (Sample.answers scenario_A_reply) 0 slides)
                 None calibri 12]
         ++ trace (template_in_use (Sample.answers scenario_A_reply) None)
    /\ pptx_save (Sample.answers scenario_A_reply)
         (lay_out_from (Sample.answers scenario_A_reply) 0 slides) None calibri 12
       = inr Sample.deck_path
    /\ mkMetadata 2 (cps "Python basics") false
       = mkMetadata (length slides) (cps "Python basics")
           (template_exists (Sample.answers scenario_A_reply) None)
    /\ (forall n, slice_bound (max_slides ready) = inr (Some n) -> (0 <= n)%Z ->
                  (slide_count (mkMetadata 2 (cps "Python basics") false)
                   <= Z.to_nat n)%nat).
Proof.
  apply (completed_run_shape Sample.runtime (Sample.answers scenario_A_reply)
           (cps "Python basics") None calibri 12 None
           Sample.deck_path (mkMetadata 2 (cps "Python basics") false)).
  vm_compute. reflexivity.
Defined.

(** X20. Every [PPTGenerationError] that leaves [generate_presentation]
    is one of two: the rejection of a blank topic, with the message
    "Topic cannot be empty", or, for a topic that is not blank, the
    wrapping of what the body raised, whose message starts with "Failed to
    generate presentation: ".  So the errors the Ollama client and the
    renderer raise as [PPTGenerationError] never pass unchanged: their
    message is prefixed once more. *)
Theorem failure_carries_prefix
    (rt : PyRuntime) (w : World) (topic : str) (template_path : option str)
    (font_name : str) (font_size : Z) (stop_event : option Event) (e : exn) :
  outcome (generate_presentation rt w topic template_path font_name font_size
             stop_event) = inl e ->
  exn_cls e = PPTGenerationError ->
  (strip topic = [] /\ e = generation_error (cps "Topic cannot be empty"))
  \/ (strip topic <> []
      /\ exists inner,
           outcome (generation_steps rt w topic template_path font_name font_size
                      stop_event) = inl inner
           /\ exn_cls inner <> GenerationStopped
           /\ e = generation_error
                    (cps "Failed to generate presentation: " ++ exn_str inner)).
Proof.
  rewrite generate_presentation_run.
  destruct (strip topic) as [|c t].
  { intros Hraised _. left. split; [reflexivity|].
    cbn [outcome snd] in Hraised. injection Hraised as <-. reflexivity. }
  intros Hraised Hcls. right. split; [discriminate|].
  destruct (stop_requested stop_event BeforeStarting).
  { cbn [outcome snd] in Hraised. injection Hraised as <-. discriminate. }
  cbn [outcome snd] in Hraised.
  destruct (outcome (generation_steps rt w topic template_path font_name font_size
                       stop_event)) as [inner | v]; [|discriminate].
  exists inner. split; [reflexivity|].
  destruct (exn_cls inner) eqn:Hinner;
    try (injection Hraised as <-; split; [discriminate | reflexivity]).
  injection Hraised as <-. congruence.
Qed.

Lemma failure_carries_prefix_witness :
  (strip (cps "Python basics") = []
   /\ generation_error
        (cps "Failed to generate presentation: Failed to create presentation: [Errno 28] No space left on device")
      = generation_error (cps "Topic cannot be empty"))
  \/ (strip (cps "Python basics") <> []
      /\ exists inner,
           outcome (generation_steps Sample.runtime
                      (Sample.answers_but_disk_is_full scenario_A_reply)
                      (cps "Python basics") None calibri 12 None) = inl inner
           /\ exn_cls inner <> GenerationStopped
           /\ generation_error
                (cps "Failed to generate presentation: Failed to create presentation: [Errno 28] No space left on device")
              = generation_error
                  (cps "Failed to generate presentation: " ++ exn_str inner)).
Proof.
  apply (failure_carries_prefix Sample.runtime
           (Sample.answers_but_disk_is_full scenario_A_reply)
           (cps "Python basics") None calibri 12 None).
  - vm_compute. reflexivity.
  - reflexivity.
Defined.

(** X21. The message of a failed model process, end to end.  When the flag
    is never seen set, nothing is raised on the way to the model call, the
    process starts and exits with a non-zero code, the error that
    [ask_ollama] raises inside its own [try] is caught by its last handler
    and then by the handler of [generate_presentation]: the caller sees
    the standard error of the process (or "Unknown error") behind three
    prefixes, and the renderer is not called. *)
Theorem nonzero_exit_end_to_end
    (rt : PyRuntime) (w : World) (topic : str) (template_path : option str)
    (font_name : str) (font_size : Z) (stop_event : option Event)
    (ready : Prepared) (stdout stderr : str) (returncode : Z) :
  strip topic <> [] ->
  (forall c, stop_requested stop_event c = false) ->
  prepare rt (configuration w) topic = inr ready ->
  popen w (model ready) = inr tt ->
  communicate w (prompt ready) (ollama_timeout ready)
  = inr (stdout, stderr, returncode) ->
  returncode <> 0%Z ->
  generate_presentation rt w topic template_path font_name font_size stop_event
  = ([EvLoadConfig; EvPopen (model ready);
      EvCommunicate (prompt ready) (ollama_timeout ready)],
     inl (generation_error
            (cps "Failed to generate presentation: Ollama request failed: Ollama failed: "
             ++ match stderr with [] => cps "Unknown error" | _ => stderr end))).
Proof.
  intros Htopic Hclear Hready Hpopen Hcommunicate Hcode.
  rewrite generate_presentation_run.
  destruct (strip topic) as [|c t]; [contradiction|].
  rewrite Hclear.
  assert (Hsteps :
    generation_steps rt w topic template_path font_name font_size stop_event
    = ([EvLoadConfig; EvPopen (model ready);
        EvCommunicate (prompt ready) (ollama_timeout ready)],
       inl (generation_error
              (cps "Ollama request failed: Ollama failed: "
               ++ match stderr with [] => cps "Unknown error" | _ => stderr end)))).
  { unfold generation_steps, load_config, lift, ask_ollama, call, bind, try_except.
    cbv beta iota zeta. rewrite Hready. cbv beta iota zeta.
    rewrite !Hclear, Hpopen. cbv beta iota zeta. rewrite Hcommunicate.
    apply Z.eqb_neq in Hcode. rewrite Hcode. cbn [negb].
    unfold raise, ask_ollama_handler, generation_error. cbn [exn_cls].
    cbv beta iota zeta. rewrite ?Hclear. unfold raise. cbn [exn_str app].
    reflexivity. }
  rewrite Hsteps. cbn [trace outcome fst snd exn_cls generation_error].
  unfold generation_error. cbn [exn_cls exn_str].
  rewrite app_assoc. reflexivity.
Qed.

Lemma nonzero_exit_end_to_end_witness :
  generate_presentation Sample.runtime
    (Sample.world (inr ([], cps "model not found", 1%Z)) (inr Sample.deck_path))
    (cps "Python basics") None calibri 12 None
  = ([EvLoadConfig; EvPopen (PStr (cps "qwen3"));
      EvCommunicate (default_prompt Sample.runtime (cps "Python basics")) (PInt 120)],
     inl (generation_error
            (cps "Failed to generate presentation: Ollama request failed: Ollama failed: "
             ++ cps "model not found"))).
Proof.
  apply (nonzero_exit_end_to_end Sample.runtime
           (Sample.world (inr ([], cps "model not found", 1%Z)) (inr Sample.deck_path))
           (cps "Python basics") None calibri 12 None
           (mkPrepared (PInt 5) (default_prompt Sample.runtime (cps "Python basics"))
              (PInt 120) (PStr (cps "qwen3")))
           [] (cps "model not found") 1%Z).
  - vm_compute. discriminate.
  - reflexivity.
  - vm_compute. reflexivity.
  - reflexivity.
  - reflexivity.
  - lia.
Defined.

(** X22. The order of the calls.  In every run, stopped, failed or
    completed, the calls that reach the outside are an initial part of one
    of two sequences: configuration, [Popen], [communicate], [kill]; or
    configuration, [Popen], [communicate], the renderer, [os.path.exists]
    on the template.  So each is made at most once, the model is never
    started before the configuration is read, nothing is rendered before
    the model has answered, and no process is killed once the renderer has
    been called.  Unless the run ends with the configuration at most
    loaded, the model, the prompt and the timeout of the calls are those
    the configuration gives. *)
Theorem calls_in_order
    (rt : PyRuntime) (w : World) (topic : str) (template_path : option str)
    (font_name : str) (font_size : Z) (stop_event : option Event) :
  exists prompt timeout model deck path k,
    (trace (generate_presentation rt w topic template_path font_name font_size
              stop_event)
     = firstn k [EvLoadConfig; EvPopen model; EvCommunicate prompt timeout; EvKill]
     \/ trace (generate_presentation rt w topic template_path font_name font_size
                 stop_event)
        = firstn k [EvLoadConfig; EvPopen model; EvCommunicate prompt timeout;
                    EvSave deck template_path font_name font_size;
                    EvPathExists path])
    /\ ((k <= 1)%nat
        \/ (build_prompt rt (configuration w) topic = inr prompt
            /\ py_getitem (configuration w) (cps "ollama_timeout") = inr timeout
            /\ py_getitem (configuration w) (cps "model") = inr model)).
Proof.
  rewrite generate_presentation_run.
  destruct (strip topic) as [|c t].
  { exists [], PNone, PNone, [], [], 0%nat. split; left; [reflexivity | lia]. }
  destruct (stop_requested stop_event BeforeStarting).
  { exists [], PNone, PNone, [], [], 0%nat. split; left; [reflexivity | lia]. }
  cbn [trace fst].
  destruct (generation_steps_cases rt w topic template_path font_name font_size
              stop_event)
    as [(e & _ & Hrun) | [(ready & e & k & Hready & Hrun)
                         | (ready & slides_data & Hready & Hrun)]];
    rewrite Hrun; cbn [trace fst].
  { exists [], PNone, PNone, [], [], 1%nat. split; left; [reflexivity | lia]. }
  { destruct (prepare_returned rt _ topic ready Hready) as (_ & Hprompt & _ & Ht & Hm).
    exists (prompt ready), (ollama_timeout ready), (model ready), [], [], (S k).
    split; [left; reflexivity | right; auto]. }
  destruct (prepare_returned rt _ topic ready Hready) as (_ & Hprompt & _ & Ht & Hm).
  rewrite render_outline_run.
  destruct (validate_and_coerce_slides rt slides_data (max_slides ready))
    as [e | slides].
  { exists (prompt ready), (ollama_timeout ready), (model ready), [], [], 3%nat.
    split; [left; reflexivity | right; auto]. }
  exists (prompt ready), (ollama_timeout ready), (model ready),
    (lay_out_from w 0 slides),
    (match template_path with Some path => path | None => [] end).
  destruct (stop_requested stop_event BeforeRender).
  { exists 3%nat. split; [left; reflexivity | right; auto]. }
  destruct (pptx_save w _ template_path font_name font_size) as [e | file_path].
  { exists 4%nat. split; [right; reflexivity | right; auto]. }
  destruct template_path as [[|c' path]|].
  - exists 4%nat. split; [right; reflexivity | right; auto].
  - exists 5%nat. split; [right; reflexivity | right; auto].
  - exists 4%nat. split; [right; reflexivity | right; auto].
Qed.

(* ===================================================================== *)
(** * The caller: the name of the download and the generation thread *)
(* ===================================================================== *)

Lemma filename_char_not_space (c : char) :
  is_filename_char c = true -> is_space c = false.
Proof.
  unfold is_filename_char, is_space. intros H.
  apply Bool.not_true_iff_false. intros Hs.
  rewrite !Bool.orb_true_iff, !Bool.andb_true_iff, !N.leb_le, !N.eqb_eq in H.
  rewrite !Bool.orb_true_iff, !Bool.andb_true_iff, !N.leb_le, !N.eqb_eq in Hs.
  lia.
Qed.

Lemma lstrip_filename (s : str) :
  forallb is_filename_char s = true -> lstrip s = s.
Proof.
  destruct s as [|c s]; [reflexivity|].
  cbn [forallb lstrip]. intros H. apply Bool.andb_true_iff in H as [Hc _].
  rewrite (filename_char_not_space c Hc). reflexivity.
Qed.

Lemma forallb_rev (f : char -> bool) (s : str) :
  forallb f s = true -> forallb f (rev s) = true.
Proof.
  rewrite !forallb_forall. intros H c Hin. apply H, in_rev, Hin.
Qed.

Lemma strip_filename (s : str) :
  forallb is_filename_char s = true -> strip s = s.
Proof.
  intros H. unfold strip, rstrip.
  rewrite (lstrip_filename s H), (lstrip_filename (rev s) (forallb_rev _ s H)).
  apply rev_involutive.
Qed.

Lemma substituted_is_filename (s : str) :
  forallb is_filename_char
    (map (fun c => if is_filename_char c then c else underscore) s) = true.
Proof.
  induction s as [|c s IH]; [reflexivity|].
  cbn [map forallb]. rewrite IH, Bool.andb_true_r.
  destruct (is_filename_char c) eqn:Hc; [exact Hc | reflexivity].
Qed.

Lemma substitution_keeps_filename (s : str) :
  forallb is_filename_char s = true ->
  map (fun c => if is_filename_char c then c else underscore) s = s.
Proof.
  induction s as [|c s IH]; [reflexivity|].
  cbn [map forallb]. intros H. apply Bool.andb_true_iff in H as [Hc Hs].
  rewrite Hc, (IH Hs). reflexivity.
Qed.

Lemma safe_topic_chars (topic : str) :
  forallb is_filename_char (safe_topic topic) = true.
Proof.
  unfold safe_topic.
  pose proof (substituted_is_filename (strip topic)) as H.
  destruct (map _ (strip topic)) as [|c name]; [reflexivity | exact H].
Qed.

(** X23. The name [main] gives to the download.  It is never empty, it is
    made of ASCII letters, digits, underscores and hyphens only, it is as
    long as the stripped topic unless the topic is blank (each other
    character becomes one underscore, nothing is dropped or merged), and
    naming a name again gives the same name. *)
Theorem safe_topic_is_a_file_name (topic : str) :
  safe_topic topic <> []
  /\ forallb is_filename_char (safe_topic topic) = true
  /\ (strip topic <> [] -> length (safe_topic topic) = length (strip topic))
  /\ (strip topic = [] -> safe_topic topic = cps "Presentation")
  /\ safe_topic (safe_topic topic) = safe_topic topic.
Proof.
  split; [|split; [|split; [|split]]].
  - unfold safe_topic. destruct (map _ (strip topic)); discriminate.
  - apply safe_topic_chars.
  - unfold safe_topic. intros Hnonblank.
    destruct (strip topic) as [|c t]; [contradiction|].
    cbn [map length]. rewrite length_map. reflexivity.
  - unfold safe_topic. intros ->. reflexivity.
  - pose proof (safe_topic_chars topic) as Hchars.
    unfold safe_topic at 1.
    rewrite (strip_filename _ Hchars), (substitution_keeps_filename _ Hchars).
    destruct (safe_topic topic) as [|c name] eqn:Hname; [|reflexivity].
    exfalso. revert Hname. unfold safe_topic.
    destruct (map _ (strip topic)); discriminate.
Qed.

Lemma safe_topic_is_a_file_name_witness :
  length (safe_topic (cps "  AI & ML: 2024 ")) = length (strip (cps "  AI & ML: 2024 ")).
Proof.
  apply (proj1 (proj2 (proj2 (safe_topic_is_a_file_name (cps "  AI & ML: 2024 "))))).
  vm_compute. discriminate.
Defined.

(** X24. The thread never reports an unexpected error.  What
    [generate_presentation] raises is [GenerationStopped] or
    [PPTGenerationError], so the last handler of [generation_thread] is
    never entered: when the backend fails and the flag is clear the
    container holds the status "error" and the message of the backend as
    it is, without the prefix "Unexpected error: "; when the flag is set
    the failure is dropped and the container stays as it was created.  No
    file is touched in either case. *)
Theorem thread_reports_backend_failure
    (rt : PyRuntime) (w : World) (topic : str) (template_path : option str)
    (font_name : str) (font_size : Z) (stop_event : option Event)
    (stop_is_set : bool) (exists_ : str -> bool) (e : exn) :
  outcome (generate_presentation rt w topic template_path font_name font_size
             stop_event) = inl e ->
  exn_cls e <> GenerationStopped ->
  generation_thread
    (outcome (generate_presentation rt w topic template_path font_name font_size
                stop_event)) stop_is_set exists_
  = (if stop_is_set then new_container
     else mkContainer (cps "error") None None (Some (exn_str e)) None, []).
Proof.
  intros Hraised Hcls.
  assert (Hescapes : exn_cls e = GenerationStopped \/ exn_cls e = PPTGenerationError).
  { revert Hraised. unfold generate_presentation.
    destruct (strip topic) as [|c t].
    { intros H. cbn [outcome snd raise] in H. injection H as <-. right. reflexivity. }
    destruct (stop_requested stop_event BeforeStarting).
    { intros H. cbn [outcome snd raise] in H. injection H as <-. left. reflexivity. }
    pose proof (try_except_escapes
                  (generation_steps rt w topic template_path font_name font_size
                     stop_event)
                  generation_handler generation_handler_escapes) as H.
    unfold escapes_cleanly in H. intros Hraised. rewrite Hraised in H. exact H. }
  rewrite Hraised. unfold generation_thread.
  destruct Hescapes as [Hstopped | Herror]; [contradiction|].
  rewrite Herror. destruct stop_is_set; reflexivity.
Qed.

Lemma thread_reports_backend_failure_witness :
  generation_thread
    (outcome (generate_presentation Sample.runtime
                (Sample.answers_but_disk_is_full scenario_A_reply)
                (cps "Python basics") None calibri 12 None)) false (fun _ => false)
  = (mkContainer (cps "error") None None
       (Some (cps "Failed to generate presentation: Failed to create presentation: [Errno 28] No space left on device"))
       None, []).
Proof.
  apply (thread_reports_backend_failure Sample.runtime
           (Sample.answers_but_disk_is_full scenario_A_reply)
           (cps "Python basics") None calibri 12 None false (fun _ => false)
           (generation_error
              (cps "Failed to generate presentation: Failed to create presentation: [Errno 28] No space left on device"))).
  - vm_compute. reflexivity.
  - discriminate.
Defined.

(** X25. The thread once the flag is set.  However the backend ended, the
    container then holds no file, no metadata and no error, and its status
    is "stopped" or still "generating", never "completed" or "error".  A
    deck the backend had returned is deleted when its path is not empty
    and exists, and nothing else is ever deleted. *)
Theorem thread_after_stop
    (ended : exn + (str * Metadata)) (exists_ : str -> bool) :
  (rc_status (fst (generation_thread ended true exists_)) = cps "stopped"
   \/ fst (generation_thread ended true exists_) = new_container)
  /\ rc_file_path (fst (generation_thread ended true exists_)) = None
  /\ rc_metadata (fst (generation_thread ended true exists_)) = None
  /\ rc_error (fst (generation_thread ended true exists_)) = None
  /\ (forall file_path,
        In (FsUnlink file_path) (snd (generation_thread ended true exists_))
        <-> file_path <> [] /\ exists_ file_path = true
            /\ exists metadata, ended = inr (file_path, metadata)).
Proof.
  destruct ended as [e | [path metadata]]; unfold generation_thread.
  - assert (Hnone : forall file_path,
              In (FsUnlink file_path) []
              <-> file_path <> [] /\ exists_ file_path = true
                  /\ exists metadata, @inl exn (str * Metadata) e
                                       = inr (file_path, metadata)).
    { intros file_path. split; [intros [] | intros (_ & _ & metadata & Habs)].
      discriminate. }
    destruct (exn_cls e); cbn [negb fst snd rc_status rc_file_path rc_metadata rc_error];
      (split; [first [left; reflexivity | right; reflexivity]|]);
      repeat (split; [reflexivity|]); exact Hnone.
  - cbn [negb fst snd rc_status rc_file_path rc_metadata rc_error].
    split; [left; reflexivity|]. repeat (split; [reflexivity|]).
    intros file_path. split.
    + intros Hin. destruct path as [|c path]; [destruct Hin|].
      unfold cleanup_temp_file in Hin.
      destruct (exists_ (c :: path)) eqn:Hexists; cbn [In] in Hin.
      * destruct Hin as [H | [H | [H | []]]]; try discriminate.
        injection H as <-.
        split; [discriminate|]. split; [exact Hexists|].
        exists metadata. reflexivity.
      * destruct Hin as [H | []]; discriminate.
    + intros (Hnonempty & Hexists & metadata' & Hended).
      injection Hended as <- <-.
      destruct path as [|c path]; [contradiction|].
      rewrite Hexists. unfold cleanup_temp_file. rewrite Hexists.
      cbn [In]. auto.
Qed.

Lemma thread_after_stop_witness :
  In (FsUnlink Sample.deck_path)
     (snd (generation_thread
             (inr (Sample.deck_path, mkMetadata 2 (cps "Python basics") false))
             true (fun _ => true))).
Proof.
  apply (proj2 (proj2 (proj2 (proj2
           (thread_after_stop
              (inr (Sample.deck_path, mkMetadata 2 (cps "Python basics") false))
              (fun _ => true)))))).
  split; [discriminate|].
  split; [reflexivity|].
  exists (mkMetadata 2 (cps "Python basics") false). reflexivity.
Defined.
